(** * HVProgrammer: the ATtiny high-voltage serial fuse reprogrammer

    A shallow embedding of [src/HVProgrammer.cpp].  The sketch talks to
    the outside through the Arduino calls only, so every call is an
    event of an output trace, and what the board answers (pin levels,
    the millisecond counter, the serial receive buffer) is read from an
    environment.  The busy-wait loops of the sketch have no bound of
    their own: they are run on fuel, and running out of it stands for a
    loop that does not end.  [setup()], which only configures the pins
    and leaves the 12 V off, is not part of the model. *)

From Stdlib Require Import ZArith List String Ascii Bool Lia.
Import ListNotations.
Local Open Scope Z_scope.

(** ** Pins, levels and events *)

(** The pins the sketch names (lines 32-41) and the board's LED. *)
Inductive pin : Type :=
  | RST | SCI | SDO | SII | SDI | VCC | LED_BUILTIN | START_BUTTON_PIN.

Inductive pin_mode : Type := INPUT | OUTPUT | INPUT_PULLUP.

Definition HIGH : bool := true.
Definition LOW : bool := false.

(** One event per Arduino call, with what was written or what came back. *)
Inductive event : Type :=
  | DigitalWrite (p : pin) (level : bool)
  | DigitalRead (p : pin) (level : bool)
  | PinMode (p : pin) (m : pin_mode)
  | Millis (t : Z)
  | Delay (ms : Z)
  | DelayMicroseconds (us : Z)
  | SerialAvailable (n : Z)
  | SerialRead (c : Z)
  | SerialPrint (s : string)
  | SerialPrintln (s : string)
  | SerialPrintHex (n : Z)
  | SerialPrintlnHex (n : Z).

(** ** The board *)

(** What the hardware answers: the level of the response line and of the
    start button at their n-th sample, and the n-th reading of the
    millisecond counter. *)
Record board : Type := {
  sdo_line : nat -> bool;
  btn_line : nat -> bool;
  clock : nat -> Z
}.

(** How much of the board's answers has been consumed, and the bytes
    waiting in the serial receive buffer. *)
Record world : Type := {
  sdo_reads : nat;
  btn_reads : nat;
  clock_reads : nat;
  serial_in : list Z
}.

(** A computation gives a result, the events it caused and the next
    world, or [None] when its fuel ran out inside a waiting loop. *)
Definition M (A : Type) : Type := world -> option (A * list event * world).

Definition ret {A} (a : A) : M A := fun w => Some (a, [], w).

Definition bind {A B} (m : M A) (k : A -> M B) : M B :=
  fun w =>
    match m w with
    | None => None
    | Some (a, e1, w1) =>
        match k a w1 with
        | None => None
        | Some (b, e2, w2) => Some (b, e1 ++ e2, w2)
        end
    end.

Definition diverge {A} : M A := fun _ => None.

Definition emit (e : event) : M unit := fun w => Some (tt, [e], w).

Notation "x <- c1 ;; c2" := (bind c1 (fun x => c2))
  (at level 61, c1 at next level, right associativity).
Notation "c1 ;; c2" := (bind c1 (fun _ => c2))
  (at level 61, right associativity).

(** Unsigned and signed C integer types, with the wrap-around written out. *)
Definition uint8 (z : Z) : Z := z mod 256.
Definition uint16 (z : Z) : Z := z mod 65536.
Definition uint32 (z : Z) : Z := z mod 4294967296.
Definition to_char (z : Z) : Z := (z + 128) mod 256 - 128.

Definition b2z (b : bool) : Z := if b then 1 else 0.

(** A character literal as the integer C compares it with. *)
Definition chr (a : ascii) : Z := Z.of_N (N_of_ascii a).

(** The escapes of the sketch's string literals. *)
Definition TAB : string := String (ascii_of_nat 9) EmptyString.
Definition LF : string := String (ascii_of_nat 10) EmptyString.

Section Sketch.

Variable hw : board.

(** *** Arduino calls *)

Definition digitalWrite (p : pin) (v : bool) : M unit := emit (DigitalWrite p v).
Definition pinMode (p : pin) (m : pin_mode) : M unit := emit (PinMode p m).
Definition delay (ms : Z) : M unit := emit (Delay ms).
Definition delayMicroseconds (us : Z) : M unit := emit (DelayMicroseconds us).
Definition Serial_print (s : string) : M unit := emit (SerialPrint s).
Definition Serial_println (s : string) : M unit := emit (SerialPrintln s).
Definition Serial_print_HEX (n : Z) : M unit := emit (SerialPrintHex n).
Definition Serial_println_HEX (n : Z) : M unit := emit (SerialPrintlnHex n).

(** The sketch reads two pins only; the others are outputs. *)
Definition digitalRead (p : pin) : M bool :=
  fun w =>
    match p with
    | SDO =>
        let v := sdo_line hw (sdo_reads w) in
        Some (v, [DigitalRead SDO v],
              {| sdo_reads := S (sdo_reads w); btn_reads := btn_reads w;
                 clock_reads := clock_reads w; serial_in := serial_in w |})
    | START_BUTTON_PIN =>
        let v := btn_line hw (btn_reads w) in
        Some (v, [DigitalRead START_BUTTON_PIN v],
              {| sdo_reads := sdo_reads w; btn_reads := S (btn_reads w);
                 clock_reads := clock_reads w; serial_in := serial_in w |})
    | _ => Some (LOW, [DigitalRead p LOW], w)
    end.

(** [millis()] is an [unsigned long], 32 bits on the AVR boards. *)
Definition millis : M Z :=
  fun w =>
    let t := uint32 (clock hw (clock_reads w)) in
    Some (t, [Millis t],
          {| sdo_reads := sdo_reads w; btn_reads := btn_reads w;
             clock_reads := S (clock_reads w); serial_in := serial_in w |}).

Definition Serial_available : M Z :=
  fun w =>
    let n := Z.of_nat (List.length (serial_in w)) in
    Some (n, [SerialAvailable n], w).

(** [Serial.read()] gives -1 on an empty buffer. *)
Definition Serial_read : M Z :=
  fun w =>
    match serial_in w with
    | [] => Some (-1, [SerialRead (-1)], w)
    | c :: rest =>
        Some (c, [SerialRead c],
              {| sdo_reads := sdo_reads w; btn_reads := btn_reads w;
                 clock_reads := clock_reads w; serial_in := rest |})
    end.

(** *** Constants of the sketch (lines 34-55) *)

Definition READING_TIMEOUT_MILLIS : Z := 300.
Definition HFUSE : Z := 0x747C.
Definition LFUSE : Z := 0x646C.
Definition EFUSE : Z := 0x666E.
Definition ATTINY13 : Z := 0x9007.
Definition ATTINY24 : Z := 0x910B.
Definition ATTINY25 : Z := 0x9108.
Definition ATTINY44 : Z := 0x9207.
Definition ATTINY45 : Z := 0x9206.
Definition ATTINY84 : Z := 0x930C.
Definition ATTINY85 : Z := 0x930B.

(** *** shiftOut (lines 209-233) *)

(** The loop of lines 214-218, which the sketch repeats word for word at
    lines 260-264 and 278-282: leave when the response line reads high,
    or when the counter has passed [tMillis + READING_TIMEOUT_MILLIS],
    a sum of 32-bit unsigned numbers. *)
Fixpoint waitLoop (fuel : nat) (tMillis : Z) : M unit :=
  match fuel with
  | O => diverge
  | S fuel' =>
      v <- digitalRead SDO ;;
      if v then ret tt
      else
        t <- millis ;;
        if t >? uint32 (tMillis + READING_TIMEOUT_MILLIS) then ret tt
        else waitLoop fuel' tMillis
  end.

(** Lines 213-218. *)
Definition waitSDO (fuel : nat) : M unit :=
  tMillis <- millis ;;
  waitLoop fuel tMillis.

(** The [for] loop of lines 221-228; [n] is [i + 1], so the loop runs
    for [i = n - 1] down to [0]. *)
Fixpoint shiftBits (n : nat) (tSDIOut tSIIOut tInBits : Z) : M Z :=
  match n with
  | O => ret tInBits
  | S i =>
      let mask := Z.shiftl 1 (Z.of_nat i) in
      digitalWrite SDI (negb (Z.land tSDIOut mask =? 0)) ;;
      digitalWrite SII (negb (Z.land tSIIOut mask =? 0)) ;;
      let tInBits := uint16 (Z.shiftl tInBits 1) in
      v <- digitalRead SDO ;;
      let tInBits := Z.lor tInBits (b2z v) in
      digitalWrite SCI HIGH ;;
      digitalWrite SCI LOW ;;
      shiftBits i tSDIOut tSIIOut tInBits
  end.

Definition shiftOut (fuel : nat) (aValue aAddress : Z) : M Z :=
  waitSDO fuel ;;
  let tSDIOut := uint16 (Z.shiftl aValue 2) in
  let tSIIOut := uint16 (Z.shiftl aAddress 2) in
  tInBits <- shiftBits 11 tSDIOut tSIIOut 0 ;;
  ret (uint8 (Z.shiftr tInBits 2)).

(** *** readLockBits (lines 236-267) *)

Definition readLockBits (fuel : nat) : M unit :=
  Serial_println "Reading lock bits..." ;;
  shiftOut fuel 0x04 0x4C ;;
  shiftOut fuel 0x00 0x78 ;;
  tValue <- shiftOut fuel 0x00 0x7C ;;
  Serial_print (TAB ++ "Lock: ") ;;
  Serial_print_HEX tValue ;;
  (if negb (Z.land tValue 0x01 =? 0)
   then Serial_println (LF ++ TAB ++ TAB ++ "LB1 Not Programmed")
   else Serial_println (LF ++ TAB ++ TAB ++ "LB1 Programmed")) ;;
  (if negb (Z.land tValue 0x02 =? 0)
   then Serial_println (TAB ++ TAB ++ "LB2 Not Programmed")
   else Serial_println (TAB ++ TAB ++ "LB2 Programmed")) ;;
  waitSDO fuel ;;
  Serial_println "Reading Lock Bits complete".

(** *** eraseFlashAndLockBits (lines 269-285) *)

Definition eraseFlashAndLockBits (fuel : nat) : M unit :=
  Serial_println (LF ++ "Erasing flash and lock bits...") ;;
  shiftOut fuel 0x80 0x4C ;;
  shiftOut fuel 0x00 0x64 ;;
  shiftOut fuel 0x00 0x6C ;;
  waitSDO fuel ;;
  Serial_println ("Erasing complete" ++ LF).

(** *** writeFuse (lines 287-299) *)

Definition writeFuse (fuel : nat) (aFuseAddress aFuseValue : Z) : M unit :=
  Serial_print "Writing fuse value " ;;
  Serial_print_HEX aFuseValue ;;
  Serial_println " to ATtiny..." ;;
  shiftOut fuel 0x40 0x4C ;;
  shiftOut fuel aFuseValue 0x2C ;;
  shiftOut fuel 0x00 (uint8 (Z.shiftr aFuseAddress 8)) ;;
  shiftOut fuel 0x00 (uint8 aFuseAddress) ;;
  Serial_println "Writing complete.".

(** *** readFuses (lines 301-324) *)

Definition readFuses (fuel : nat) : M unit :=
  Serial_println "Reading fuse settings from ATtiny..." ;;
  shiftOut fuel 0x04 0x4C ;;
  shiftOut fuel 0x00 0x68 ;;
  tValue <- shiftOut fuel 0x00 0x6C ;;
  Serial_print (TAB ++ "LFuse: ") ;;
  Serial_print_HEX tValue ;;
  shiftOut fuel 0x04 0x4C ;;
  shiftOut fuel 0x00 0x7A ;;
  tValue <- shiftOut fuel 0x00 0x7E ;;
  Serial_print ", HFuse: " ;;
  Serial_print_HEX tValue ;;
  shiftOut fuel 0x04 0x4C ;;
  shiftOut fuel 0x00 0x6A ;;
  tValue <- shiftOut fuel 0x00 0x6E ;;
  Serial_print ", EFuse: " ;;
  Serial_println_HEX tValue ;;
  Serial_println "Reading fuse values complete.".

(** *** readSignature (lines 326-338) *)

(** The [for] loop of lines 329-335; [n] bounds the rounds left. *)
Fixpoint signatureLoop (fuel n : nat) (tIndex tSignature : Z) : M Z :=
  match n with
  | O => ret tSignature
  | S n' =>
      if tIndex <? 3 then
        shiftOut fuel 0x08 0x4C ;;
        shiftOut fuel tIndex 0x0C ;;
        shiftOut fuel 0x00 0x68 ;;
        tValue <- shiftOut fuel 0x00 0x6C ;;
        signatureLoop fuel n' (uint8 (tIndex + 1))
          (uint16 (Z.shiftl tSignature 8 + tValue))
      else ret tSignature
  end.

(** [tIndex] starts at 1, so the test [tIndex < 3] fails at the third
    round. *)
Definition readSignature (fuel : nat) : M Z :=
  signatureLoop fuel 3 1 0.

(** *** loop (lines 85-206) *)

(** Line 98: wait for a byte on the serial line or for the button, which
    reads low when pressed. *)
Fixpoint waitStart (fuel : nat) : M unit :=
  match fuel with
  | O => diverge
  | S fuel' =>
      n <- Serial_available ;;
      if n =? 0 then
        v <- digitalRead START_BUTTON_PIN ;;
        if v then waitStart fuel' else ret tt
      else ret tt
  end.

(** Lines 106-108: empty the receive buffer; [n] is the number of bytes
    in it, and nothing arrives meanwhile. *)
Fixpoint drainLoop (n : nat) : M unit :=
  match n with
  | O => Serial_available ;; ret tt
  | S n' =>
      a <- Serial_available ;;
      if 0 <? a then Serial_read ;; drainLoop n' else ret tt
  end.

Definition drainSerial : M unit :=
  fun w => drainLoop (List.length (serial_in w)) w.

(** Lines 173-174: wait for the button to be released. *)
Fixpoint waitRelease (fuel : nat) : M unit :=
  match fuel with
  | O => diverge
  | S fuel' =>
      v <- digitalRead START_BUTTON_PIN ;;
      if v then ret tt else waitRelease fuel'
  end.

(** The condition of lines 139 and 163. *)
Definition writesDefaults (tReceivedChar : Z) : bool :=
  negb (tReceivedChar =? chr "e") && negb (tReceivedChar =? chr "E")
  && negb (tReceivedChar =? chr "r") && negb (tReceivedChar =? chr "R").

(** Lines 111-122. *)
Definition powerUp : M unit :=
  digitalWrite LED_BUILTIN HIGH ;;
  pinMode SDO OUTPUT ;;
  digitalWrite SDI LOW ;;
  digitalWrite SII LOW ;;
  digitalWrite SDO LOW ;;
  digitalWrite RST HIGH ;;
  digitalWrite VCC HIGH ;;
  delayMicroseconds 20 ;;
  digitalWrite RST LOW ;;
  delayMicroseconds 10 ;;
  pinMode SDO INPUT ;;
  delayMicroseconds 300.

(** Lines 136-180: the branch on the signature. *)
Definition restoreFuses (fuel : nat) (tReceivedChar tSignature : Z) : M unit :=
  if tSignature =? ATTINY13 then
    Serial_println "The ATtiny is detected as ATtiny13/ATtiny13A." ;;
    if writesDefaults tReceivedChar then
      Serial_println "Write LFUSE: 0x6A" ;;
      writeFuse fuel LFUSE 0x6A ;;
      Serial_println "Write HFUSE: 0xFF" ;;
      writeFuse fuel HFUSE 0xFF ;;
      Serial_println ""
    else ret tt
  else if (tSignature =? ATTINY24) || (tSignature =? ATTINY44)
          || (tSignature =? ATTINY84) || (tSignature =? ATTINY25)
          || (tSignature =? ATTINY45) || (tSignature =? ATTINY85) then
    Serial_print "The ATtiny is detected as " ;;
    (if tSignature =? ATTINY24 then Serial_println "ATTINY24."
     else if tSignature =? ATTINY44 then Serial_println "ATTINY44."
     else if tSignature =? ATTINY84 then Serial_println "ATTINY84."
     else if tSignature =? ATTINY25 then Serial_println "ATTINY25."
     else if tSignature =? ATTINY45 then Serial_println "ATTINY45."
     else if tSignature =? ATTINY85 then Serial_println "ATTINY85."
     else ret tt) ;;
    if writesDefaults tReceivedChar then
      Serial_println "Write LFUSE: 0x62" ;;
      writeFuse fuel LFUSE 0x62 ;;
      Serial_println "Write HFUSE: 0xDF" ;;
      writeFuse fuel HFUSE 0xDF ;;
      Serial_println "Write EFUSE: 0xFF" ;;
      writeFuse fuel EFUSE 0xFF
    else ret tt
  else
    waitRelease fuel ;;
    delay 100 ;;
    Serial_println "No valid ATtiny signature detected! Try again." ;;
    Serial_println "".

(** Lines 187-194. *)
Definition powerDown : M unit :=
  digitalWrite SCI LOW ;;
  digitalWrite VCC LOW ;;
  digitalWrite RST HIGH ;;
  Serial_println "" ;;
  delay 1000 ;;
  digitalWrite LED_BUILTIN LOW ;;
  delay 1000.

(** Lines 102-194: the body of the [if] of line 100. *)
Definition session (fuel : nat) : M unit :=
  c <- Serial_read ;;
  let tReceivedChar := to_char c in
  delay 100 ;;
  drainSerial ;;
  powerUp ;;
  Serial_println "Reading signature from connected ATtiny..." ;;
  tSignature <- readSignature fuel ;;
  Serial_println "Reading complete.." ;;
  Serial_print (TAB ++ "Signature is: ") ;;
  Serial_println_HEX tSignature ;;
  readFuses fuel ;;
  readLockBits fuel ;;
  (if (tReceivedChar =? chr "e") || (tReceivedChar =? chr "E")
   then eraseFlashAndLockBits fuel else ret tt) ;;
  restoreFuses fuel tReceivedChar tSignature ;;
  (if negb (tReceivedChar =? chr "r") && negb (tReceivedChar =? chr "R") then
     Serial_println "Fuses and lock bits will be read again to check values..." ;;
     readFuses fuel ;;
     readLockBits fuel
   else ret tt) ;;
  powerDown.

Definition loop (fuel : nat) : M unit :=
  Serial_println "" ;;
  Serial_println "Enter 'r' to only read fuses and lock bits..." ;;
  Serial_println "Enter 'e' to erase flash and lock bits..." ;;
  Serial_println
    "Enter any other character or press button at pin 6 to to write fuses to default..." ;;
  Serial_println "" ;;
  waitStart fuel ;;
  v <- digitalRead START_BUTTON_PIN ;;
  go <- (if negb v then ret true
         else n <- Serial_available ;; ret (0 <? n)) ;;
  if go then session fuel else ret tt.

End Sketch.

Arguments shiftOut hw fuel aValue aAddress w : simpl never.
Arguments waitSDO hw fuel w : simpl never.

(** ** Reading a trace *)

(** The bits [n-1], ..., 0 of [x], the highest first. *)
Definition bits_below (n : nat) (x : Z) : list bool :=
  map (fun i => Z.testbit x (Z.of_nat i)) (rev (seq 0 n)).

(** The 11 bits of a frame, bit 10 first. *)
Definition frame_bits (x : Z) : list bool := bits_below 11 x.

(** A shift register that takes the bits of the list one by one, each
    entering at bit 0. *)
Definition pack_from (acc : Z) (bits : list bool) : Z :=
  fold_left (fun acc b => 2 * acc + b2z b) bits acc.

Definition pack (bits : list bool) : Z := pack_from 0 bits.

(** The byte an 11-bit frame carries: bits 9 to 2. *)
Definition frame_byte (bits : list bool) : Z :=
  uint8 (Z.shiftr (pack bits) 2).

(** What crosses the pins during the clock cycles of a frame: the two
    output bits are set, the response line is sampled, the clock goes
    high and low. *)
Fixpoint frame_events (vbits abits samples : list bool) : list event :=
  match vbits, abits, samples with
  | v :: vbits', a :: abits', s :: samples' =>
      DigitalWrite SDI v :: DigitalWrite SII a :: DigitalRead SDO s
      :: DigitalWrite SCI HIGH :: DigitalWrite SCI LOW
      :: frame_events vbits' abits' samples'
  | _, _, _ => []
  end.

(** The levels of the response line at its samples [i], ..., [i+n-1]. *)
Definition sdo_samples (hw : board) (i n : nat) : list bool :=
  map (sdo_line hw) (seq i n).

(** The world after [n] more samples of the response line. *)
Definition after_samples (n : nat) (w : world) : world :=
  {| sdo_reads := sdo_reads w + n; btn_reads := btn_reads w;
     clock_reads := clock_reads w; serial_in := serial_in w |}.

(** Clock pulses of a trace: the clock line written high, then low. *)
Fixpoint clock_pulses (evs : list event) : nat :=
  match evs with
  | [] => 0%nat
  | DigitalWrite SCI true :: rest =>
      match rest with
      | DigitalWrite SCI false :: _ => S (clock_pulses rest)
      | _ => clock_pulses rest
      end
  | _ :: rest => clock_pulses rest
  end.

(** The levels the sketch read from the response line, in order. *)
Fixpoint sdo_seen (evs : list event) : list bool :=
  match evs with
  | [] => []
  | DigitalRead SDO v :: rest => v :: sdo_seen rest
  | _ :: rest => sdo_seen rest
  end.

Definition last_n {A} (n : nat) (l : list A) : list A :=
  skipn (List.length l - n) l.

(** The events of a waiting loop: samples of the response line and
    readings of the counter. *)
Definition is_poll (e : event) : bool :=
  match e with
  | DigitalRead SDO _ | Millis _ => true
  | _ => false
  end.

(** Every wait for the response line, begun at any sample [i] and any
    reading [j] of the counter, ends within [n] rounds: the line reads
    high, or the counter passes the 32-bit sum the sketch compares with. *)
Definition settles (hw : board) (n : nat) : Prop :=
  forall i j, exists k, (k < n)%nat /\
    (sdo_line hw (i + k) = true \/
     uint32 (clock hw (j + 1 + k)) >
       uint32 (uint32 (clock hw j) + READING_TIMEOUT_MILLIS)).

(** *** The transactions of a trace

    A monitor on the four programming lines, as the target sees them: at
    every rising edge of the clock it takes the levels last written to
    the two output lines and the level last sampled on the response
    line; 11 edges make one transaction. *)

Record transaction : Type := {
  sdi_byte : Z;
  sii_byte : Z;
  sdo_byte : Z
}.

Record bus : Type := {
  sdi_level : bool;
  sii_level : bool;
  sdo_level : bool;
  sci_level : bool;
  sdi_bits : list bool;
  sii_bits : list bool;
  sdo_bits : list bool
}.

Definition bus_start : bus :=
  {| sdi_level := LOW; sii_level := LOW; sdo_level := LOW; sci_level := LOW;
     sdi_bits := []; sii_bits := []; sdo_bits := [] |}.

Definition rising_edge (b : bus) : bus * list transaction :=
  let vs := sdi_bits b ++ [sdi_level b] in
  let az := sii_bits b ++ [sii_level b] in
  let rs := sdo_bits b ++ [sdo_level b] in
  if (List.length vs =? 11)%nat then
    ({| sdi_level := sdi_level b; sii_level := sii_level b;
        sdo_level := sdo_level b; sci_level := HIGH;
        sdi_bits := []; sii_bits := []; sdo_bits := [] |},
     [{| sdi_byte := frame_byte vs; sii_byte := frame_byte az;
         sdo_byte := frame_byte rs |}])
  else
    ({| sdi_level := sdi_level b; sii_level := sii_level b;
        sdo_level := sdo_level b; sci_level := HIGH;
        sdi_bits := vs; sii_bits := az; sdo_bits := rs |}, []).

Definition bus_step (b : bus) (e : event) : bus * list transaction :=
  match e with
  | DigitalWrite SDI v =>
      ({| sdi_level := v; sii_level := sii_level b; sdo_level := sdo_level b;
          sci_level := sci_level b; sdi_bits := sdi_bits b;
          sii_bits := sii_bits b; sdo_bits := sdo_bits b |}, [])
  | DigitalWrite SII v =>
      ({| sdi_level := sdi_level b; sii_level := v; sdo_level := sdo_level b;
          sci_level := sci_level b; sdi_bits := sdi_bits b;
          sii_bits := sii_bits b; sdo_bits := sdo_bits b |}, [])
  | DigitalRead SDO v =>
      ({| sdi_level := sdi_level b; sii_level := sii_level b; sdo_level := v;
          sci_level := sci_level b; sdi_bits := sdi_bits b;
          sii_bits := sii_bits b; sdo_bits := sdo_bits b |}, [])
  | DigitalWrite SCI true =>
      if sci_level b then (b, []) else rising_edge b
  | DigitalWrite SCI false =>
      ({| sdi_level := sdi_level b; sii_level := sii_level b;
          sdo_level := sdo_level b; sci_level := LOW; sdi_bits := sdi_bits b;
          sii_bits := sii_bits b; sdo_bits := sdo_bits b |}, [])
  | _ => (b, [])
  end.

Fixpoint observe (b : bus) (evs : list event) : bus * list transaction :=
  match evs with
  | [] => (b, [])
  | e :: rest =>
      let (b1, t1) := bus_step b e in
      let (b2, t2) := observe b1 rest in
      (b2, t1 ++ t2)
  end.

Definition transactions (evs : list event) : list transaction :=
  snd (observe bus_start evs).

(** The (value, address) pairs of the calls of [shiftOut] behind a trace. *)
Definition command (t : transaction) : Z * Z := (sdi_byte t, sii_byte t).

Definition commands (evs : list event) : list (Z * Z) :=
  map command (transactions evs).

(** The bytes the target answered. *)
Definition responses (evs : list event) : list Z :=
  map sdo_byte (transactions evs).

(** Between two frames: the clock is low and no bit is pending. *)
Definition idle (b : bus) : Prop :=
  sci_level b = false /\ sdi_bits b = [] /\ sii_bits b = [] /\ sdo_bits b = [].

(** A stretch of a trace that starts and ends between frames and holds
    the transactions [ts]. *)
Definition carries (evs : list event) (ts : list transaction) : Prop :=
  forall b, idle b -> exists b', observe b evs = (b', ts) /\ idle b'.

(** Events that leave the clock alone, or pull it low. *)
Definition silent (e : event) : bool :=
  match e with
  | DigitalWrite SCI true => false
  | _ => true
  end.

(** The level a pin was last set to. *)
Fixpoint level_of (p : pin) (evs : list event) (start : bool) : bool :=
  match evs with
  | [] => start
  | DigitalWrite q v :: rest =>
      level_of p rest
        (match p, q with
         | RST, RST | SCI, SCI | SDO, SDO | SII, SII | SDI, SDI | VCC, VCC
         | LED_BUILTIN, LED_BUILTIN | START_BUTTON_PIN, START_BUTTON_PIN => v
         | _, _ => start
         end)
  | _ :: rest => level_of p rest start
  end.

(** *** The command tables of the sketch, as sequences of (value, address) *)

Definition signature_commands : list (Z * Z) :=
  [(0x08, 0x4C); (1, 0x0C); (0x00, 0x68); (0x00, 0x6C);
   (0x08, 0x4C); (2, 0x0C); (0x00, 0x68); (0x00, 0x6C)].

Definition fuse_read_commands : list (Z * Z) :=
  [(0x04, 0x4C); (0x00, 0x68); (0x00, 0x6C);
   (0x04, 0x4C); (0x00, 0x7A); (0x00, 0x7E);
   (0x04, 0x4C); (0x00, 0x6A); (0x00, 0x6E)].

Definition lock_read_commands : list (Z * Z) :=
  [(0x04, 0x4C); (0x00, 0x78); (0x00, 0x7C)].

Definition erase_commands : list (Z * Z) :=
  [(0x80, 0x4C); (0x00, 0x64); (0x00, 0x6C)].

Definition write_commands (address value : Z) : list (Z * Z) :=
  [(0x40, 0x4C); (value, 0x2C);
   (0x00, Z.shiftr address 8 mod 256); (0x00, address mod 256)].


(** ** Properties of computations *)

(** A computation that returns from every world. *)
Definition total {A} (m : M A) : Prop :=
  forall w, exists a evs w', m w = Some (a, evs, w').

(** Whenever the computation returns, its result and its events are
    related by [P]. *)
Definition yields {A} (m : M A) (P : A -> list event -> Prop) : Prop :=
  forall w a evs w', m w = Some (a, evs, w') -> P a evs.

(** Whenever the computation returns, its events are whole frames, and
    they carry the commands [cs]. *)
Definition issues {A} (m : M A) (cs : list (Z * Z)) : Prop :=
  yields m (fun _ evs => exists ts, carries evs ts /\ map command ts = cs).

(** The events of the programming lines and of the counter. *)
Definition wire (e : event) : bool :=
  match e with
  | DigitalWrite _ _ | DigitalRead _ _ | Millis _ => true
  | _ => false
  end.

(** The lines printed on the console with [println], in order. *)
Fixpoint console_lines (evs : list event) : list string :=
  match evs with
  | [] => []
  | SerialPrintln s :: rest => s :: console_lines rest
  | _ :: rest => console_lines rest
  end.

(** The line [s] was printed on the console. *)
Definition reports (evs : list event) (s : string) : Prop :=
  In s (console_lines evs).

(** The four lines [readLockBits] can print about the lock bits. *)
Definition LB1_programmed : string := LF ++ TAB ++ TAB ++ "LB1 Programmed".
Definition LB1_not_programmed : string := LF ++ TAB ++ TAB ++ "LB1 Not Programmed".
Definition LB2_programmed : string := TAB ++ TAB ++ "LB2 Programmed".
Definition LB2_not_programmed : string := TAB ++ TAB ++ "LB2 Not Programmed".

(** ** The session, as the specification describes it *)

(** The character of line 102: the first byte waiting on the serial
    line, or what [Serial.read()] gives on an empty buffer. *)
Definition received (w : world) : Z := to_char (hd (-1) (serial_in w)).

(** The three modes of the console: [r] reads only, [e] erases, anything
    else (and the button) writes the default fuses. *)
Inductive mode : Type := read_only | erase | write_defaults.

Definition requested_mode (c : Z) : mode :=
  if (c =? chr "r") || (c =? chr "R") then read_only
  else if (c =? chr "e") || (c =? chr "E") then erase
  else write_defaults.

(** The known devices: signature, then the default low, high and
    extended fuse bytes; the ATtiny13 has no extended fuse. *)
Definition device_table : list (Z * (Z * Z * option Z)) :=
  [ (0x9007, (0x6A, 0xFF, None));
    (0x910B, (0x62, 0xDF, Some 0xFF));
    (0x9108, (0x62, 0xDF, Some 0xFF));
    (0x9207, (0x62, 0xDF, Some 0xFF));
    (0x9206, (0x62, 0xDF, Some 0xFF));
    (0x930C, (0x62, 0xDF, Some 0xFF));
    (0x930B, (0x62, 0xDF, Some 0xFF)) ].

Definition fuse_defaults (signature : Z) : option (Z * Z * option Z) :=
  match find (fun d => fst d =? signature) device_table with
  | Some d => Some (snd d)
  | None => None
  end.

(** The writes of the default fuses of a device, none for an unknown one. *)
Definition default_write_commands (signature : Z) : list (Z * Z) :=
  match fuse_defaults signature with
  | Some (low, high, extended) =>
      write_commands 0x646C low ++ write_commands 0x747C high ++
      match extended with
      | Some e => write_commands 0x666E e
      | None => []
      end
  | None => []
  end.

Definition mutation_commands (m : mode) (signature : Z) : list (Z * Z) :=
  match m with
  | read_only => []
  | erase => erase_commands
  | write_defaults => default_write_commands signature
  end.

Definition verify_commands (m : mode) : list (Z * Z) :=
  match m with
  | read_only => []
  | _ => fuse_read_commands ++ lock_read_commands
  end.

(** The signature the session printed: the number that follows the
    label of line 126. *)
Fixpoint signature_of (evs : list event) : option Z :=
  match evs with
  | [] => None
  | SerialPrint s :: rest =>
      match rest with
      | SerialPrintlnHex n :: _ =>
          if String.eqb s (TAB ++ "Signature is: ") then Some n
          else signature_of rest
      | _ => signature_of rest
      end
  | _ :: rest => signature_of rest
  end.

(** The events of lines 187-194. *)
Definition power_down_events : list event :=
  [ DigitalWrite SCI LOW; DigitalWrite VCC LOW; DigitalWrite RST HIGH;
    SerialPrintln ""; Delay 1000; DigitalWrite LED_BUILTIN LOW; Delay 1000 ].

(** Events that set no pin and print nothing without a line end. *)
Definition background (e : event) : bool :=
  match e with
  | DigitalWrite _ _ => false
  | SerialPrint _ => false
  | _ => true
  end.

(** Events other than a print without a line end. *)
Definition unlabelled (e : event) : bool :=
  match e with
  | SerialPrint _ => false
  | _ => true
  end.

(** From any sample on, the start button reads released within [n]
    samples. *)
Definition released (hw : board) (n : nat) : Prop :=
  forall i, exists k, (k < n)%nat /\ btn_line hw (i + k) = true.

(** ** Boards and worlds to run the sketch on *)

(** The samples of the response line around one transaction answered
    with the byte [b]: high when the sketch waits, then the 11 bits of
    the frame. *)
Definition answer (b : Z) : list bool :=
  true :: false :: bits_below 8 b ++ [false; false].

(** A target that is ready at every wait and answers the successive
    transactions with the given bytes; after them its response line
    stays high.  The button is not pressed, and the counter advances by
    one at every reading. *)
Definition target (answers : list Z) : board :=
  {| sdo_line := fun n => nth n (flat_map answer answers) true;
     btn_line := fun _ => true;
     clock := fun n => Z.of_nat n |}.

(** A board whose response line stays low; its counter reads [t0] first
    and advances by one at every reading. *)
Definition silent_board (t0 : Z) : board :=
  {| sdo_line := fun _ => false;
     btn_line := fun _ => true;
     clock := fun n => t0 + Z.of_nat n |}.

(** The world at power-on, with the bytes [rx] waiting on the serial
    line. *)
Definition power_on (rx : list Z) : world :=
  {| sdo_reads := 0; btn_reads := 0; clock_reads := 0; serial_in := rx |}.

(** ** More ways to read a run *)

(** The numbers printed in hexadecimal, in order. *)
Fixpoint hex_values (evs : list event) : list Z :=
  match evs with
  | [] => []
  | SerialPrintHex n :: rest => n :: hex_values rest
  | SerialPrintlnHex n :: rest => n :: hex_values rest
  | _ :: rest => hex_values rest
  end.

(** The events [shiftOut] may cause: it sets the two output lines and
    the clock, samples the response line and reads the counter. *)
Definition programming_line (e : event) : bool :=
  match e with
  | DigitalWrite SDI _ | DigitalWrite SII _ | DigitalWrite SCI _ => true
  | DigitalRead SDO _ => true
  | Millis _ => true
  | _ => false
  end.

(** A computation that takes nothing from the serial receive buffer. *)
Definition keeps_serial {A} (m : M A) : Prop :=
  forall w a evs w', m w = Some (a, evs, w') -> serial_in w' = serial_in w.

(** A target as [target], under a start button that is held down for
    good. *)
Definition held_button_board (answers : list Z) : board :=
  {| sdo_line := fun n => nth n (flat_map answer answers) true;
     btn_line := fun _ => false;
     clock := fun n => Z.of_nat n |}.

(** A target as [target], under a start button that reads pressed at
    its first [n] samples and released from then on. *)
Definition pressed_board (answers : list Z) (n : nat) : board :=
  {| sdo_line := fun k => nth k (flat_map answer answers) true;
     btn_line := fun k => (n <=? k)%nat;
     clock := fun k => Z.of_nat k |}.

(** The value the first [Serial.read()] of a trace gave: in a pass of
    [loop] this is the read of line 102, which gives the command. *)
Fixpoint command_read (evs : list event) : option Z :=
  match evs with
  | [] => None
  | SerialRead c :: _ => Some c
  | _ :: rest => command_read rest
  end.

(** The events in which the sketch looks at the serial receive buffer. *)
Definition serial_input (e : event) : bool :=
  match e with
  | SerialAvailable _ | SerialRead _ => true
  | _ => false
  end.

(** What a run did apart from looking at the serial receive buffer. *)
Definition acts (evs : list event) : list event :=
  filter (fun e => negb (serial_input e)) evs.


(** The world after one more sample of the start button. *)
Definition button_sampled (w : world) : world :=
  {| sdo_reads := sdo_reads w; btn_reads := S (btn_reads w);
     clock_reads := clock_reads w; serial_in := serial_in w |}.

(** The world with the serial receive buffer emptied. *)
Definition drained (w : world) : world :=
  {| sdo_reads := sdo_reads w; btn_reads := btn_reads w;
     clock_reads := clock_reads w; serial_in := [] |}.

(** What the drain of lines 106-108 does on a buffer that holds the
    bytes [rx]: it asks and reads until the buffer is empty. *)
Fixpoint drain_events (rx : list Z) : list event :=
  match rx with
  | [] => [SerialAvailable 0]
  | c :: rest =>
      SerialAvailable (Z.of_nat (List.length rx)) :: SerialRead c
      :: drain_events rest
  end.

(** The menu of lines 87-91. *)
Definition menu_events : list event :=
  [ SerialPrintln "";
    SerialPrintln "Enter 'r' to only read fuses and lock bits...";
    SerialPrintln "Enter 'e' to erase flash and lock bits...";
    SerialPrintln
      "Enter any other character or press button at pin 6 to to write fuses to default...";
    SerialPrintln "" ].

(** A computation that never looks at the serial receive buffer. *)
Definition deaf {A} (m : M A) : Prop :=
  yields m (fun _ evs => forallb (fun e => negb (serial_input e)) evs = true).

(** On a board whose counter reads [t0] first and advances by one at
    every reading: the computation returns from any world that leaves
    the counter room for [b] waits of 302 readings below its
    wrap-around, and it takes no more readings than that. *)
Definition times_out {A} (t0 : Z) (m : M A) (b : nat) : Prop :=
  forall w,
    t0 + Z.of_nat (clock_reads w) + 302 * Z.of_nat b < 4294967296 ->
    exists a evs w',
      m w = Some (a, evs, w') /\
      (clock_reads w' <= clock_reads w + 302 * b)%nat.

(** * Proofs *)

(** ** The monad *)

Lemma bind_Some {A B} (m : M A) (k : A -> M B) w b evs w' :
  bind m k w = Some (b, evs, w') ->
  exists a e1 w1 e2,
    m w = Some (a, e1, w1) /\ k a w1 = Some (b, e2, w') /\ evs = e1 ++ e2.
Proof.
  unfold bind. destruct (m w) as [[[a e1] w1]|]; [|discriminate].
  destruct (k a w1) as [[[b' e2] w2]|] eqn:Hk; [|discriminate].
  intros H. inversion H; subst. exists a, e1, w1, e2. auto.
Qed.

Lemma bind_run {A B} (m : M A) (k : A -> M B) w a e1 w1 :
  m w = Some (a, e1, w1) ->
  bind m k w =
  match k a w1 with
  | None => None
  | Some (b, e2, w2) => Some (b, e1 ++ e2, w2)
  end.
Proof. unfold bind. intros ->. reflexivity. Qed.

Lemma emit_bind {B} (e : event) (k : unit -> M B) w :
  bind (emit e) k w =
  match k tt w with
  | None => None
  | Some (b, e2, w2) => Some (b, e :: e2, w2)
  end.
Proof. reflexivity. Qed.

(** ** Bits *)

Lemma mask_testbit x i :
  0 <= i -> negb (Z.land x (Z.shiftl 1 i) =? 0) = Z.testbit x i.
Proof.
  intros Hi. rewrite Z.shiftl_1_l.
  destruct (Z.testbit x i) eqn:Hb.
  - destruct (Z.eqb_spec (Z.land x (2 ^ i)) 0) as [E|]; [|reflexivity].
    exfalso. assert (H : Z.testbit (Z.land x (2 ^ i)) i = true).
    { rewrite Z.land_spec, Hb, Z.pow2_bits_true; auto. }
    rewrite E, Z.bits_0 in H. discriminate.
  - assert (E : Z.land x (2 ^ i) = 0).
    { apply Z.bits_inj'. intros n Hn. rewrite Z.land_spec, Z.bits_0.
      destruct (Z.eq_dec n i) as [->|Hne].
      - rewrite Hb. reflexivity.
      - rewrite Z.pow2_bits_false by lia. apply andb_false_r. }
    rewrite E. reflexivity.
Qed.

Lemma shift_in acc v :
  0 <= acc < 32768 ->
  Z.lor (uint16 (Z.shiftl acc 1)) (b2z v) = 2 * acc + b2z v.
Proof.
  intros H. unfold uint16. rewrite Z.shiftl_mul_pow2 by lia.
  change (2 ^ 1) with 2. rewrite Z.mod_small by lia.
  rewrite (Z.mul_comm acc 2).
  destruct acc as [|p|p]; [destruct v; reflexivity| |lia].
  destruct v; reflexivity.
Qed.

Lemma Z_range_ind (P : Z -> Prop) (n : nat) :
  Forall P (map Z.of_nat (seq 0 n)) ->
  forall z, 0 <= z < Z.of_nat n -> P z.
Proof.
  intros H z Hz. rewrite Forall_forall in H. apply H.
  rewrite in_map_iff. exists (Z.to_nat z). split; [lia|].
  apply in_seq. lia.
Qed.

Lemma frame_byte_shifted v :
  0 <= v < 256 -> frame_byte (frame_bits (Z.shiftl v 2)) = v.
Proof.
  intros H. revert v H. apply (Z_range_ind _ 256).
  apply Forall_forall. intros v Hv.
  assert (Hb : forallb (fun v => frame_byte (frame_bits (Z.shiftl v 2)) =? v)
                 (map Z.of_nat (seq 0 256)) = true) by (vm_compute; reflexivity).
  rewrite forallb_forall in Hb. apply Z.eqb_eq. apply Hb. exact Hv.
Qed.

(** ** shiftOut *)

Section ShiftOut.

Variable hw : board.

Lemma bits_below_S n x :
  bits_below (S n) x = Z.testbit x (Z.of_nat n) :: bits_below n x.
Proof.
  unfold bits_below. rewrite seq_S, rev_app_distr. reflexivity.
Qed.

Lemma sdo_samples_S i n :
  sdo_samples hw i (S n) = sdo_line hw i :: sdo_samples hw (S i) n.
Proof. reflexivity. Qed.

Lemma after_samples_S n w :
  after_samples n
    {| sdo_reads := S (sdo_reads w); btn_reads := btn_reads w;
       clock_reads := clock_reads w; serial_in := serial_in w |}
  = after_samples (S n) w.
Proof. unfold after_samples; simpl. f_equal. lia. Qed.

(** The loop of [shiftOut] never waits: [n] rounds give [n] clock cycles,
    and the register takes one sample a round. *)
Lemma shiftBits_run n : forall tSDIOut tSIIOut tInBits w,
  0 <= tInBits -> (tInBits + 1) * 2 ^ Z.of_nat n <= 65536 ->
  shiftBits hw n tSDIOut tSIIOut tInBits w =
  Some (pack_from tInBits (sdo_samples hw (sdo_reads w) n),
        frame_events (bits_below n tSDIOut) (bits_below n tSIIOut)
          (sdo_samples hw (sdo_reads w) n),
        after_samples n w).
Proof.
  induction n as [|n IH]; intros sdi sii acc w Hacc Hlt.
  - unfold after_samples. simpl. unfold ret. destruct w; simpl.
    rewrite Nat.add_0_r. reflexivity.
  - cbn [shiftBits]. unfold digitalWrite. rewrite !emit_bind.
    rewrite !mask_testbit by lia.
    rewrite (bind_run _ _ _ _ _ _ (eq_refl : digitalRead hw SDO w = Some _)).
    rewrite !emit_bind.
    rewrite Nat2Z.inj_succ, Z.pow_succ_r in Hlt by lia.
    assert (0 < 2 ^ Z.of_nat n) by (apply Z.pow_pos_nonneg; lia).
    rewrite shift_in by nia.
    assert (Hb : 0 <= b2z (sdo_line hw (sdo_reads w)) <= 1)
      by (destruct (sdo_line hw (sdo_reads w)); simpl; lia).
    rewrite IH by nia.
    rewrite !bits_below_S, sdo_samples_S. cbn [sdo_reads].
    rewrite after_samples_S. reflexivity.
Qed.

(** *** The wait for the response line *)

Lemma waitLoop_polls fuel tMillis : forall w u evs w',
  waitLoop hw fuel tMillis w = Some (u, evs, w') ->
  forallb is_poll evs = true /\
  btn_reads w' = btn_reads w /\ serial_in w' = serial_in w.
Proof.
  induction fuel as [|fuel IH]; intros w u evs w' H; [discriminate|].
  cbn [waitLoop] in H.
  rewrite (bind_run _ _ _ _ _ _ (eq_refl : digitalRead hw SDO w = Some _)) in H.
  destruct (sdo_line hw (sdo_reads w)).
  - inversion H; subst. auto.
  - match type of H with
    | context [bind (millis hw) ?k ?w1] =>
        rewrite (bind_run _ k w1 _ _ _ (eq_refl : millis hw w1 = Some _)) in H
    end.
    match type of H with
    | context [if ?c then _ else _] => destruct c
    end.
    + inversion H; subst. auto.
    + match type of H with
      | context [waitLoop hw fuel tMillis ?w2] =>
          destruct (waitLoop hw fuel tMillis w2) as [[[u2 e2] w2']|] eqn:E;
            [|discriminate]
      end.
      apply IH in E. destruct E as (Hp & Hb & Hs).
      inversion H; subst. cbn [app forallb is_poll andb].
      simpl in Hb, Hs. auto.
Qed.

Lemma waitSDO_polls fuel w u evs w' :
  waitSDO hw fuel w = Some (u, evs, w') ->
  forallb is_poll evs = true /\
  btn_reads w' = btn_reads w /\ serial_in w' = serial_in w.
Proof.
  unfold waitSDO. intros H.
  rewrite (bind_run _ _ _ _ _ _ (eq_refl : millis hw w = Some _)) in H.
  match type of H with
  | context [waitLoop hw fuel ?t ?w1] =>
      destruct (waitLoop hw fuel t w1) as [[[u2 e2] w2']|] eqn:E; [|discriminate]
  end.
  apply waitLoop_polls in E. destruct E as (Hp & Hb & Hs).
  inversion H; subst. simpl in *. auto.
Qed.

(** The wait ends at the first round in which the line reads high or the
    counter reads more than the sum. *)
Lemma waitLoop_returns tMillis k : forall fuel w,
  (k < fuel)%nat ->
  sdo_line hw (sdo_reads w + k) = true \/
  uint32 (clock hw (clock_reads w + k)) >
    uint32 (tMillis + READING_TIMEOUT_MILLIS) ->
  exists evs w', waitLoop hw fuel tMillis w = Some (tt, evs, w').
Proof.
  induction k as [|k IH]; intros fuel w Hk H;
    (destruct fuel as [|fuel]; [lia|]); cbn [waitLoop];
    rewrite (bind_run _ _ _ _ _ _ (eq_refl : digitalRead hw SDO w = Some _));
    destruct (sdo_line hw (sdo_reads w)) eqn:Hs; try (eexists _, _; reflexivity);
    match goal with
    | |- context [bind (millis hw) ?f ?w1] =>
        rewrite (bind_run _ f w1 _ _ _ (eq_refl : millis hw w1 = Some _))
    end; cbn [clock_reads].
  - rewrite !Nat.add_0_r in H. destruct H as [H|H]; [congruence|].
    apply Z.gtb_gt in H. rewrite H. eexists _, _; reflexivity.
  - match goal with
    | |- context [if ?c then _ else _] => destruct c
    end; [eexists _, _; reflexivity|].
    match goal with
    | |- context [waitLoop hw fuel tMillis ?w2] =>
        destruct (IH fuel w2) as (e2 & w2' & E)
    end.
    + lia.
    + cbn [sdo_reads clock_reads].
      replace (S (sdo_reads w) + k)%nat with (sdo_reads w + S k)%nat by lia.
      replace (S (clock_reads w) + k)%nat with (clock_reads w + S k)%nat by lia.
      exact H.
    + rewrite E. eexists _, _; reflexivity.
Qed.

Lemma waitSDO_returns n fuel w :
  settles hw n -> (n <= fuel)%nat ->
  exists evs w', waitSDO hw fuel w = Some (tt, evs, w').
Proof.
  intros Hs Hn. unfold waitSDO.
  rewrite (bind_run _ _ _ _ _ _ (eq_refl : millis hw w = Some _)).
  destruct (Hs (sdo_reads w) (clock_reads w)) as (k & Hk & H).
  match goal with
  | |- context [waitLoop hw fuel ?t ?w1] =>
      destruct (waitLoop_returns t k fuel w1) as (e & w' & E)
  end.
  - lia.
  - cbn [sdo_reads clock_reads].
    replace (S (clock_reads w) + k)%nat with (clock_reads w + 1 + k)%nat by lia.
    exact H.
  - rewrite E. eexists _, _; reflexivity.
Qed.

(** No 32-bit reading is above [2^32 - 1]: when the sum is that number
    and the line stays low, the wait has no end. *)
Lemma waitLoop_stuck tMillis :
  (forall n, sdo_line hw n = false) ->
  uint32 (tMillis + READING_TIMEOUT_MILLIS) = 4294967295 ->
  forall fuel w, waitLoop hw fuel tMillis w = None.
Proof.
  intros Hlow Hsum. induction fuel as [|fuel IH]; intros w; [reflexivity|].
  cbn [waitLoop].
  rewrite (bind_run _ _ _ _ _ _ (eq_refl : digitalRead hw SDO w = Some _)).
  rewrite Hlow.
  match goal with
  | |- context [bind (millis hw) ?f ?w1] =>
      rewrite (bind_run _ f w1 _ _ _ (eq_refl : millis hw w1 = Some _))
  end.
  rewrite Hsum.
  match goal with
  | |- context [?t >? 4294967295] =>
      assert (Ht : (t >? 4294967295) = false)
        by (rewrite Z.gtb_ltb; apply Z.ltb_ge; unfold uint32;
            pose proof (Z.mod_pos_bound (clock hw (clock_reads w)) 4294967296);
            cbn [clock_reads]; lia);
      rewrite Ht
  end.
  rewrite IH. reflexivity.
Qed.

Lemma shiftOut_stuck fuel aValue aAddress w :
  (forall n, sdo_line hw n = false) ->
  uint32 (clock hw (clock_reads w)) = 4294966995 ->
  shiftOut hw fuel aValue aAddress w = None.
Proof.
  intros Hlow Ht. unfold shiftOut, waitSDO.
  unfold bind at 1. unfold bind at 1.
  change (millis hw w) with
    (Some (uint32 (clock hw (clock_reads w)), [Millis (uint32 (clock hw (clock_reads w)))],
           {| sdo_reads := sdo_reads w; btn_reads := btn_reads w;
              clock_reads := S (clock_reads w); serial_in := serial_in w |})).
  cbv iota beta. rewrite Ht, waitLoop_stuck; auto.
Qed.

(** *** One call of shiftOut *)

Lemma uint16_shifted v : 0 <= v < 256 -> uint16 (Z.shiftl v 2) = Z.shiftl v 2.
Proof.
  intros H. unfold uint16. rewrite Z.shiftl_mul_pow2 by lia.
  apply Z.mod_small. change (2 ^ 2) with 4. lia.
Qed.

Lemma shiftOut_run fuel aValue aAddress w e0 w0 :
  0 <= aValue < 256 -> 0 <= aAddress < 256 ->
  waitSDO hw fuel w = Some (tt, e0, w0) ->
  shiftOut hw fuel aValue aAddress w =
  Some (frame_byte (sdo_samples hw (sdo_reads w0) 11),
        e0 ++ frame_events (frame_bits (Z.shiftl aValue 2))
                (frame_bits (Z.shiftl aAddress 2))
                (sdo_samples hw (sdo_reads w0) 11),
        after_samples 11 w0).
Proof.
  intros Hv Ha Hw. unfold shiftOut.
  rewrite (bind_run _ _ _ _ _ _ Hw).
  rewrite !uint16_shifted by assumption.
  rewrite (bind_run _ _ _ _ _ _
             (shiftBits_run 11 _ _ 0 w0 (Z.le_refl 0) ltac:(simpl; lia))).
  unfold ret. rewrite app_nil_r. reflexivity.
Qed.

Lemma shiftOut_inv fuel aValue aAddress w r evs w' :
  0 <= aValue < 256 -> 0 <= aAddress < 256 ->
  shiftOut hw fuel aValue aAddress w = Some (r, evs, w') ->
  exists e0 w0,
    waitSDO hw fuel w = Some (tt, e0, w0) /\
    r = frame_byte (sdo_samples hw (sdo_reads w0) 11) /\
    evs = e0 ++ frame_events (frame_bits (Z.shiftl aValue 2))
                  (frame_bits (Z.shiftl aAddress 2))
                  (sdo_samples hw (sdo_reads w0) 11) /\
    w' = after_samples 11 w0.
Proof.
  intros Hv Ha H.
  destruct (waitSDO hw fuel w) as [[[[] e0] w0]|] eqn:Hw.
  - rewrite (shiftOut_run _ _ _ _ _ _ Hv Ha Hw) in H.
    inversion H; subst. exists e0, w0. auto.
  - unfold shiftOut, bind in H. rewrite Hw in H. discriminate.
Qed.

Lemma shiftOut_returns n fuel aValue aAddress w :
  0 <= aValue < 256 -> 0 <= aAddress < 256 ->
  settles hw n -> (n <= fuel)%nat ->
  exists r evs w', shiftOut hw fuel aValue aAddress w = Some (r, evs, w').
Proof.
  intros Hv Ha Hs Hn.
  destruct (waitSDO_returns n fuel w Hs Hn) as (e0 & w0 & Hw).
  rewrite (shiftOut_run _ _ _ _ _ _ Hv Ha Hw). eauto.
Qed.

End ShiftOut.

(** ** The monitor *)

Lemma observe_app b e1 e2 :
  observe b (e1 ++ e2) =
  let (b1, t1) := observe b e1 in
  let (b2, t2) := observe b1 e2 in
  (b2, t1 ++ t2).
Proof.
  revert b. induction e1 as [|e e1 IH]; intros b; simpl.
  - destruct (observe b e2); reflexivity.
  - destruct (bus_step b e) as [b1 t1]. rewrite IH.
    destruct (observe b1 e1) as [b2 t2]. destruct (observe b2 e2) as [b3 t3].
    rewrite app_assoc. reflexivity.
Qed.

Lemma carries_nil : carries [] [].
Proof. intros b Hb. exists b. auto. Qed.

Lemma carries_app e1 e2 t1 t2 :
  carries e1 t1 -> carries e2 t2 -> carries (e1 ++ e2) (t1 ++ t2).
Proof.
  intros H1 H2 b Hb. destruct (H1 b Hb) as (b1 & E1 & Hb1).
  destruct (H2 b1 Hb1) as (b2 & E2 & Hb2).
  exists b2. rewrite observe_app, E1, E2. auto.
Qed.

Lemma carries_transactions evs ts : carries evs ts -> transactions evs = ts.
Proof.
  intros H. destruct (H bus_start) as (b' & E & _).
  - repeat split.
  - unfold transactions. rewrite E. reflexivity.
Qed.

Lemma carries_silent evs : forallb silent evs = true -> carries evs [].
Proof.
  induction evs as [|e evs IH]; intros H; [apply carries_nil|].
  simpl in H. apply andb_prop in H. destruct H as [He H].
  change (e :: evs) with ([e] ++ evs). change (@nil transaction) with (@nil transaction ++ []).
  apply carries_app; [|auto].
  intros b (H1 & H2 & H3 & H4).
  destruct e as [p v|p v| | | | | | | | | |]; try (exists b; repeat split; assumption).
  - destruct p; try (exists b; repeat split; assumption);
      try (eexists; split; [reflexivity|repeat split; assumption]).
    destruct v; [discriminate|].
    eexists; split; [reflexivity|repeat split; assumption].
  - destruct p; try (exists b; repeat split; assumption).
    eexists; split; [reflexivity|repeat split; assumption].
Qed.

Lemma poll_silent evs : forallb is_poll evs = true -> forallb silent evs = true.
Proof.
  induction evs as [|e evs IH]; simpl; [reflexivity|].
  intros H. apply andb_prop in H. destruct H as [He H].
  rewrite IH by assumption. destruct e as [p v|p v| | | | | | | | | |]; try discriminate; reflexivity.
Qed.

Lemma carries_frame vbits abits samples :
  List.length vbits = 11%nat -> List.length abits = 11%nat ->
  List.length samples = 11%nat ->
  carries (frame_events vbits abits samples)
    [{| sdi_byte := frame_byte vbits; sii_byte := frame_byte abits;
        sdo_byte := frame_byte samples |}].
Proof.
  intros Hv Ha Hs.
  do 11 (destruct vbits as [|? vbits]; [discriminate Hv|]).
  destruct vbits; [|discriminate Hv].
  do 11 (destruct abits as [|? abits]; [discriminate Ha|]).
  destruct abits; [|discriminate Ha].
  do 11 (destruct samples as [|? samples]; [discriminate Hs|]).
  destruct samples; [|discriminate Hs].
  intros [l1 l2 l3 l4 q1 q2 q3] (H1 & H2 & H3 & H4). simpl in H1, H2, H3, H4. subst.
  eexists. split; [cbv -[frame_byte]; reflexivity | repeat split].
Qed.

(** ** Rules for computations *)

Lemma total_ret {A} (a : A) : total (ret a).
Proof. intros w. unfold ret. eauto. Qed.

Lemma total_emit e : total (emit e).
Proof. intros w. unfold emit. eauto. Qed.

Lemma total_bind {A B} (m : M A) (k : A -> M B) :
  total m -> (forall a, total (k a)) -> total (bind m k).
Proof.
  intros Hm Hk w. destruct (Hm w) as (a & e1 & w1 & E1).
  destruct (Hk a w1) as (b & e2 & w2 & E2).
  rewrite (bind_run _ _ _ _ _ _ E1), E2. eauto.
Qed.

Lemma total_if {A} (c : bool) (m1 m2 : M A) :
  total m1 -> total m2 -> total (if c then m1 else m2).
Proof. destruct c; auto. Qed.

Lemma yields_weaken {A} (m : M A) (P Q : A -> list event -> Prop) :
  yields m P -> (forall a evs, P a evs -> Q a evs) -> yields m Q.
Proof. intros H HPQ w a evs w' E. eauto. Qed.

Lemma issues_ret {A} (a : A) : issues (ret a) [].
Proof.
  intros w a' evs w' H. inversion H; subst. exists []. split; [apply carries_nil|reflexivity].
Qed.

Lemma issues_emit e : silent e = true -> issues (emit e) [].
Proof.
  intros He w a evs w' H. inversion H; subst. exists []. split; [|reflexivity].
  apply carries_silent. simpl. rewrite He. reflexivity.
Qed.

Lemma issues_bind {A B} (m : M A) (k : A -> M B) c1 c2 :
  issues m c1 -> (forall a, issues (k a) c2) -> issues (bind m k) (c1 ++ c2).
Proof.
  intros Hm Hk w b evs w' H.
  apply bind_Some in H. destruct H as (a & e1 & w1 & e2 & H1 & H2 & ->).
  destruct (Hm _ _ _ _ H1) as (t1 & C1 & M1).
  destruct (Hk _ _ _ _ _ H2) as (t2 & C2 & M2).
  exists (t1 ++ t2). split; [apply carries_app; assumption|].
  rewrite map_app, M1, M2. reflexivity.
Qed.

Lemma issues_commands {A} (m : M A) cs w a evs w' :
  issues m cs -> m w = Some (a, evs, w') -> commands evs = cs.
Proof.
  intros H E. destruct (H _ _ _ _ E) as (ts & C & Hm).
  unfold commands. rewrite (carries_transactions _ _ C). exact Hm.
Qed.

Section Operations.

Variable hw : board.

Lemma length_sdo_samples i n : List.length (sdo_samples hw i n) = n.
Proof. unfold sdo_samples. rewrite length_map, length_seq. reflexivity. Qed.

Lemma frame_byte_range bits : 0 <= frame_byte bits < 256.
Proof. unfold frame_byte, uint8. apply Z.mod_pos_bound. lia. Qed.

Lemma wire_frame : forall vbits abits samples,
  forallb wire (frame_events vbits abits samples) = true.
Proof.
  induction vbits as [|v vbits IH]; intros [|a abits] [|s samples];
    simpl; auto.
Qed.

Lemma poll_wire evs : forallb is_poll evs = true -> forallb wire evs = true.
Proof.
  induction evs as [|e evs IH]; simpl; [reflexivity|].
  intros H. apply andb_prop in H. destruct H as [He H].
  rewrite IH by assumption.
  destruct e as [p v|p v| | | | | | | | | |]; try discriminate; reflexivity.
Qed.

(** A call of [shiftOut] that returns has put the transaction
    (value, address) on the lines and returns the byte the target
    answered. *)
Lemma shiftOut_carries fuel aValue aAddress :
  0 <= aValue < 256 -> 0 <= aAddress < 256 ->
  yields (shiftOut hw fuel aValue aAddress)
    (fun r evs =>
       carries evs [{| sdi_byte := aValue; sii_byte := aAddress; sdo_byte := r |}]
       /\ forallb wire evs = true /\ 0 <= r < 256).
Proof.
  intros Hv Ha w r evs w' H.
  apply shiftOut_inv in H; [|assumption..].
  destruct H as (e0 & w0 & Hw & -> & -> & ->).
  apply waitSDO_polls in Hw. destruct Hw as (Hp & _).
  split; [|split].
  - change [?t] with ([] ++ [t]). apply carries_app.
    + apply carries_silent, poll_silent, Hp.
    + rewrite <- (frame_byte_shifted aValue) at 2 by assumption.
      rewrite <- (frame_byte_shifted aAddress) at 2 by assumption.
      apply carries_frame; [reflexivity..|apply length_sdo_samples].
  - rewrite forallb_app, (poll_wire _ Hp), wire_frame. reflexivity.
  - apply frame_byte_range.
Qed.

Lemma issues_shiftOut fuel aValue aAddress :
  0 <= aValue < 256 -> 0 <= aAddress < 256 ->
  issues (shiftOut hw fuel aValue aAddress) [(aValue, aAddress)].
Proof.
  intros Hv Ha. eapply yields_weaken; [apply shiftOut_carries; assumption|].
  intros r evs (C & _). eexists. split; [exact C|reflexivity].
Qed.

Lemma issues_waitSDO fuel : issues (waitSDO hw fuel) [].
Proof.
  intros w a evs w' H. apply waitSDO_polls in H. destruct H as (Hp & _).
  exists []. split; [|reflexivity]. apply carries_silent, poll_silent, Hp.
Qed.

Lemma issues_eq {A} (m : M A) c c' : issues m c -> c = c' -> issues m c'.
Proof. intros H <-. exact H. Qed.

Lemma issues_if_same {A} (b : bool) (m1 m2 : M A) c :
  issues m1 c -> issues m2 c -> issues (if b then m1 else m2) c.
Proof. destruct b; auto. Qed.

Ltac issues_one :=
  lazymatch goal with
  | |- issues (ret _) _ => apply issues_ret
  | |- issues (waitSDO _ _) _ => apply issues_waitSDO
  | |- issues (shiftOut _ _ _ _) _ => apply issues_shiftOut; lia
  | |- issues (if _ then _ else _) _ => apply issues_if_same; issues_one
  | |- issues _ _ => apply issues_emit; reflexivity
  end.

Ltac issues_seq :=
  repeat (lazymatch goal with
          | |- issues (bind _ _) _ => eapply issues_bind; [issues_one | intros]
          end);
  issues_one.

Ltac issues_fixed :=
  eapply issues_eq; [issues_seq | reflexivity].

Lemma issues_readLockBits fuel :
  issues (readLockBits hw fuel) lock_read_commands.
Proof. unfold readLockBits. issues_fixed. Qed.

Lemma issues_eraseFlashAndLockBits fuel :
  issues (eraseFlashAndLockBits hw fuel) erase_commands.
Proof. unfold eraseFlashAndLockBits. issues_fixed. Qed.

Lemma issues_readFuses fuel :
  issues (readFuses hw fuel) fuse_read_commands.
Proof. unfold readFuses. issues_fixed. Qed.

Lemma issues_writeFuse fuel aFuseAddress aFuseValue :
  0 <= aFuseValue < 256 ->
  issues (writeFuse hw fuel aFuseAddress aFuseValue)
    (write_commands aFuseAddress aFuseValue).
Proof.
  intros Hv. unfold writeFuse.
  assert (H1 := Z.mod_pos_bound (Z.shiftr aFuseAddress 8) 256 eq_refl).
  assert (H2 := Z.mod_pos_bound aFuseAddress 256 eq_refl).
  unfold uint8. issues_fixed.
Qed.

(** *** readSignature *)

Lemma carries_cons e1 e2 t ts :
  carries e1 [t] -> carries e2 ts -> carries (e1 ++ e2) (t :: ts).
Proof. intros H1 H2. apply (carries_app e1 e2 [t] ts); assumption. Qed.

Lemma carries_quiet e1 e2 ts :
  forallb silent e1 = true -> carries e2 ts -> carries (e1 ++ e2) ts.
Proof.
  intros H1 H2. apply (carries_app e1 e2 [] ts); [|assumption].
  apply carries_silent, H1.
Qed.

Lemma readSignature_unfold fuel :
  readSignature hw fuel =
  (shiftOut hw fuel 0x08 0x4C ;;
   shiftOut hw fuel 1 0x0C ;;
   shiftOut hw fuel 0x00 0x68 ;;
   b1 <- shiftOut hw fuel 0x00 0x6C ;;
   shiftOut hw fuel 0x08 0x4C ;;
   shiftOut hw fuel 2 0x0C ;;
   shiftOut hw fuel 0x00 0x68 ;;
   b2 <- shiftOut hw fuel 0x00 0x6C ;;
   ret (uint16 (Z.shiftl (uint16 (Z.shiftl 0 8 + b1)) 8 + b2))).
Proof. reflexivity. Qed.

Ltac run_inv H :=
  repeat (apply bind_Some in H;
          let a := fresh "r" in
          let e1 := fresh "e" in
          let w1 := fresh "w" in
          let e2 := fresh "e" in
          let H1 := fresh "R" in
          destruct H as (a & e1 & w1 & e2 & H1 & H & ->)).

Ltac shifted H :=
  apply shiftOut_carries in H; [|lia..];
  let C := fresh "C" in
  let W := fresh "W" in
  let B := fresh "B" in
  destruct H as (C & W & B).

Lemma signature_fold b1 b2 :
  0 <= b1 < 256 -> 0 <= b2 < 256 ->
  uint16 (Z.shiftl (uint16 (Z.shiftl 0 8 + b1)) 8 + b2) = Z.shiftl b1 8 + b2.
Proof.
  intros H1 H2. unfold uint16. rewrite Z.shiftl_0_l, Z.add_0_l.
  rewrite (Z.mod_small b1) by lia. rewrite Z.shiftl_mul_pow2 by lia.
  change (2 ^ 8) with 256. apply Z.mod_small. lia.
Qed.

Lemma readSignature_carries fuel :
  yields (readSignature hw fuel)
    (fun tSignature evs =>
       exists r1 r2 r3 b1 r5 r6 r7 b2,
         carries evs
           [ {| sdi_byte := 0x08; sii_byte := 0x4C; sdo_byte := r1 |};
             {| sdi_byte := 1; sii_byte := 0x0C; sdo_byte := r2 |};
             {| sdi_byte := 0x00; sii_byte := 0x68; sdo_byte := r3 |};
             {| sdi_byte := 0x00; sii_byte := 0x6C; sdo_byte := b1 |};
             {| sdi_byte := 0x08; sii_byte := 0x4C; sdo_byte := r5 |};
             {| sdi_byte := 2; sii_byte := 0x0C; sdo_byte := r6 |};
             {| sdi_byte := 0x00; sii_byte := 0x68; sdo_byte := r7 |};
             {| sdi_byte := 0x00; sii_byte := 0x6C; sdo_byte := b2 |} ] /\
         tSignature = Z.shiftl b1 8 + b2 /\
         0 <= b1 < 256 /\ 0 <= b2 < 256 /\
         forallb wire evs = true).
Proof.
  intros w sig evs w' H. rewrite readSignature_unfold in H.
  run_inv H. inversion H; subst; clear H.
  shifted R. shifted R0. shifted R1. shifted R2.
  shifted R3. shifted R4. shifted R5. shifted R6.
  exists r, r0, r1, r2, r3, r4, r5, r6.
  split; [|split; [apply signature_fold; assumption|repeat split; try lia]].
  - repeat (apply carries_cons; [assumption|]). apply carries_nil.
  - rewrite !forallb_app.
    repeat match goal with H : forallb wire _ = true |- _ => rewrite H; clear H end.
    reflexivity.
Qed.

(** *** readLockBits *)

Lemma console_lines_app e1 e2 :
  console_lines (e1 ++ e2) = console_lines e1 ++ console_lines e2.
Proof.
  induction e1 as [|e e1 IH]; [reflexivity|].
  destruct e; simpl; rewrite IH; reflexivity.
Qed.

Lemma console_lines_wire evs : forallb wire evs = true -> console_lines evs = [].
Proof.
  induction evs as [|e evs IH]; simpl; [reflexivity|].
  intros H. apply andb_prop in H. destruct H as [He H].
  destruct e; try discriminate; auto.
Qed.

Lemma console_lines_poll fuel w u evs w' :
  waitSDO hw fuel w = Some (u, evs, w') -> console_lines evs = [].
Proof.
  intros H. apply waitSDO_polls in H. destruct H as (Hp & _).
  apply console_lines_wire, poll_wire, Hp.
Qed.

Lemma readLockBits_reports fuel :
  yields (readLockBits hw fuel)
    (fun _ evs =>
       exists r1 r2 tValue,
         carries evs
           [ {| sdi_byte := 0x04; sii_byte := 0x4C; sdo_byte := r1 |};
             {| sdi_byte := 0x00; sii_byte := 0x78; sdo_byte := r2 |};
             {| sdi_byte := 0x00; sii_byte := 0x7C; sdo_byte := tValue |} ] /\
         0 <= tValue < 256 /\
         (reports evs LB1_programmed <-> Z.land tValue 1 = 0) /\
         (reports evs LB1_not_programmed <-> Z.land tValue 1 <> 0) /\
         (reports evs LB2_programmed <-> Z.land tValue 2 = 0) /\
         (reports evs LB2_not_programmed <-> Z.land tValue 2 <> 0)).
Proof.
  intros w u evs w' H. unfold readLockBits in H.
  run_inv H. inversion H; subst; clear H.
  inversion R; subst; clear R. inversion R3; subst; clear R3.
  inversion R4; subst; clear R4.
  pose proof (console_lines_poll _ _ _ _ _ R7) as L7.
  apply waitSDO_polls in R7. destruct R7 as (Hp & _).
  shifted R0. shifted R1. shifted R2.
  exists r0, r1, r2. split; [|split; [assumption|]].
  - apply carries_quiet; [reflexivity|].
    repeat (apply carries_cons; [assumption|]).
    repeat (apply carries_quiet; [reflexivity|]).
    apply carries_quiet;
      [destruct (negb (Z.land r2 1 =? 0)); inversion R5; reflexivity|].
    apply carries_quiet;
      [destruct (negb (Z.land r2 2 =? 0)); inversion R6; reflexivity|].
    apply carries_quiet; [apply poll_silent, Hp|].
    apply carries_silent; reflexivity.
  - unfold reports. rewrite !console_lines_app.
    rewrite (console_lines_wire _ W), (console_lines_wire _ W0),
      (console_lines_wire _ W1), L7.
    destruct (Z.eqb_spec (Z.land r2 1) 0) as [E1|E1];
      destruct (Z.eqb_spec (Z.land r2 2) 0) as [E2|E2];
      inversion R5; subst; clear R5; inversion R6; subst; clear R6;
      cbn [console_lines app];
      repeat split; intros Hr; try assumption; try congruence;
      try (vm_compute; tauto);
      exfalso; vm_compute in Hr; intuition discriminate.
Qed.

(** *** The waiting loops of loop() *)

Lemma waitRelease_background fuel :
  yields (waitRelease hw fuel) (fun _ evs => forallb background evs = true).
Proof.
  induction fuel as [|fuel IH]; intros w u evs w' H; [discriminate|].
  cbn [waitRelease] in H.
  rewrite (bind_run _ _ _ _ _ _
             (eq_refl : digitalRead hw START_BUTTON_PIN w = Some _)) in H.
  destruct (btn_line hw (btn_reads w)).
  - inversion H; subst. reflexivity.
  - match type of H with
    | context [waitRelease hw fuel ?w1] =>
        destruct (waitRelease hw fuel w1) as [[[u2 e2] w2]|] eqn:E; [|discriminate]
    end.
    apply IH in E. inversion H; subst. simpl. exact E.
Qed.

Lemma waitRelease_returns k : forall fuel w,
  (k < fuel)%nat -> btn_line hw (btn_reads w + k) = true ->
  exists evs w', waitRelease hw fuel w = Some (tt, evs, w').
Proof.
  induction k as [|k IH]; intros fuel w Hk H;
    (destruct fuel as [|fuel]; [lia|]); cbn [waitRelease];
    rewrite (bind_run _ _ _ _ _ _
               (eq_refl : digitalRead hw START_BUTTON_PIN w = Some _)).
  - rewrite Nat.add_0_r in H. rewrite H. eexists _, _; reflexivity.
  - destruct (btn_line hw (btn_reads w)); [eexists _, _; reflexivity|].
    match goal with
    | |- context [waitRelease hw fuel ?w1] =>
        destruct (IH fuel w1) as (e & w' & E)
    end.
    + lia.
    + cbn [btn_reads].
      replace (S (btn_reads w) + k)%nat with (btn_reads w + S k)%nat by lia.
      exact H.
    + rewrite E. eexists _, _; reflexivity.
Qed.

Lemma drainLoop_background n :
  yields (drainLoop n) (fun _ evs => forallb background evs = true).
Proof.
  induction n as [|n IH]; intros w u evs w' H.
  - inversion H; subst. reflexivity.
  - cbn [drainLoop] in H.
    apply bind_Some in H. destruct H as (a & e1 & w1 & e2 & H1 & H2 & ->).
    inversion H1; subst; clear H1.
    destruct (0 <? Z.of_nat (List.length (serial_in w1))).
    + apply bind_Some in H2. destruct H2 as (c & e3 & w3 & e4 & H1 & H2 & ->).
      apply IH in H2. unfold Serial_read in H1.
      destruct (serial_in w1); inversion H1; subst; simpl; exact H2.
    + inversion H2; subst. reflexivity.
Qed.

Lemma drainSerial_background :
  yields drainSerial (fun _ evs => forallb background evs = true).
Proof. intros w u evs w' H. exact (drainLoop_background _ _ _ _ _ H). Qed.

Lemma background_silent evs :
  forallb background evs = true -> forallb silent evs = true.
Proof.
  induction evs as [|e evs IH]; simpl; [reflexivity|].
  intros H. apply andb_prop in H. destruct H as [He H].
  rewrite IH by assumption.
  destruct e as [[] []| | | | | | | | | | |]; try discriminate; reflexivity.
Qed.

Lemma issues_background {A} (m : M A) :
  yields m (fun _ evs => forallb background evs = true) -> issues m [].
Proof.
  intros H w a evs w' E. exists []. split; [|reflexivity].
  apply carries_silent, background_silent. exact (H _ _ _ _ E).
Qed.

(** *** The branch on the signature *)

Ltac issues_one ::=
  lazymatch goal with
  | |- issues (ret _) _ => apply issues_ret
  | |- issues (waitSDO _ _) _ => apply issues_waitSDO
  | |- issues (shiftOut _ _ _ _) _ => apply issues_shiftOut; lia
  | |- issues (writeFuse _ _ _ _) _ => apply issues_writeFuse; lia
  | |- issues (readFuses _ _) _ => apply issues_readFuses
  | |- issues (readLockBits _ _) _ => apply issues_readLockBits
  | |- issues (eraseFlashAndLockBits _ _) _ =>
      apply issues_eraseFlashAndLockBits
  | |- issues (waitRelease _ _) _ =>
      apply issues_background, waitRelease_background
  | |- issues drainSerial _ => apply issues_background, drainSerial_background
  | |- issues (if _ then _ else _) _ => apply issues_if_same; issues_one
  | |- issues _ _ => apply issues_emit; reflexivity
  end.

Lemma fuse_defaults_unknown tSignature :
  (tSignature =? ATTINY13) = false ->
  (tSignature =? ATTINY24) || (tSignature =? ATTINY44)
  || (tSignature =? ATTINY84) || (tSignature =? ATTINY25)
  || (tSignature =? ATTINY45) || (tSignature =? ATTINY85) = false ->
  fuse_defaults tSignature = None.
Proof.
  intros H13 H. repeat (apply orb_false_iff in H; destruct H as [H ?]).
  unfold fuse_defaults, device_table. cbn [find fst].
  unfold ATTINY13, ATTINY24, ATTINY25, ATTINY44, ATTINY45, ATTINY84, ATTINY85 in *.
  rewrite !(Z.eqb_sym _ tSignature).
  repeat match goal with E : (_ =? _) = false |- _ => rewrite E; clear E end.
  reflexivity.
Qed.

Lemma fuse_defaults_unknown_commands tSignature :
  (tSignature =? ATTINY13) = false ->
  (tSignature =? ATTINY24) || (tSignature =? ATTINY44)
  || (tSignature =? ATTINY84) || (tSignature =? ATTINY25)
  || (tSignature =? ATTINY45) || (tSignature =? ATTINY85) = false ->
  default_write_commands tSignature = [].
Proof.
  intros H13 H. unfold default_write_commands.
  rewrite fuse_defaults_unknown by assumption. reflexivity.
Qed.

Lemma issues_restoreFuses fuel tReceivedChar tSignature :
  issues (restoreFuses hw fuel tReceivedChar tSignature)
    (if writesDefaults tReceivedChar
     then default_write_commands tSignature else []).
Proof.
  unfold restoreFuses.
  destruct (Z.eqb_spec tSignature ATTINY13) as [->|H13].
  - destruct (writesDefaults tReceivedChar); cbv beta iota; issues_fixed.
  - destruct ((tSignature =? ATTINY24) || (tSignature =? ATTINY44)
              || (tSignature =? ATTINY84) || (tSignature =? ATTINY25)
              || (tSignature =? ATTINY45) || (tSignature =? ATTINY85)) eqn:F.
    + assert (D : default_write_commands tSignature =
                  write_commands LFUSE 0x62 ++ write_commands HFUSE 0xDF
                  ++ write_commands EFUSE 0xFF).
      { repeat (apply orb_true_iff in F; destruct F as [F|F]);
          apply Z.eqb_eq in F; subst; reflexivity. }
      rewrite D.
      destruct (writesDefaults tReceivedChar); cbv beta iota; issues_fixed.
    + rewrite (fuse_defaults_unknown_commands tSignature); [| |exact F].
      * destruct (writesDefaults tReceivedChar); cbv beta iota; issues_fixed.
      * apply Z.eqb_neq. exact H13.
Qed.

(** *** The session *)

Lemma mode_commands c signature :
  (if (c =? chr "e") || (c =? chr "E") then erase_commands else []) ++
  (if writesDefaults c then default_write_commands signature else []) ++
  (if negb (c =? chr "r") && negb (c =? chr "R")
   then fuse_read_commands ++ lock_read_commands else [])
  = mutation_commands (requested_mode c) signature ++
    verify_commands (requested_mode c).
Proof.
  unfold writesDefaults, requested_mode.
  destruct (Z.eqb_spec c (chr "e")) as [->|He]; [reflexivity|].
  destruct (Z.eqb_spec c (chr "E")) as [->|HE]; [reflexivity|].
  destruct (Z.eqb_spec c (chr "r")) as [->|Hr]; [reflexivity|].
  destruct (Z.eqb_spec c (chr "R")) as [->|HR]; [reflexivity|].
  reflexivity.
Qed.

Lemma emit_inv e w a evs w' :
  emit e w = Some (a, evs, w') -> evs = [e] /\ w' = w.
Proof. intros H. inversion H. auto. Qed.

Ltac emitted H :=
  apply emit_inv in H; destruct H as (-> & ->).

Lemma issues_erase_if fuel (b : bool) :
  issues (if b then eraseFlashAndLockBits hw fuel else ret tt)
    (if b then erase_commands else []).
Proof. destruct b; [apply issues_eraseFlashAndLockBits|apply issues_ret]. Qed.

Lemma issues_verify_if fuel (b : bool) :
  issues
    (if b then
       Serial_println
         "Fuses and lock bits will be read again to check values..." ;;
       readFuses hw fuel ;;
       readLockBits hw fuel
     else ret tt)
    (if b then fuse_read_commands ++ lock_read_commands else []).
Proof. destruct b; cbv beta iota; issues_fixed. Qed.

Lemma carries_quiet_r e1 e2 ts :
  carries e1 ts -> forallb silent e2 = true -> carries (e1 ++ e2) ts.
Proof.
  intros H1 H2. rewrite <- (app_nil_r ts).
  apply carries_app; [assumption|apply carries_silent, H2].
Qed.

Lemma wire_unlabelled evs :
  forallb wire evs = true -> forallb unlabelled evs = true.
Proof.
  induction evs as [|e evs IH]; simpl; [reflexivity|].
  intros H. apply andb_prop in H. destruct H as [He H].
  rewrite IH by assumption. destruct e; try discriminate; reflexivity.
Qed.

Lemma background_unlabelled evs :
  forallb background evs = true -> forallb unlabelled evs = true.
Proof.
  induction evs as [|e evs IH]; simpl; [reflexivity|].
  intros H. apply andb_prop in H. destruct H as [He H].
  rewrite IH by assumption. destruct e; try discriminate; reflexivity.
Qed.

Lemma Serial_read_received w c evs w' :
  Serial_read w = Some (c, evs, w') ->
  to_char c = received w /\ evs = [SerialRead c].
Proof.
  unfold Serial_read, received. destruct (serial_in w); intros H;
    inversion H; subst; auto.
Qed.

(** What a session that returns has done: it read the signature,
    printed it, read the fuses and the lock bits, changed what the mode
    and the signature ask for, read again unless the mode is read-only,
    and switched the target off. *)
Lemma session_inv fuel w u evs w' :
  session hw fuel w = Some (u, evs, w') ->
  exists tSignature pre mid r1 r2 r3 b1 r5 r6 r7 b2 ts,
    evs = pre ++ SerialPrint (TAB ++ "Signature is: ")
              :: SerialPrintlnHex tSignature :: mid ++ power_down_events /\
    forallb unlabelled pre = true /\
    carries pre
      [ {| sdi_byte := 0x08; sii_byte := 0x4C; sdo_byte := r1 |};
        {| sdi_byte := 1; sii_byte := 0x0C; sdo_byte := r2 |};
        {| sdi_byte := 0x00; sii_byte := 0x68; sdo_byte := r3 |};
        {| sdi_byte := 0x00; sii_byte := 0x6C; sdo_byte := b1 |};
        {| sdi_byte := 0x08; sii_byte := 0x4C; sdo_byte := r5 |};
        {| sdi_byte := 2; sii_byte := 0x0C; sdo_byte := r6 |};
        {| sdi_byte := 0x00; sii_byte := 0x68; sdo_byte := r7 |};
        {| sdi_byte := 0x00; sii_byte := 0x6C; sdo_byte := b2 |} ] /\
    tSignature = Z.shiftl b1 8 + b2 /\
    carries mid ts /\
    map command ts =
      fuse_read_commands ++ lock_read_commands ++
      mutation_commands (requested_mode (received w)) tSignature ++
      verify_commands (requested_mode (received w)).
Proof.
  intros H. unfold session in H. run_inv H.
  apply Serial_read_received in R. destruct R as (Hc & ->). rewrite Hc in *.
  emitted R0.
  apply drainSerial_background in R1.
  inversion R2; subst; clear R2. emitted R3.
  apply readSignature_carries in R4.
  destruct R4 as (q1 & q2 & q3 & b1 & q5 & q6 & q7 & b2 & Cs & Hs & _ & _ & Ws).
  subst r4. emitted R5. emitted R6. emitted R7.
  emitted R13. emitted R14. emitted R15. emitted R16. emitted R17.
  emitted R18. emitted H.
  (apply issues_readFuses in R8). destruct R8 as (t8 & C8 & M8).
  (apply issues_readLockBits in R9). destruct R9 as (t9 & C9 & M9).
  (apply issues_erase_if in R10).
  destruct R10 as (t10 & C10 & M10).
  (apply issues_restoreFuses in R11). destruct R11 as (t11 & C11 & M11).
  (apply issues_verify_if in R12).
  destruct R12 as (t12 & C12 & M12).
  exists (Z.shiftl b1 8 + b2).
  exists ([SerialRead r] ++ [Delay 100] ++ e0 ++
    [DigitalWrite LED_BUILTIN HIGH; PinMode SDO OUTPUT;
     DigitalWrite SDI LOW; DigitalWrite SII LOW; DigitalWrite SDO LOW;
     DigitalWrite RST HIGH; DigitalWrite VCC HIGH;
     DelayMicroseconds 20; DigitalWrite RST LOW; DelayMicroseconds 10;
     PinMode SDO INPUT; DelayMicroseconds 300] ++
    [SerialPrintln "Reading signature from connected ATtiny..."] ++
    e4 ++ [SerialPrintln "Reading complete.."]).
  exists (e8 ++ e9 ++ e10 ++ e11 ++ e12).
  exists q1, q2, q3, b1, q5, q6, q7, b2, (t8 ++ t9 ++ t10 ++ t11 ++ t12).
  split; [|split; [|split; [|split; [reflexivity|split]]]].
  - repeat rewrite <- app_assoc. reflexivity.
  - (rewrite !forallb_app, (background_unlabelled _ R1), (wire_unlabelled _ Ws)).
    reflexivity.
  - apply carries_quiet; [reflexivity|]. apply carries_quiet; [reflexivity|].
    apply carries_quiet; [apply background_silent, R1|].
    apply carries_quiet; [reflexivity|]. apply carries_quiet; [reflexivity|].
    apply carries_quiet_r; [exact Cs|reflexivity].
  - repeat (apply carries_app; [assumption|]). assumption.
  - (rewrite !map_app, M8, M9, M10, M11, M12). (rewrite mode_commands). reflexivity.
Qed.

(** *** loop() *)

Lemma waitStart_background fuel : forall w u evs w',
  waitStart hw fuel w = Some (u, evs, w') ->
  forallb background evs = true /\ serial_in w' = serial_in w.
Proof.
  induction fuel as [|fuel IH]; intros w u evs w' H; [discriminate|].
  cbn [waitStart] in H.
  apply bind_Some in H. destruct H as (a & e1 & w1 & e2 & H1 & H2 & ->).
  inversion H1; subst; clear H1.
  destruct (Z.of_nat (List.length (serial_in w1)) =? 0).
  - apply bind_Some in H2. destruct H2 as (v & e3 & w3 & e4 & H1 & H2 & ->).
    inversion H1; subst; clear H1.
    destruct (btn_line hw (btn_reads w1)).
    + apply IH in H2. destruct H2 as (Hb & Hs). simpl in Hs. simpl. auto.
    + inversion H2; subst. simpl. auto.
  - inversion H2; subst. simpl. auto.
Qed.

Lemma waitStart_returns k : forall fuel w,
  (k < fuel)%nat ->
  serial_in w <> [] \/ btn_line hw (btn_reads w + k) = false ->
  exists evs w', waitStart hw fuel w = Some (tt, evs, w').
Proof.
  induction k as [|k IH]; intros fuel w Hk H;
    (destruct fuel as [|fuel]; [lia|]); cbn [waitStart];
    rewrite (bind_run _ _ _ _ _ _ (eq_refl : Serial_available w = Some _));
    (destruct (serial_in w) as [|c rest] eqn:Es;
     [|eexists _, _; reflexivity]); cbn [List.length Z.of_nat Z.eqb];
    (destruct H as [H|H]; [congruence|]);
    rewrite (bind_run _ _ _ _ _ _
               (eq_refl : digitalRead hw START_BUTTON_PIN w = Some _)).
  - rewrite Nat.add_0_r in H. rewrite H. eexists _, _; reflexivity.
  - destruct (btn_line hw (btn_reads w)); [|eexists _, _; reflexivity].
    match goal with
    | |- context [waitStart hw fuel ?w1] =>
        destruct (IH fuel w1) as (e & w' & E)
    end.
    + lia.
    + right. cbn [btn_reads].
      replace (S (btn_reads w) + k)%nat with (btn_reads w + S k)%nat by lia.
      exact H.
    + rewrite E. eexists _, _; reflexivity.
Qed.

(** A pass of [loop] that returns has run a session, or has done
    nothing but print the menu and look at the button and the serial line. *)
Lemma loop_inv fuel w u evs w' :
  loop hw fuel w = Some (u, evs, w') ->
  exists menu,
    forallb background menu = true /\
    (evs = menu /\ serial_in w = [] \/
     exists w1 sevs,
       received w1 = received w /\
       session hw fuel w1 = Some (u, sevs, w') /\
       evs = menu ++ sevs).
Proof.
  intros H. unfold loop in H. run_inv H.
  emitted R. emitted R0. emitted R1. emitted R2. emitted R3.
  apply waitStart_background in R4. destruct R4 as (B4 & S4).
  inversion R5; subst; clear R5.
  assert (S6 : serial_in w7 = serial_in w5 /\ forallb background e6 = true).
  { cbn [btn_line] in R6. destruct (negb (btn_line hw (btn_reads w5))).
    - inversion R6; subst. auto.
    - apply bind_Some in R6. destruct R6 as (a & e1 & w1 & e2 & H1 & H2 & ->).
      inversion H1; subst. inversion H2; subst. auto. }
  destruct S6 as (S6 & B6).
  destruct r6.
  - rewrite !app_assoc. eexists. split; cycle 1.
    + right. exists w7, e8. split; [|split; [exact H|]].
      * unfold received. rewrite S6. cbn [serial_in]. rewrite S4. reflexivity.
      * reflexivity.
    + rewrite !forallb_app, B4, B6. reflexivity.
  - assert (E : e8 = []) by (inversion H; reflexivity). subst e8.
    rewrite app_nil_r, !app_assoc.
    eexists. split; cycle 1.
    + left. split; [reflexivity|]. rewrite <- S4.
      destruct (negb (btn_line hw (btn_reads w5))); [discriminate R6|].
      apply bind_Some in R6. destruct R6 as (a & e1 & w1 & e2 & H1 & H2 & _).
      inversion H1; subst. inversion H2 as [[Hlt _ _]]. cbn [serial_in] in Hlt.
      destruct (serial_in w5); [reflexivity|discriminate Hlt].
    + rewrite !forallb_app, B4, B6. reflexivity.
Qed.

Lemma returns_bind {A B} (m : M A) (k : A -> M B) w a e1 w1 :
  m w = Some (a, e1, w1) ->
  (exists b e2 w2, k a w1 = Some (b, e2, w2)) ->
  exists b evs w', bind m k w = Some (b, evs, w').
Proof.
  intros Hm (b & e2 & w2 & Hk). rewrite (bind_run _ _ _ _ _ _ Hm), Hk. eauto.
Qed.

Section Settled.

Variables bound fuel0 : nat.
Hypothesis Hsettles : settles hw bound.
Hypothesis Hreleased : released hw bound.
Hypothesis Hfuel : (bound <= fuel0)%nat.

(** *** Under a board that settles, the operations return *)

Lemma total_waitSDO : total (waitSDO hw fuel0).
Proof.
  intros w. destruct (waitSDO_returns hw bound fuel0 w Hsettles Hfuel) as (e & w' & E).
  eauto.
Qed.

Lemma total_shiftOut aValue aAddress :
  0 <= aValue < 256 -> 0 <= aAddress < 256 ->
  total (shiftOut hw fuel0 aValue aAddress).
Proof.
  intros Hv Ha w. eapply shiftOut_returns; eauto.
Qed.

Ltac total_one :=
  lazymatch goal with
  | |- total (ret _) => apply total_ret
  | |- total (waitSDO _ _) => apply total_waitSDO
  | |- total (shiftOut _ _ _ _) => apply total_shiftOut; lia
  | |- total (if _ then _ else _) => apply total_if; total_one
  | |- total _ => apply total_emit
  end.

Ltac total_seq :=
  repeat (lazymatch goal with
          | |- total (bind _ _) => apply total_bind; [total_one | intros]
          end);
  total_one.

Lemma total_readLockBits : total (readLockBits hw fuel0).
Proof. unfold readLockBits. total_seq. Qed.

Lemma total_eraseFlashAndLockBits : total (eraseFlashAndLockBits hw fuel0).
Proof. unfold eraseFlashAndLockBits. total_seq. Qed.

Lemma total_readFuses : total (readFuses hw fuel0).
Proof. unfold readFuses. total_seq. Qed.

Lemma total_writeFuse aFuseAddress aFuseValue :
  0 <= aFuseValue < 256 ->
  total (writeFuse hw fuel0 aFuseAddress aFuseValue).
Proof.
  intros Hv. unfold writeFuse.
  assert (H1 := Z.mod_pos_bound (Z.shiftr aFuseAddress 8) 256 eq_refl).
  assert (H2 := Z.mod_pos_bound aFuseAddress 256 eq_refl).
  unfold uint8. total_seq.
Qed.

Lemma total_readSignature : total (readSignature hw fuel0).
Proof. rewrite readSignature_unfold. total_seq. Qed.

Lemma total_waitRelease : total (waitRelease hw fuel0).
Proof.
  intros w. destruct (Hreleased (btn_reads w)) as (k & Hk & H).
  destruct (waitRelease_returns k fuel0 w) as (e & w' & E); [lia|exact H|].
  eauto.
Qed.

Lemma total_drainLoop n : total (drainLoop n).
Proof.
  induction n as [|n IH]; intros w.
  - eexists _, _, _. reflexivity.
  - cbn [drainLoop].
    rewrite (bind_run _ _ _ _ _ _ (eq_refl : Serial_available w = Some _)).
    destruct (0 <? Z.of_nat (List.length (serial_in w)));
      [|eexists _, _, _; reflexivity].
    assert (T : total (Serial_read ;; drainLoop n)).
    { apply total_bind; [|intros; apply IH].
      intros w1. unfold Serial_read. destruct (serial_in w1); eauto. }
    destruct (T w) as (a & e & w' & E). rewrite E. eauto.
Qed.

Lemma total_drainSerial : total drainSerial.
Proof. intros w. apply total_drainLoop. Qed.

Lemma total_powerUp : total powerUp.
Proof. unfold powerUp. total_seq. Qed.

Lemma total_powerDown : total powerDown.
Proof. unfold powerDown. total_seq. Qed.

Ltac total_one ::=
  lazymatch goal with
  | |- total (ret _) => apply total_ret
  | |- total (waitSDO _ _) => apply total_waitSDO
  | |- total (shiftOut _ _ _ _) => apply total_shiftOut; lia
  | |- total (writeFuse _ _ _ _) => apply total_writeFuse; lia
  | |- total (readFuses _ _) => apply total_readFuses
  | |- total (readLockBits _ _) => apply total_readLockBits
  | |- total (eraseFlashAndLockBits _ _) => apply total_eraseFlashAndLockBits
  | |- total (readSignature _ _) => apply total_readSignature
  | |- total (waitRelease _ _) => apply total_waitRelease
  | |- total drainSerial => apply total_drainSerial
  | |- total powerUp => apply total_powerUp
  | |- total powerDown => apply total_powerDown
  | |- total (if _ then _ else _) => apply total_if; total_seq
  | |- total _ => apply total_emit
  end.

Lemma total_restoreFuses tReceivedChar tSignature :
  total (restoreFuses hw fuel0 tReceivedChar tSignature).
Proof.
  unfold restoreFuses.
  destruct (tSignature =? ATTINY13).
  - destruct (writesDefaults tReceivedChar); cbv beta iota; total_seq.
  - destruct ((tSignature =? ATTINY24) || (tSignature =? ATTINY44)
              || (tSignature =? ATTINY84) || (tSignature =? ATTINY25)
              || (tSignature =? ATTINY45) || (tSignature =? ATTINY85)).
    + destruct (writesDefaults tReceivedChar); cbv beta iota; total_seq.
    + total_seq.
Qed.

Ltac total_one ::=
  lazymatch goal with
  | |- total (ret _) => apply total_ret
  | |- total (waitSDO _ _) => apply total_waitSDO
  | |- total (shiftOut _ _ _ _) => apply total_shiftOut; lia
  | |- total (writeFuse _ _ _ _) => apply total_writeFuse; lia
  | |- total (readFuses _ _) => apply total_readFuses
  | |- total (readLockBits _ _) => apply total_readLockBits
  | |- total (eraseFlashAndLockBits _ _) => apply total_eraseFlashAndLockBits
  | |- total (readSignature _ _) => apply total_readSignature
  | |- total (restoreFuses _ _ _ _) => apply total_restoreFuses
  | |- total (waitRelease _ _) => apply total_waitRelease
  | |- total drainSerial => apply total_drainSerial
  | |- total powerUp => apply total_powerUp
  | |- total powerDown => apply total_powerDown
  | |- total (if _ then _ else _) => apply total_if; total_seq
  | |- total _ => apply total_emit
  end.

Lemma total_session : total (session hw fuel0).
Proof.
  unfold session. apply total_bind.
  - intros w. unfold Serial_read. destruct (serial_in w); eauto.
  - intros c. cbv zeta. total_seq.
Qed.

Lemma total_digitalRead p : total (digitalRead hw p).
Proof. intros w. destruct p; eexists _, _, _; reflexivity. Qed.

Lemma total_Serial_available : total Serial_available.
Proof. intros w. eexists _, _, _; reflexivity. Qed.

Lemma loop_returns w :
  serial_in w <> [] \/
  (exists k, (k < fuel0)%nat /\ btn_line hw (btn_reads w + k) = false) ->
  exists evs w', loop hw fuel0 w = Some (tt, evs, w').
Proof.
  intros Hstart.
  assert (Hw : exists e w1, waitStart hw fuel0 w = Some (tt, e, w1)).
  { destruct Hstart as [Hs|(k & Hk & Hb)].
    - apply (waitStart_returns 0); [|auto]. pose proof Hfuel.
      destruct fuel0; [|lia]. exfalso.
      destruct (Hsettles 0%nat 0%nat) as (k & Hk & _). lia.
    - apply (waitStart_returns k); auto. }
  destruct Hw as (e & w1 & Hw).
  assert (T : exists (u : unit) evs w', loop hw fuel0 w = Some (u, evs, w')).
  { unfold loop. do 5 (eapply returns_bind; [reflexivity|]).
    eapply returns_bind; [exact Hw|].
    apply total_bind; [apply total_digitalRead|]. intros v.
    apply total_bind.
    - destruct (negb v); [apply total_ret|].
      apply total_bind; [apply total_Serial_available|intros; apply total_ret].
    - intros go. destruct go; [apply total_session|apply total_ret]. }
  destruct T as ([] & evs & w' & E). eauto.
Qed.

End Settled.

End Operations.

(** ** Reading a trace: lemmas *)

Lemma signature_of_found pre n post :
  forallb unlabelled pre = true ->
  signature_of
    (pre ++ SerialPrint (TAB ++ "Signature is: ") :: SerialPrintlnHex n :: post)
  = Some n.
Proof.
  induction pre as [|e pre IH]; intros H.
  - reflexivity.
  - simpl in H. apply andb_prop in H. destruct H as [He H].
    destruct e; try discriminate; simpl; auto.
Qed.

Lemma level_of_app p e1 : forall e2 start,
  level_of p (e1 ++ e2) start = level_of p e2 (level_of p e1 start).
Proof.
  induction e1 as [|e e1 IH]; intros e2 start; [reflexivity|].
  destruct e; simpl; apply IH.
Qed.

Lemma clock_pulses_polls polls evs :
  forallb is_poll polls = true -> clock_pulses (polls ++ evs) = clock_pulses evs.
Proof.
  induction polls as [|e polls IH]; intros H; [reflexivity|].
  simpl in H. apply andb_prop in H. destruct H as [He H].
  destruct e as [p v|p v| | | | | | | | | |]; try discriminate; simpl; auto.
Qed.

Lemma clock_pulses_frame vbits abits samples :
  List.length vbits = 11%nat -> List.length abits = 11%nat ->
  List.length samples = 11%nat ->
  clock_pulses (frame_events vbits abits samples) = 11%nat.
Proof.
  intros Hv Ha Hs.
  do 11 (destruct vbits as [|? vbits]; [discriminate Hv|]).
  destruct vbits; [|discriminate Hv].
  do 11 (destruct abits as [|? abits]; [discriminate Ha|]).
  destruct abits; [|discriminate Ha].
  do 11 (destruct samples as [|? samples]; [discriminate Hs|]).
  destruct samples; [|discriminate Hs].
  reflexivity.
Qed.

Lemma sdo_seen_app e1 e2 : sdo_seen (e1 ++ e2) = sdo_seen e1 ++ sdo_seen e2.
Proof.
  induction e1 as [|e e1 IH]; [reflexivity|].
  destruct e as [p v|p v| | | | | | | | | |]; simpl; auto.
  destruct p; simpl; auto. rewrite IH. reflexivity.
Qed.

Lemma sdo_seen_frame : forall vbits abits samples,
  List.length vbits = List.length samples ->
  List.length abits = List.length samples ->
  sdo_seen (frame_events vbits abits samples) = samples.
Proof.
  induction vbits as [|v vbits IH]; intros [|a abits] [|s samples] Hv Ha;
    try discriminate; [reflexivity|].
  simpl. rewrite IH; auto.
Qed.

Lemma last_n_app {A} (l1 l2 : list A) : last_n (List.length l2) (l1 ++ l2) = l2.
Proof.
  unfold last_n. rewrite length_app.
  replace (List.length l1 + List.length l2 - List.length l2)%nat
    with (List.length l1 + 0)%nat by lia.
  rewrite skipn_app, Nat.add_0_r, skipn_all.
  replace (List.length l1 - List.length l1)%nat with 0%nat by lia.
  reflexivity.
Qed.

Lemma carries_commands evs ts : carries evs ts -> commands evs = map command ts.
Proof. intros H. unfold commands. rewrite (carries_transactions _ _ H). reflexivity. Qed.

Lemma carries_responses evs ts : carries evs ts -> responses evs = map sdo_byte ts.
Proof. intros H. unfold responses. rewrite (carries_transactions _ _ H). reflexivity. Qed.

(** ** A pass of loop() *)

Lemma background_carries evs : forallb background evs = true -> carries evs [].
Proof. intros H. apply carries_silent, background_silent, H. Qed.


Lemma background_no_write evs p v :
  forallb background evs = true -> ~ In (DigitalWrite p v) evs.
Proof.
  induction evs as [|e evs IH]; intros H; [tauto|].
  simpl in H. apply andb_prop in H. destruct H as [He H].
  intros [E|E]; [subst; discriminate|]. exact (IH H E).
Qed.

(** A pass of [loop] that returns has only shown the menu, or it has
    run the whole session. *)
Lemma loop_pass hw fuel w u evs w' :
  loop hw fuel w = Some (u, evs, w') ->
  forallb background evs = true /\ serial_in w = [] \/
  exists tSignature body firstByte secondByte,
    signature_of evs = Some tSignature /\
    evs = body ++ power_down_events /\
    commands evs =
      signature_commands ++ fuse_read_commands ++ lock_read_commands ++
      mutation_commands (requested_mode (received w)) tSignature ++
      verify_commands (requested_mode (received w)) /\
    nth_error (responses evs) 3 = Some firstByte /\
    nth_error (responses evs) 7 = Some secondByte /\
    tSignature = Z.shiftl firstByte 8 + secondByte.
Proof.
  intros H. apply loop_inv in H.
  destruct H as (menu & Hm & [(-> & Hs)|(w1 & sevs & Hr & Hsess & ->)]);
    [left; auto|right].
  apply session_inv in Hsess.
  destruct Hsess as
    (sig & pre & mid & r1 & r2 & r3 & b1 & r5 & r6 & r7 & b2 & ts &
     -> & Hpre & Cpre & Hsig & Cmid & Mmid).
  rewrite Hr in Mmid.
  exists sig, (menu ++ pre ++ SerialPrint (TAB ++ "Signature is: ")
                 :: SerialPrintlnHex sig :: mid), b1, b2.
  assert (C : carries
                (menu ++ pre ++ SerialPrint (TAB ++ "Signature is: ")
                   :: SerialPrintlnHex sig :: mid ++ power_down_events)
                ([ {| sdi_byte := 0x08; sii_byte := 0x4C; sdo_byte := r1 |};
                   {| sdi_byte := 1; sii_byte := 0x0C; sdo_byte := r2 |};
                   {| sdi_byte := 0x00; sii_byte := 0x68; sdo_byte := r3 |};
                   {| sdi_byte := 0x00; sii_byte := 0x6C; sdo_byte := b1 |};
                   {| sdi_byte := 0x08; sii_byte := 0x4C; sdo_byte := r5 |};
                   {| sdi_byte := 2; sii_byte := 0x0C; sdo_byte := r6 |};
                   {| sdi_byte := 0x00; sii_byte := 0x68; sdo_byte := r7 |};
                   {| sdi_byte := 0x00; sii_byte := 0x6C; sdo_byte := b2 |} ]
                 ++ ts)).
  { apply carries_quiet; [apply background_silent, Hm|].
    apply carries_app; [exact Cpre|].
    change (?a :: ?b :: ?l) with ([a; b] ++ l).
    apply carries_quiet; [reflexivity|].
    apply carries_quiet_r; [exact Cmid|reflexivity]. }
  split; [|split; [|split; [|split; [|split]]]].
  - rewrite app_assoc. apply signature_of_found.
    rewrite forallb_app, (background_unlabelled _ Hm), Hpre. reflexivity.
  - rewrite <- !app_assoc. cbn [app]. reflexivity.
  - rewrite (carries_commands _ _ C), map_app, Mmid. reflexivity.
  - rewrite (carries_responses _ _ C). reflexivity.
  - rewrite (carries_responses _ _ C). reflexivity.
  - exact Hsig.
Qed.

Lemma received_empty w : serial_in w = [] -> requested_mode (received w) = write_defaults.
Proof. unfold received. intros ->. reflexivity. Qed.

Lemma no_write_in_reads :
  ~ In (0x40, 0x4C) (signature_commands ++ fuse_read_commands ++ lock_read_commands)
  /\ ~ In (0x40, 0x4C) erase_commands
  /\ ~ In (0x40, 0x4C) (fuse_read_commands ++ lock_read_commands).
Proof.
  repeat split; intros H; simpl in H;
    repeat (destruct H as [H|H]; [discriminate H|]); exact H.
Qed.

(** ** Boards that settle *)

Lemma settles_target answers :
  settles (target answers) (S (List.length (flat_map answer answers))).
Proof.
  intros i j. set (l := flat_map answer answers).
  destruct (Nat.le_gt_cases (List.length l) i) as [Hi|Hi].
  - exists 0%nat. split; [lia|]. left. simpl. fold l.
    rewrite Nat.add_0_r. apply nth_overflow. exact Hi.
  - exists (List.length l - i)%nat. split; [lia|]. left. simpl. fold l.
    apply nth_overflow. lia.
Qed.

Lemma released_target answers n : (0 < n)%nat -> released (target answers) n.
Proof. intros Hn i. exists 0%nat. split; [exact Hn|reflexivity]. Qed.

(** * The claims *)

(** C1. For 8-bit [aValue] and [aAddress], a call of [shiftOut] returns
    as soon as its wait for the response line does, and then: after the
    events of the wait come exactly 11 rounds, each setting SDI and SII
    to the bits 10, 9, ..., 0 of the two arguments shifted left by 2,
    sampling the response line once and then pulsing the clock; the
    trace holds 11 clock pulses; and the result is the register of the
    11 samples, shifted right by 2 and cut to 8 bits, whatever the wait
    and the counter did. *)
Theorem shiftOut_frame hw fuel aValue aAddress w :
  0 <= aValue < 256 -> 0 <= aAddress < 256 ->
  (forall n, settles hw n -> (n <= fuel)%nat ->
     exists r evs w', shiftOut hw fuel aValue aAddress w = Some (r, evs, w')) /\
  (forall r evs w',
     shiftOut hw fuel aValue aAddress w = Some (r, evs, w') ->
     exists polls w0,
       waitSDO hw fuel w = Some (tt, polls, w0) /\
       forallb is_poll polls = true /\
       evs = polls ++
             frame_events (frame_bits (Z.shiftl aValue 2))
               (frame_bits (Z.shiftl aAddress 2))
               (sdo_samples hw (sdo_reads w0) 11) /\
       clock_pulses evs = 11%nat /\
       r = uint8 (Z.shiftr (pack (sdo_samples hw (sdo_reads w0) 11)) 2) /\
       w' = after_samples 11 w0).
Proof.
  intros Hv Ha. split.
  - intros n Hs Hn. eapply shiftOut_returns; eauto.
  - intros r evs w' H. apply shiftOut_inv in H; [|assumption..].
    destruct H as (e0 & w0 & Hw & -> & -> & ->).
    exists e0, w0. pose proof (waitSDO_polls _ _ _ _ _ _ Hw) as (Hp & _).
    repeat split; try assumption.
    rewrite clock_pulses_polls by assumption.
    apply clock_pulses_frame; [reflexivity..|apply length_sdo_samples].
Qed.

Lemma shiftOut_frame_witness :
  exists evs w',
    shiftOut (target [0xA5]) 20 0x04 0x4C (power_on []) = Some (0xA5, evs, w') /\
    clock_pulses evs = 11%nat.
Proof.
  destruct (shiftOut_frame (target [0xA5]) 20 0x04 0x4C (power_on []))
    as [Hret Hrun]; [lia|lia|].
  destruct (Hret 13%nat (settles_target [0xA5]) ltac:(lia)) as (r & evs & w' & E).
  destruct (Hrun r evs w' E) as (polls & w0 & Hw & _ & _ & Hc & Hr & _).
  exists evs, w'. split; [|exact Hc].
  rewrite E. replace r with 0xA5; [reflexivity|].
  rewrite Hr. vm_compute in Hw. inversion Hw; subst. reflexivity.
Defined.

(** C2, at the input on which it fails.  [tMillis + 300] is a 32-bit
    sum: when the counter reads [2^32 - 301] at the start of the wait,
    the sum is [2^32 - 1], no reading is above it, and with the response
    line held low the wait of [shiftOut] has no end, whatever the fuel. *)
Theorem shiftOut_waits_forever fuel aValue aAddress :
  shiftOut (silent_board 4294966995) fuel aValue aAddress (power_on []) = None.
Proof. apply shiftOut_stuck; [reflexivity|reflexivity]. Qed.

(** Away from that reading the wait does end: with the line held low
    and the counter at 0, the call returns after 301 rounds. *)
Example shiftOut_timeout :
  exists r evs w',
    shiftOut (silent_board 0) 400 0x04 0x4C (power_on []) = Some (r, evs, w')
    /\ clock_reads w' = 302%nat.
Proof. vm_compute. eexists _, _, _. split; reflexivity. Qed.

(** C10. The byte [shiftOut] returns is a function of the 11 samples of
    the response line taken in its rounds: two calls, on any boards, in
    any worlds and with any 8-bit arguments, that saw the same last 11
    samples return the same byte. *)
Theorem shiftOut_depends_on_samples
    hw1 hw2 fuel1 fuel2 aValue1 aAddress1 aValue2 aAddress2
    w1 w2 r1 r2 evs1 evs2 w1' w2' :
  0 <= aValue1 < 256 -> 0 <= aAddress1 < 256 ->
  0 <= aValue2 < 256 -> 0 <= aAddress2 < 256 ->
  shiftOut hw1 fuel1 aValue1 aAddress1 w1 = Some (r1, evs1, w1') ->
  shiftOut hw2 fuel2 aValue2 aAddress2 w2 = Some (r2, evs2, w2') ->
  last_n 11 (sdo_seen evs1) = last_n 11 (sdo_seen evs2) ->
  r1 = r2.
Proof.
  intros Hv1 Ha1 Hv2 Ha2 H1 H2 Hsame.
  apply shiftOut_inv in H1; [|assumption..].
  apply shiftOut_inv in H2; [|assumption..].
  destruct H1 as (p1 & u1 & _ & -> & -> & _).
  destruct H2 as (p2 & u2 & _ & -> & -> & _).
  rewrite !sdo_seen_app in Hsame.
  rewrite !sdo_seen_frame in Hsame
    by (rewrite length_sdo_samples; reflexivity).
  pose proof (last_n_app (sdo_seen p1) (sdo_samples hw1 (sdo_reads u1) 11)) as L1.
  pose proof (last_n_app (sdo_seen p2) (sdo_samples hw2 (sdo_reads u2) 11)) as L2.
  rewrite length_sdo_samples in L1, L2. rewrite L1, L2 in Hsame.
  rewrite Hsame. reflexivity.
Qed.

Lemma shiftOut_depends_on_samples_witness :
  exists r evs1 evs2 w1 w2,
    shiftOut (target [0x5A]) 20 0x04 0x4C (power_on []) = Some (r, evs1, w1) /\
    shiftOut (target [0x00; 0x5A]) 30 0x00 0x7C
      {| sdo_reads := 12; btn_reads := 0; clock_reads := 5; serial_in := [] |}
    = Some (r, evs2, w2).
Proof.
  destruct (shiftOut (target [0x5A]) 20 0x04 0x4C (power_on []))
    as [[[r1 e1] w1]|] eqn:E1; [|vm_compute in E1; discriminate].
  destruct (shiftOut (target [0x00; 0x5A]) 30 0x00 0x7C
              {| sdo_reads := 12; btn_reads := 0; clock_reads := 5;
                 serial_in := [] |})
    as [[[r2 e2] w2]|] eqn:E2; [|vm_compute in E2; discriminate].
  exists r1, e1, e2, w1, w2. split; [reflexivity|].
  rewrite (shiftOut_depends_on_samples _ _ _ _ 0x04 0x4C 0x00 0x7C
             _ _ _ _ _ _ _ _
             ltac:(lia) ltac:(lia) ltac:(lia) ltac:(lia) E1 E2); [reflexivity|].
  vm_compute in E1. vm_compute in E2.
  injection E1 as <- <- <-. injection E2 as <- <- <-. reflexivity.
Defined.

(** C3. [readSignature] returns whenever its waits do, and then it has
    issued the four transactions (0x08,0x4C), (index,0x0C), (0x00,0x68),
    (0x00,0x6C) for index 1 and again for index 2, never for index 0,
    and the signature is the byte answered to the fourth transaction,
    shifted left by 8, plus the byte answered to the eighth. *)
Theorem readSignature_big_endian hw fuel w :
  (forall n, settles hw n -> (n <= fuel)%nat ->
     exists tSignature evs w',
       readSignature hw fuel w = Some (tSignature, evs, w')) /\
  (forall tSignature evs w',
     readSignature hw fuel w = Some (tSignature, evs, w') ->
     commands evs =
       [(0x08, 0x4C); (1, 0x0C); (0x00, 0x68); (0x00, 0x6C);
        (0x08, 0x4C); (2, 0x0C); (0x00, 0x68); (0x00, 0x6C)] /\
     exists firstByte secondByte,
       nth_error (responses evs) 3 = Some firstByte /\
       nth_error (responses evs) 7 = Some secondByte /\
       tSignature = Z.shiftl firstByte 8 + secondByte).
Proof.
  split.
  - intros n Hs Hn. exact (total_readSignature hw n fuel Hs Hn w).
  - intros sig evs w' H. apply readSignature_carries in H.
    destruct H as (r1 & r2 & r3 & b1 & r5 & r6 & r7 & b2 & C & Hsig & _).
    rewrite (carries_commands _ _ C), (carries_responses _ _ C).
    split; [reflexivity|]. exists b1, b2. auto.
Qed.

Lemma readSignature_big_endian_witness :
  exists evs w',
    readSignature (target [0; 0; 0; 0x93; 0; 0; 0; 0x0B]) 100 (power_on [])
    = Some (0x930B, evs, w').
Proof.
  destruct (readSignature_big_endian (target [0; 0; 0; 0x93; 0; 0; 0; 0x0B])
              100 (power_on [])) as [Hret Hrun].
  destruct (Hret _ (settles_target _) ltac:(simpl; lia)) as (sig & evs & w' & E).
  destruct (Hrun sig evs w' E) as (_ & b1 & b2 & H1 & H2 & Hsig).
  exists evs, w'. rewrite E. replace sig with 0x930B; [reflexivity|].
  vm_compute in E. injection E as <- <- <-. reflexivity.
Defined.

(** The seven known signatures are read back from targets that answer
    their two bytes to the fourth and the eighth transaction. *)
Example known_signatures_read :
  forall d, In d device_table ->
    exists evs w',
      readSignature (target [0; 0; 0; fst d / 256; 0; 0; 0; fst d mod 256])
        100 (power_on [])
      = Some (fst d, evs, w').
Proof.
  intros d H. simpl in H.
  repeat (destruct H as [<-|H]; [vm_compute; eexists _, _; reflexivity|]).
  contradiction.
Qed.

(** C4. For a 16-bit fuse address and an 8-bit value, [writeFuse]
    returns whenever its waits do, and then it has issued exactly the
    four transactions (0x40,0x4C), (value,0x2C), (0x00, high byte of the
    address), (0x00, low byte of the address), in this order: nothing is
    read back. *)
Theorem writeFuse_sequence hw fuel aFuseAddress aFuseValue w :
  0 <= aFuseAddress < 65536 -> 0 <= aFuseValue < 256 ->
  (forall n, settles hw n -> (n <= fuel)%nat ->
     exists evs w',
       writeFuse hw fuel aFuseAddress aFuseValue w = Some (tt, evs, w')) /\
  (forall u evs w',
     writeFuse hw fuel aFuseAddress aFuseValue w = Some (u, evs, w') ->
     commands evs =
       [(0x40, 0x4C); (aFuseValue, 0x2C);
        (0x00, aFuseAddress / 256); (0x00, aFuseAddress mod 256)]).
Proof.
  intros Ha Hv. split.
  - intros n Hs Hn.
    destruct (total_writeFuse hw n fuel Hs Hn aFuseAddress aFuseValue Hv w)
      as ([] & evs & w' & E). eauto.
  - intros u evs w' H.
    rewrite (issues_commands _ _ _ _ _ _ (issues_writeFuse hw fuel _ _ Hv) H).
    unfold write_commands. rewrite Z.shiftr_div_pow2 by lia.
    change (2 ^ 8) with 256.
    rewrite (Z.mod_small (aFuseAddress / 256)); [reflexivity|].
    split; [apply Z.div_pos; lia|apply Z.div_lt_upper_bound; lia].
Qed.

Lemma writeFuse_sequence_witness :
  exists evs w',
    writeFuse (target []) 5 0x646C 0x62 (power_on []) = Some (tt, evs, w') /\
    commands evs = [(0x40, 0x4C); (0x62, 0x2C); (0x00, 0x64); (0x00, 0x6C)].
Proof.
  destruct (writeFuse_sequence (target []) 5 0x646C 0x62 (power_on []))
    as [Hret Hrun]; [lia|lia|].
  destruct (Hret _ (settles_target _) ltac:(simpl; lia)) as (evs & w' & E).
  exists evs, w'. split; [exact E|]. exact (Hrun _ _ _ E).
Defined.

(** C5. [readLockBits] returns whenever its waits do, and then, for the
    byte answered to its third transaction (0x00,0x7C), the report is
    inverted: "LB1 Programmed" is printed exactly when bit 0 of the byte
    is 0 and "LB1 Not Programmed" exactly when it is 1, and likewise
    "LB2 Programmed" and "LB2 Not Programmed" for bit 1. *)
Theorem lock_bits_inverted hw fuel w :
  (forall n, settles hw n -> (n <= fuel)%nat ->
     exists evs w', readLockBits hw fuel w = Some (tt, evs, w')) /\
  (forall u evs w',
     readLockBits hw fuel w = Some (u, evs, w') ->
     commands evs = [(0x04, 0x4C); (0x00, 0x78); (0x00, 0x7C)] /\
     exists tValue,
       nth_error (responses evs) 2 = Some tValue /\
       0 <= tValue < 256 /\
       (reports evs LB1_programmed <-> Z.land tValue 1 = 0) /\
       (reports evs LB1_not_programmed <-> Z.land tValue 1 <> 0) /\
       (reports evs LB2_programmed <-> Z.land tValue 2 = 0) /\
       (reports evs LB2_not_programmed <-> Z.land tValue 2 <> 0)).
Proof.
  split.
  - intros n Hs Hn.
    destruct (total_readLockBits hw n fuel Hs Hn w) as ([] & evs & w' & E). eauto.
  - intros u evs w' H. apply readLockBits_reports in H.
    destruct H as (r1 & r2 & v & C & Hv & H1 & H2 & H3 & H4).
    rewrite (carries_commands _ _ C), (carries_responses _ _ C).
    split; [reflexivity|]. exists v. auto 10.
Qed.

Lemma lock_bits_inverted_witness :
  exists evs w',
    readLockBits (target [0; 0; 0x02]) 40 (power_on []) = Some (tt, evs, w') /\
    reports evs LB1_programmed /\ reports evs LB2_not_programmed /\
    ~ reports evs LB1_not_programmed /\ ~ reports evs LB2_programmed.
Proof.
  destruct (lock_bits_inverted (target [0; 0; 0x02]) 40 (power_on []))
    as [Hret Hrun].
  destruct (Hret _ (settles_target _) ltac:(simpl; lia)) as (evs & w' & E).
  destruct (Hrun _ _ _ E) as (_ & v & Hn & _ & H1 & H2 & H3 & H4).
  exists evs, w'. split; [exact E|].
  assert (Hv : v = 0x02).
  { vm_compute in E. injection E as <- <-. vm_compute in Hn. congruence. }
  subst v. split; [apply H1; reflexivity|].
  split; [apply H4; discriminate|].
  split; intros H; [apply H2 in H; apply H; reflexivity|apply H3 in H; discriminate].
Defined.

(** Every 8-bit value is the lock byte of some run: the target that
    answers it to the third transaction, and there the report follows
    its bits 0 and 1 as above. *)
Lemma lock_bits_every_value v :
  0 <= v < 256 ->
  exists evs w',
    readLockBits (target [0; 0; v]) 40 (power_on []) = Some (tt, evs, w') /\
    nth_error (responses evs) 2 = Some v /\
    (reports evs LB1_programmed <-> Z.land v 1 = 0) /\
    (reports evs LB1_not_programmed <-> Z.land v 1 <> 0) /\
    (reports evs LB2_programmed <-> Z.land v 2 = 0) /\
    (reports evs LB2_not_programmed <-> Z.land v 2 <> 0).
Proof.
  intros Hv.
  assert (Hrun : match readLockBits (target [0; 0; v]) 40 (power_on []) with
                 | Some (_, evs, _) =>
                     match nth_error (responses evs) 2 with
                     | Some v' => v' =? v
                     | None => false
                     end
                 | None => false
                 end = true).
  { revert v Hv. apply (Z_range_ind _ 256). apply Forall_forall. intros v Hin.
    assert (Hb : forallb
                   (fun v =>
                      match readLockBits (target [0; 0; v]) 40 (power_on []) with
                      | Some (_, evs, _) =>
                          match nth_error (responses evs) 2 with
                          | Some v' => v' =? v
                          | None => false
                          end
                      | None => false
                      end)
                   (map Z.of_nat (seq 0 256)) = true)
      by (vm_compute; reflexivity).
    rewrite forallb_forall in Hb. exact (Hb v Hin). }
  destruct (readLockBits (target [0; 0; v]) 40 (power_on []))
    as [[[[] evs] w']|] eqn:E; [|discriminate].
  destruct (nth_error (responses evs) 2) as [v'|] eqn:En; [|discriminate].
  apply Z.eqb_eq in Hrun. subst v'.
  exists evs, w'. split; [reflexivity|]. split; [exact En|].
  apply readLockBits_reports in E.
  destruct E as (r1 & r2 & t & C & _ & H1 & H2 & H3 & H4).
  rewrite (carries_responses _ _ C) in En. injection En as <-. auto.
Qed.

(** The four values of the two lock bits, on a target that answers them. *)
Example lock_bits_cases :
  forall v lines,
    In (v, lines)
      [ (0x03, [LB1_not_programmed; LB2_not_programmed]);
        (0x00, [LB1_programmed; LB2_programmed]);
        (0x01, [LB1_not_programmed; LB2_programmed]);
        (0x02, [LB1_programmed; LB2_not_programmed]) ] ->
    match readLockBits (target [0; 0; v]) 40 (power_on []) with
    | Some (_, evs, _) =>
        console_lines evs =
          ["Reading lock bits..."%string] ++ lines ++
          ["Reading Lock Bits complete"%string]
    | None => False
    end.
Proof.
  intros v lines H. simpl in H.
  repeat (destruct H as [H|H]; [injection H as <- <-; vm_compute; reflexivity|]).
  contradiction.
Qed.

(** C6. When the character received asks to erase, a pass of [loop]
    returns on any board that settles, and then it has issued: the
    signature read, the fuse and lock-bit reads, the three erase
    transactions (0x80,0x4C), (0x00,0x64), (0x00,0x6C) in this order,
    and the fuse and lock-bit reads again; the write command (0x40,0x4C)
    is never issued. *)
Theorem erase_session hw fuel w :
  requested_mode (received w) = erase ->
  (forall n, settles hw n -> released hw n -> (n <= fuel)%nat ->
     exists evs w', loop hw fuel w = Some (tt, evs, w')) /\
  (forall u evs w',
     loop hw fuel w = Some (u, evs, w') ->
     commands evs =
       signature_commands ++ fuse_read_commands ++ lock_read_commands ++
       [(0x80, 0x4C); (0x00, 0x64); (0x00, 0x6C)] ++
       fuse_read_commands ++ lock_read_commands /\
     ~ In (0x40, 0x4C) (commands evs)).
Proof.
  intros Hmode.
  assert (Hrx : serial_in w <> []).
  { intros E. rewrite (received_empty w E) in Hmode. discriminate. }
  split.
  - intros n Hs Hr Hn. apply (loop_returns hw n fuel Hs Hr Hn). left. exact Hrx.
  - intros u evs w' H. apply loop_pass in H.
    destruct H as [(_ & E)|(sig & body & b1 & b2 & _ & _ & Hc & _)];
      [contradiction|].
    rewrite Hmode in Hc. rewrite Hc. split; [reflexivity|].
    intros H. simpl in H.
    repeat (destruct H as [H|H]; [discriminate H|]). exact H.
Qed.

Lemma erase_session_witness :
  exists evs w',
    loop (target [0; 0; 0; 0x93; 0; 0; 0; 0x0B]) 100 (power_on [101])
    = Some (tt, evs, w') /\
    signature_of evs = Some 0x930B /\
    ~ In (0x40, 0x4C) (commands evs).
Proof.
  destruct (erase_session (target [0; 0; 0; 0x93; 0; 0; 0; 0x0B]) 100
              (power_on [101]) eq_refl) as [Hret Hrun].
  destruct (Hret 97%nat) as (evs & w' & E);
    [apply settles_target|apply released_target; lia|lia|].
  exists evs, w'. split; [exact E|]. split; [|exact (proj2 (Hrun _ _ _ E))].
  vm_compute in E. injection E as <- <-. reflexivity.
Defined.

(** C7. A pass of [loop] returns on any board that settles, once a byte
    waits on the serial line or the button gets pressed, whatever the
    signature and the mode.  In a pass that ran a session, the fuse
    writes are those of the device table and nothing else: with the mode
    write-defaults and the signature 0x9007 the low fuse is written with
    0x6A and the high fuse with 0xFF, and no extended fuse; with one of
    the six signatures of the ATtiny 24, 25, 44, 45, 84 and 85 the low
    fuse is written with 0x62, the high with 0xDF and the extended with
    0xFF; and the write command (0x40,0x4C) is issued exactly when the
    mode is write-defaults and the signature is in the table. *)
Theorem default_fuse_writes hw fuel w :
  (forall n, settles hw n -> released hw n -> (n <= fuel)%nat ->
     serial_in w <> [] \/
     (exists k, (k < fuel)%nat /\ btn_line hw (btn_reads w + k) = false) ->
     exists evs w', loop hw fuel w = Some (tt, evs, w')) /\
  (forall u evs w',
     loop hw fuel w = Some (u, evs, w') ->
     commands evs = [] \/
     exists tSignature writes,
       signature_of evs = Some tSignature /\
       commands evs =
         signature_commands ++ fuse_read_commands ++ lock_read_commands ++
         match requested_mode (received w) with
         | erase => erase_commands
         | _ => []
         end ++
         writes ++ verify_commands (requested_mode (received w)) /\
       writes =
         match requested_mode (received w), fuse_defaults tSignature with
         | write_defaults, Some (low, high, extended) =>
             write_commands LFUSE low ++ write_commands HFUSE high ++
             match extended with
             | Some e => write_commands EFUSE e
             | None => []
             end
         | _, _ => []
         end /\
       (requested_mode (received w) = write_defaults -> tSignature = 0x9007 ->
        writes =
          [ (0x40, 0x4C); (0x6A, 0x2C); (0x00, 0x64); (0x00, 0x6C);
            (0x40, 0x4C); (0xFF, 0x2C); (0x00, 0x74); (0x00, 0x7C) ]) /\
       (requested_mode (received w) = write_defaults ->
        In tSignature [0x910B; 0x9108; 0x9207; 0x9206; 0x930C; 0x930B] ->
        writes =
          [ (0x40, 0x4C); (0x62, 0x2C); (0x00, 0x64); (0x00, 0x6C);
            (0x40, 0x4C); (0xDF, 0x2C); (0x00, 0x74); (0x00, 0x7C);
            (0x40, 0x4C); (0xFF, 0x2C); (0x00, 0x66); (0x00, 0x6E) ]) /\
       (In (0x40, 0x4C) (commands evs) <->
        requested_mode (received w) = write_defaults /\
        fuse_defaults tSignature <> None)).
Proof.
  split.
  { intros n Hs Hr Hn Hstart. exact (loop_returns hw n fuel Hs Hr Hn w Hstart). }
  intros u evs w' H. apply loop_pass in H.
  destruct H as [(Hb & _)|(sig & body & b1 & b2 & Hsig & _ & Hc & _)].
  - left. rewrite (carries_commands _ _ (background_carries _ Hb)). reflexivity.
  - right. exists sig.
    set (m := requested_mode (received w)) in *.
    exists (match m, fuse_defaults sig with
            | write_defaults, Some (low, high, extended) =>
                write_commands LFUSE low ++ write_commands HFUSE high ++
                match extended with
                | Some e => write_commands EFUSE e
                | None => []
                end
            | _, _ => []
            end).
    split; [exact Hsig|]. split; [|split; [reflexivity|]].
    + rewrite Hc. unfold mutation_commands, default_write_commands.
      destruct m; [reflexivity|reflexivity|].
      destruct (fuse_defaults sig) as [[[low high] ext]|]; reflexivity.
    + split; [|split].
      * intros -> ->. reflexivity.
      * intros -> Hin. simpl in Hin.
        repeat (destruct Hin as [<-|Hin]; [reflexivity|]). contradiction.
      * rewrite Hc. destruct no_write_in_reads as (N1 & N2 & N3).
        rewrite !app_assoc, <- (app_assoc _ _ lock_read_commands).
        rewrite in_app_iff, in_app_iff.
        unfold mutation_commands, verify_commands, default_write_commands.
        destruct m.
        -- simpl. split; [intros [[F|[]]|[]]; contradiction|].
           intros (E & _). discriminate E.
        -- split; [intros [[F|F]|F]; contradiction|].
           intros (E & _). discriminate E.
        -- destruct (fuse_defaults sig) as [[[low high] ext]|].
           ++ split; [intros _; split; [reflexivity|discriminate]|].
              intros _. left. right. left. reflexivity.
           ++ split; [intros [[F|[]]|F]; contradiction|].
              intros (_ & F). contradiction.
Qed.

(** On an ATtiny13 and on an ATtiny85, with the character [w]: the pass
    returns, and what it writes are the two, respectively three, default
    fuses of the device. *)
Lemma default_fuse_writes_witness :
  (exists evs w',
     loop (target [0; 0; 0; 0x90; 0; 0; 0; 0x07]) 100 (power_on [119])
     = Some (tt, evs, w') /\
     signature_of evs = Some 0x9007 /\
     commands evs =
       signature_commands ++ fuse_read_commands ++ lock_read_commands ++
       [ (0x40, 0x4C); (0x6A, 0x2C); (0x00, 0x64); (0x00, 0x6C);
         (0x40, 0x4C); (0xFF, 0x2C); (0x00, 0x74); (0x00, 0x7C) ] ++
       fuse_read_commands ++ lock_read_commands) /\
  (exists evs w',
     loop (target [0; 0; 0; 0x93; 0; 0; 0; 0x0B]) 100 (power_on [119])
     = Some (tt, evs, w') /\
     signature_of evs = Some 0x930B /\
     commands evs =
       signature_commands ++ fuse_read_commands ++ lock_read_commands ++
       [ (0x40, 0x4C); (0x62, 0x2C); (0x00, 0x64); (0x00, 0x6C);
         (0x40, 0x4C); (0xDF, 0x2C); (0x00, 0x74); (0x00, 0x7C);
         (0x40, 0x4C); (0xFF, 0x2C); (0x00, 0x66); (0x00, 0x6E) ] ++
       fuse_read_commands ++ lock_read_commands).
Proof.
  split.
  - destruct (default_fuse_writes (target [0; 0; 0; 0x90; 0; 0; 0; 0x07]) 100
                (power_on [119])) as [Hret Hrun].
    destruct (Hret 97%nat) as (evs & w' & E);
      [apply (settles_target [_; _; _; _; _; _; _; _])
      |apply released_target; lia|lia|left; discriminate|].
    exists evs, w'. split; [exact E|].
    assert (Hsig : signature_of evs = Some 0x9007).
    { vm_compute in E. injection E as <- <-. reflexivity. }
    split; [exact Hsig|].
    destruct (Hrun _ _ _ E)
      as [Hc|(sig & writes & Hsig' & Hc & _ & H13 & _)].
    + exfalso. vm_compute in E. injection E as <- <-. vm_compute in Hc.
      discriminate.
    + assert (sig = 0x9007) by congruence. subst sig.
      rewrite Hc, (H13 eq_refl eq_refl). reflexivity.
  - destruct (default_fuse_writes (target [0; 0; 0; 0x93; 0; 0; 0; 0x0B]) 100
                (power_on [119])) as [Hret Hrun].
    destruct (Hret 97%nat) as (evs & w' & E);
      [apply (settles_target [_; _; _; _; _; _; _; _])
      |apply released_target; lia|lia|left; discriminate|].
    exists evs, w'. split; [exact E|].
    assert (Hsig : signature_of evs = Some 0x930B).
    { vm_compute in E. injection E as <- <-. reflexivity. }
    split; [exact Hsig|].
    destruct (Hrun _ _ _ E)
      as [Hc|(sig & writes & Hsig' & Hc & _ & _ & H85 & _)].
    + exfalso. vm_compute in E. injection E as <- <-. vm_compute in Hc.
      discriminate.
    + assert (sig = 0x930B) by congruence. subst sig.
      rewrite Hc, (H85 eq_refl ltac:(simpl; tauto)). reflexivity.
Defined.

(** * Further properties of the sketch *)

(** ** shiftOut *)

Lemma frame_bits_layout v :
  0 <= v < 256 ->
  frame_bits (Z.shiftl v 2) = false :: bits_below 8 v ++ [false; false].
Proof.
  intros H. revert v H. apply (Z_range_ind _ 256).
  apply Forall_forall. intros v Hv.
  assert (Hb : forallb
                 (fun v =>
                    if list_eq_dec Bool.bool_dec (frame_bits (Z.shiftl v 2))
                         (false :: bits_below 8 v ++ [false; false])
                    then true else false)
                 (map Z.of_nat (seq 0 256)) = true) by (vm_compute; reflexivity).
  rewrite forallb_forall in Hb. specialize (Hb v Hv).
  destruct (list_eq_dec Bool.bool_dec (frame_bits (Z.shiftl v 2))
              (false :: bits_below 8 v ++ [false; false])); [assumption|discriminate].
Qed.

(** X1. The frame [shiftOut] puts on each output line, for an 8-bit
    argument, is a low bit, the eight bits of the argument from bit 7
    down to bit 0, and two low bits. *)
Theorem shiftOut_frame_layout hw fuel aValue aAddress w r evs w' :
  0 <= aValue < 256 -> 0 <= aAddress < 256 ->
  shiftOut hw fuel aValue aAddress w = Some (r, evs, w') ->
  exists polls samples,
    forallb is_poll polls = true /\
    List.length samples = 11%nat /\
    evs = polls ++
          frame_events (false :: bits_below 8 aValue ++ [false; false])
            (false :: bits_below 8 aAddress ++ [false; false]) samples.
Proof.
  intros Hv Ha H. apply shiftOut_inv in H; [|assumption..].
  destruct H as (e0 & w0 & Hw & _ & -> & _).
  apply waitSDO_polls in Hw. destruct Hw as (Hp & _).
  exists e0, (sdo_samples hw (sdo_reads w0) 11).
  split; [exact Hp|]. split; [apply length_sdo_samples|].
  rewrite !frame_bits_layout by assumption. reflexivity.
Qed.

Lemma shiftOut_frame_layout_witness :
  exists polls samples,
    forallb is_poll polls = true /\
    List.length samples = 11%nat /\
    snd (fst (match shiftOut (target [0xA5]) 20 0x40 0x4C (power_on []) with
              | Some x => x
              | None => (0, [], power_on [])
              end))
    = polls ++
      frame_events
        [false; false; true; false; false; false; false; false; false; false; false]
        [false; false; true; false; false; true; true; false; false; false; false]
        samples.
Proof.
  destruct (shiftOut (target [0xA5]) 20 0x40 0x4C (power_on []))
    as [[[r evs] w']|] eqn:E; [|vm_compute in E; discriminate].
  exact (shiftOut_frame_layout _ _ 0x40 0x4C _ _ _ _
           ltac:(lia) ltac:(lia) E).
Defined.

Lemma frame_byte_middle s0 s1 s2 s3 s4 s5 s6 s7 s8 s9 s10 :
  frame_byte [s0; s1; s2; s3; s4; s5; s6; s7; s8; s9; s10]
  = pack [s1; s2; s3; s4; s5; s6; s7; s8].
Proof.
  destruct s0, s1, s2, s3, s4, s5, s6, s7, s8, s9, s10; reflexivity.
Qed.

Lemma pack_testbit b1 b2 b3 b4 b5 b6 b7 b8 j :
  (j < 8)%nat ->
  Z.testbit (pack [b1; b2; b3; b4; b5; b6; b7; b8]) (Z.of_nat j)
  = nth (7 - j) [b1; b2; b3; b4; b5; b6; b7; b8] false.
Proof.
  intros Hj.
  do 8 (destruct j as [|j];
        [destruct b1, b2, b3, b4, b5, b6, b7, b8; reflexivity|]).
  lia.
Qed.

(** X2. The byte [shiftOut] returns is made of the second to the ninth
    of its 11 samples, the second being bit 7: the first sample and the
    last two never reach the result. *)
Theorem shiftOut_result_bits hw fuel aValue aAddress w r evs w' :
  0 <= aValue < 256 -> 0 <= aAddress < 256 ->
  shiftOut hw fuel aValue aAddress w = Some (r, evs, w') ->
  exists polls w0,
    waitSDO hw fuel w = Some (tt, polls, w0) /\
    r = pack (sdo_samples hw (S (sdo_reads w0)) 8) /\
    forall j, (j < 8)%nat ->
      Z.testbit r (Z.of_nat j) = sdo_line hw (sdo_reads w0 + 8 - j).
Proof.
  intros Hv Ha H. apply shiftOut_inv in H; [|assumption..].
  destruct H as (e0 & w0 & Hw & -> & _ & _).
  exists e0, w0. split; [exact Hw|].
  set (i := sdo_reads w0).
  assert (E : frame_byte (sdo_samples hw i 11)
              = pack (sdo_samples hw (S i) 8)).
  { unfold sdo_samples. cbn [seq map]. apply frame_byte_middle. }
  split; [exact E|]. rewrite E. intros j Hj.
  unfold sdo_samples at 1. cbn [seq map]. rewrite pack_testbit by assumption.
  change [sdo_line hw (S i); sdo_line hw (S (S i)); sdo_line hw (S (S (S i)));
          sdo_line hw (S (S (S (S i)))); sdo_line hw (S (S (S (S (S i)))));
          sdo_line hw (S (S (S (S (S (S i))))));
          sdo_line hw (S (S (S (S (S (S (S i)))))));
          sdo_line hw (S (S (S (S (S (S (S (S i))))))))]
    with (map (sdo_line hw) (seq (S i) 8)).
  rewrite (nth_indep _ false (sdo_line hw 0%nat))
    by (rewrite length_map, length_seq; lia).
  rewrite map_nth, seq_nth by lia. f_equal. lia.
Qed.

Lemma shiftOut_result_bits_witness :
  exists evs w',
    shiftOut (target [0xA5]) 20 0x04 0x4C (power_on []) = Some (0xA5, evs, w') /\
    Z.testbit 0xA5 7 = sdo_line (target [0xA5]) 2.
Proof.
  destruct (shiftOut (target [0xA5]) 20 0x04 0x4C (power_on []))
    as [[[r evs] w']|] eqn:E; [|vm_compute in E; discriminate].
  destruct (shiftOut_result_bits _ _ 0x04 0x4C _ _ _ _
              ltac:(lia) ltac:(lia) E) as (polls & w0 & Hw & Hr & Hbits).
  vm_compute in Hw. injection Hw as <- <-.
  assert (Er : r = 0xA5) by (rewrite Hr; reflexivity). subst r.
  exists evs, w'. split; [reflexivity|]. exact (Hbits 7%nat ltac:(lia)).
Defined.

(** X3. What [shiftOut] puts on the lines can be read back from them: a
    monitor of the clock edges finds one transaction in the trace of a
    call, with the two arguments of the call and the byte it returned. *)
Theorem shiftOut_round_trip hw fuel aValue aAddress w r evs w' :
  0 <= aValue < 256 -> 0 <= aAddress < 256 ->
  shiftOut hw fuel aValue aAddress w = Some (r, evs, w') ->
  transactions evs =
    [{| sdi_byte := aValue; sii_byte := aAddress; sdo_byte := r |}].
Proof.
  intros Hv Ha H. apply shiftOut_carries in H; [|assumption..].
  destruct H as (C & _). exact (carries_transactions _ _ C).
Qed.

Lemma shiftOut_round_trip_witness :
  exists evs w',
    shiftOut (target [0xA5]) 20 0x40 0x4C (power_on []) = Some (0xA5, evs, w') /\
    transactions evs =
      [{| sdi_byte := 0x40; sii_byte := 0x4C; sdo_byte := 0xA5 |}].
Proof.
  destruct (shiftOut (target [0xA5]) 20 0x40 0x4C (power_on []))
    as [[[r evs] w']|] eqn:E; [|vm_compute in E; discriminate].
  pose proof (shiftOut_round_trip _ _ 0x40 0x4C _ _ _ _
                ltac:(lia) ltac:(lia) E) as T.
  assert (Er : r = 0xA5) by (vm_compute in E; congruence). subst r.
  exists evs, w'. split; [reflexivity|exact T].
Defined.

Lemma programming_line_frame : forall vbits abits samples,
  forallb programming_line (frame_events vbits abits samples) = true.
Proof.
  induction vbits as [|v vbits IH]; intros [|a abits] [|s samples];
    simpl; auto.
Qed.

Lemma poll_programming_line evs :
  forallb is_poll evs = true -> forallb programming_line evs = true.
Proof.
  induction evs as [|e evs IH]; simpl; [reflexivity|].
  intros H. apply andb_prop in H. destruct H as [He H].
  rewrite IH by assumption.
  destruct e as [p v|p v| | | | | | | | | |]; try discriminate.
  - destruct p; try discriminate; reflexivity.
  - reflexivity.
Qed.

Lemma level_of_SCI_frame vbits abits samples start :
  List.length vbits = 11%nat -> List.length abits = 11%nat ->
  List.length samples = 11%nat ->
  level_of SCI (frame_events vbits abits samples) start = LOW.
Proof.
  intros Hv Ha Hs.
  do 11 (destruct vbits as [|? vbits]; [discriminate Hv|]).
  destruct vbits; [|discriminate Hv].
  do 11 (destruct abits as [|? abits]; [discriminate Ha|]).
  destruct abits; [|discriminate Ha].
  do 11 (destruct samples as [|? samples]; [discriminate Hs|]).
  destruct samples; [|discriminate Hs].
  reflexivity.
Qed.

(** X4. A call of [shiftOut] touches the programming lines only: it
    sets SDI, SII and the clock, samples SDO and reads the counter,
    prints nothing, leaves the clock low, and leaves the serial buffer
    and the button unread. *)
Theorem shiftOut_footprint hw fuel aValue aAddress w r evs w' :
  0 <= aValue < 256 -> 0 <= aAddress < 256 ->
  shiftOut hw fuel aValue aAddress w = Some (r, evs, w') ->
  forallb programming_line evs = true /\
  (forall start, level_of SCI evs start = LOW) /\
  console_lines evs = [] /\ hex_values evs = [] /\
  serial_in w' = serial_in w /\ btn_reads w' = btn_reads w.
Proof.
  intros Hv Ha H. apply shiftOut_inv in H; [|assumption..].
  destruct H as (e0 & w0 & Hw & _ & -> & ->).
  apply waitSDO_polls in Hw. destruct Hw as (Hp & Hb & Hs).
  assert (P : forallb programming_line
                (e0 ++ frame_events (frame_bits (Z.shiftl aValue 2))
                         (frame_bits (Z.shiftl aAddress 2))
                         (sdo_samples hw (sdo_reads w0) 11)) = true).
  { rewrite forallb_app, (poll_programming_line _ Hp), programming_line_frame.
    reflexivity. }
  assert (N : forall l, forallb programming_line l = true ->
                        console_lines l = [] /\ hex_values l = []).
  { induction l as [|e l IH]; [auto|]. simpl. intros H.
    apply andb_prop in H. destruct H as [He H]. destruct (IH H) as (I1 & I2).
    destruct e as [p v|p v| | | | | | | | | |]; try discriminate; auto. }
  split; [exact P|]. split; [|split; [apply N, P|split; [apply N, P|]]].
  - intros start. rewrite level_of_app.
    apply level_of_SCI_frame; [reflexivity..|apply length_sdo_samples].
  - unfold after_samples. simpl. auto.
Qed.

Lemma shiftOut_footprint_witness :
  exists r evs w',
    shiftOut (target [0xA5]) 20 0x40 0x4C (power_on [101; 13])
    = Some (r, evs, w') /\
    level_of SCI evs HIGH = LOW /\ serial_in w' = [101; 13].
Proof.
  destruct (shiftOut (target [0xA5]) 20 0x40 0x4C (power_on [101; 13]))
    as [[[r evs] w']|] eqn:E; [|vm_compute in E; discriminate].
  destruct (shiftOut_footprint _ _ 0x40 0x4C _ _ _ _
              ltac:(lia) ltac:(lia) E) as (_ & L & _ & _ & S & _).
  exists r, evs, w'. split; [reflexivity|]. split; [apply L|exact S].
Defined.

(** ** The wait of shiftOut *)

(** The wait leaves at its round [k] when, in the rounds before, the
    line read low and the counter had not passed the sum, and in round
    [k] the line reads high or the counter has passed it. *)
Lemma waitLoop_exit hw tMillis k : forall fuel w,
  (k < fuel)%nat ->
  (forall i, (i < k)%nat ->
     sdo_line hw (sdo_reads w + i) = false /\
     uint32 (clock hw (clock_reads w + i))
       <= uint32 (tMillis + READING_TIMEOUT_MILLIS)) ->
  sdo_line hw (sdo_reads w + k) = true \/
  uint32 (clock hw (clock_reads w + k))
    > uint32 (tMillis + READING_TIMEOUT_MILLIS) ->
  exists evs w',
    waitLoop hw fuel tMillis w = Some (tt, evs, w') /\
    sdo_reads w' = (sdo_reads w + S k)%nat /\
    clock_reads w' =
      (clock_reads w + if sdo_line hw (sdo_reads w + k) then k else S k)%nat /\
    btn_reads w' = btn_reads w /\ serial_in w' = serial_in w.
Proof.
  induction k as [|k IH]; intros fuel w Hk Hbefore Hexit;
    (destruct fuel as [|fuel]; [lia|]); cbn [waitLoop];
    rewrite (bind_run _ _ _ _ _ _ (eq_refl : digitalRead hw SDO w = Some _)).
  - rewrite ?Nat.add_0_r in *.
    destruct (sdo_line hw (sdo_reads w)) eqn:Hs.
    + eexists _, _. split; [reflexivity|]. simpl. repeat split; lia.
    + match goal with
      | |- context [bind (millis hw) ?f ?w1] =>
          rewrite (bind_run _ f w1 _ _ _ (eq_refl : millis hw w1 = Some _))
      end; cbn [clock_reads].
      destruct Hexit as [Hexit|Hexit]; [discriminate|].
      apply Z.gtb_gt in Hexit. rewrite Hexit.
      eexists _, _. split; [reflexivity|]. simpl. repeat split; lia.
  - destruct (Hbefore 0%nat ltac:(lia)) as (Hs & Hc). rewrite ?Nat.add_0_r in *.
    rewrite Hs.
    match goal with
    | |- context [bind (millis hw) ?f ?w1] =>
        rewrite (bind_run _ f w1 _ _ _ (eq_refl : millis hw w1 = Some _))
    end; cbn [clock_reads].
    assert (Hn : (uint32 (clock hw (clock_reads w))
                  >? uint32 (tMillis + READING_TIMEOUT_MILLIS)) = false)
      by (rewrite Z.gtb_ltb; apply Z.ltb_ge; exact Hc).
    rewrite Hn.
    match goal with
    | |- context [waitLoop hw fuel tMillis ?w2] =>
        destruct (IH fuel w2) as (e2 & w2' & E & H1 & H2 & H3 & H4)
    end.
    + lia.
    + intros i Hi. cbn [sdo_reads clock_reads].
      replace (S (sdo_reads w) + i)%nat with (sdo_reads w + S i)%nat by lia.
      replace (S (clock_reads w) + i)%nat with (clock_reads w + S i)%nat by lia.
      apply Hbefore. lia.
    + cbn [sdo_reads clock_reads].
      replace (S (sdo_reads w) + k)%nat with (sdo_reads w + S k)%nat by lia.
      replace (S (clock_reads w) + k)%nat with (clock_reads w + S k)%nat by lia.
      exact Hexit.
    + rewrite E. eexists _, _. split; [reflexivity|].
      cbn [sdo_reads clock_reads btn_reads serial_in] in H1, H2, H3, H4.
      replace (S (sdo_reads w) + k)%nat with (sdo_reads w + S k)%nat in H2 by lia.
      repeat split; try assumption; try lia.
      rewrite H2. destruct (sdo_line hw (sdo_reads w + S k)); lia.
Qed.

Lemma waitSDO_exit hw k fuel w :
  (k < fuel)%nat ->
  (forall i, (i < k)%nat ->
     sdo_line hw (sdo_reads w + i) = false /\
     uint32 (clock hw (clock_reads w + 1 + i))
       <= uint32 (uint32 (clock hw (clock_reads w)) + READING_TIMEOUT_MILLIS)) ->
  sdo_line hw (sdo_reads w + k) = true \/
  uint32 (clock hw (clock_reads w + 1 + k))
    > uint32 (uint32 (clock hw (clock_reads w)) + READING_TIMEOUT_MILLIS) ->
  exists evs w',
    waitSDO hw fuel w = Some (tt, evs, w') /\
    sdo_reads w' = (sdo_reads w + S k)%nat /\
    clock_reads w' =
      (clock_reads w + 1 +
       if sdo_line hw (sdo_reads w + k) then k else S k)%nat /\
    btn_reads w' = btn_reads w /\ serial_in w' = serial_in w.
Proof.
  intros Hk Hbefore Hexit. unfold waitSDO.
  rewrite (bind_run _ _ _ _ _ _ (eq_refl : millis hw w = Some _)).
  match goal with
  | |- context [waitLoop hw fuel ?t ?w1] =>
      destruct (waitLoop_exit hw t k fuel w1) as (e & w' & E & H1 & H2 & H3 & H4)
  end.
  - exact Hk.
  - intros i Hi. cbn [sdo_reads clock_reads].
    replace (S (clock_reads w) + i)%nat with (clock_reads w + 1 + i)%nat by lia.
    apply Hbefore, Hi.
  - cbn [sdo_reads clock_reads].
    replace (S (clock_reads w) + k)%nat with (clock_reads w + 1 + k)%nat by lia.
    exact Hexit.
  - rewrite E. eexists _, _. split; [reflexivity|].
    cbn [sdo_reads clock_reads btn_reads serial_in] in H1, H2, H3, H4.
    repeat split; try assumption. rewrite H2. lia.
Qed.

Lemma frame_byte_low hw i :
  (forall n, sdo_line hw n = false) ->
  frame_byte (sdo_samples hw i 11) = 0.
Proof.
  intros H. unfold sdo_samples. cbn [seq map]. rewrite !H. reflexivity.
Qed.

(** X5. With the response line held low and a counter that advances by
    one at every reading, away from its wrap-around, [shiftOut] gives up
    waiting at the first reading above the start plus 300, the 301st
    sample of the line, and then makes its transfer and returns 0. *)
Theorem shiftOut_times_out hw fuel aValue aAddress w t0 :
  0 <= aValue < 256 -> 0 <= aAddress < 256 ->
  0 <= t0 -> t0 + 301 < 4294967296 ->
  (forall n, sdo_line hw n = false) ->
  (forall k, (k <= 301)%nat ->
     clock hw (clock_reads w + k) = t0 + Z.of_nat k) ->
  (300 < fuel)%nat ->
  exists evs w',
    shiftOut hw fuel aValue aAddress w = Some (0, evs, w') /\
    sdo_reads w' = (sdo_reads w + 301 + 11)%nat /\
    clock_reads w' = (clock_reads w + 302)%nat.
Proof.
  intros Hv Ha Ht0 Ht1 Hlow Hclock Hfuel.
  assert (Hc0 : uint32 (clock hw (clock_reads w)) = t0).
  { rewrite <- (Nat.add_0_r (clock_reads w)), Hclock by lia.
    unfold uint32. rewrite Z.mod_small; lia. }
  assert (Hck : forall i, (i <= 300)%nat ->
                  uint32 (clock hw (clock_reads w + 1 + i)) = t0 + 1 + Z.of_nat i).
  { intros i Hi. rewrite <- Nat.add_assoc, Hclock by lia.
    unfold uint32. rewrite Z.mod_small; lia. }
  assert (Hsum : uint32 (t0 + READING_TIMEOUT_MILLIS) = t0 + 300).
  { unfold uint32, READING_TIMEOUT_MILLIS. rewrite Z.mod_small; lia. }
  destruct (waitSDO_exit hw 300 fuel w) as (e0 & w0 & Hw & H1 & H2 & _).
  - exact Hfuel.
  - intros i Hi. split; [apply Hlow|]. rewrite Hc0, Hsum, Hck by lia. lia.
  - right. rewrite Hc0, Hsum, Hck by lia. lia.
  - rewrite (shiftOut_run _ _ _ _ _ _ _ Hv Ha Hw).
    rewrite frame_byte_low by assumption.
    eexists _, _. split; [reflexivity|]. unfold after_samples. simpl.
    rewrite H1, H2, Hlow. split; lia.
Qed.

Lemma shiftOut_times_out_witness :
  exists evs w',
    shiftOut (silent_board 1000) 301 0x04 0x4C (power_on []) = Some (0, evs, w')
    /\ sdo_reads w' = 312%nat /\ clock_reads w' = 302%nat.
Proof.
  apply (shiftOut_times_out (silent_board 1000) 301 0x04 0x4C (power_on []) 1000);
    try lia; reflexivity.
Defined.

(** X6. Close to the wrap-around of the counter the timeout is cut
    short: when the counter reads [t0], at least [2^32 - 300], at the
    start of the wait, the 32-bit sum has wrapped to [t0 + 300 - 2^32];
    if the line reads low and the next reading [t1] of the counter is
    above that wrapped sum, as it is whenever the counter has not
    wrapped itself between the two readings, [shiftOut] gives up after a
    single sample of the line instead of 300 ms later. *)
Theorem shiftOut_early_timeout hw fuel aValue aAddress w t0 t1 :
  0 <= aValue < 256 -> 0 <= aAddress < 256 ->
  4294966996 <= t0 <= 4294967295 ->
  t0 + 300 - 4294967296 < t1 < 4294967296 ->
  sdo_line hw (sdo_reads w) = false ->
  clock hw (clock_reads w) = t0 ->
  clock hw (clock_reads w + 1) = t1 ->
  (0 < fuel)%nat ->
  exists r evs w',
    shiftOut hw fuel aValue aAddress w = Some (r, evs, w') /\
    sdo_reads w' = (sdo_reads w + 1 + 11)%nat /\
    clock_reads w' = (clock_reads w + 2)%nat.
Proof.
  intros Hv Ha Ht Ht1 Hlow Hc0 Hc1 Hfuel.
  destruct (waitSDO_exit hw 0 fuel w) as (e0 & w0 & Hw & H1 & H2 & _).
  - exact Hfuel.
  - intros i Hi. lia.
  - right. rewrite Nat.add_0_r, Hc0, Hc1.
    unfold uint32, READING_TIMEOUT_MILLIS.
    rewrite (Z.mod_small t0), (Z.mod_small t1) by lia.
    replace (t0 + 300) with (t0 + 300 - 4294967296 + 1 * 4294967296) by lia.
    rewrite Z.mod_add, Z.mod_small by lia. lia.
  - rewrite (shiftOut_run _ _ _ _ _ _ _ Hv Ha Hw).
    eexists _, _, _. split; [reflexivity|]. unfold after_samples. simpl.
    rewrite H1, H2, Nat.add_0_r, Hlow. split; lia.
Qed.

Lemma shiftOut_early_timeout_witness :
  exists r evs w',
    shiftOut (silent_board 4294967000) 1 0x04 0x4C (power_on [])
    = Some (r, evs, w') /\
    sdo_reads w' = 12%nat /\ clock_reads w' = 2%nat.
Proof.
  apply (shiftOut_early_timeout (silent_board 4294967000) 1 0x04 0x4C
           (power_on []) 4294967000 4294967001); try lia; reflexivity.
Defined.

(** X7. On a target that is ready, the counter plays no part: when the
    response line reads high at the first sample, [shiftOut] returns
    with any fuel and any readings of the counter, after one reading of
    it and 12 samples of the line. *)
Theorem shiftOut_ready hw fuel aValue aAddress w :
  0 <= aValue < 256 -> 0 <= aAddress < 256 ->
  sdo_line hw (sdo_reads w) = true ->
  (0 < fuel)%nat ->
  exists r evs w',
    shiftOut hw fuel aValue aAddress w = Some (r, evs, w') /\
    sdo_reads w' = (sdo_reads w + 12)%nat /\
    clock_reads w' = (clock_reads w + 1)%nat /\
    sdo_seen evs = true :: sdo_samples hw (S (sdo_reads w)) 11.
Proof.
  intros Hv Ha Hhigh Hfuel.
  assert (Hw : waitSDO hw fuel w =
               Some (tt, [Millis (uint32 (clock hw (clock_reads w)));
                          DigitalRead SDO true],
                     {| sdo_reads := S (sdo_reads w); btn_reads := btn_reads w;
                        clock_reads := S (clock_reads w);
                        serial_in := serial_in w |})).
  { unfold waitSDO.
    rewrite (bind_run _ _ _ _ _ _ (eq_refl : millis hw w = Some _)).
    destruct fuel as [|fuel]; [lia|]. cbn [waitLoop].
    match goal with
    | |- context [bind (digitalRead hw SDO) ?f ?w1] =>
        rewrite (bind_run _ f w1 _ _ _ (eq_refl : digitalRead hw SDO w1 = Some _))
    end.
    cbn [sdo_reads]. rewrite Hhigh. reflexivity. }
  rewrite (shiftOut_run _ _ _ _ _ _ _ Hv Ha Hw).
  eexists _, _, _. split; [reflexivity|]. unfold after_samples. cbn [sdo_reads clock_reads].
  split; [lia|]. split; [lia|].
  cbn [app sdo_seen]. rewrite sdo_seen_frame; [reflexivity|..];
    rewrite length_sdo_samples; reflexivity.
Qed.

Lemma shiftOut_ready_witness :
  exists r evs w',
    shiftOut (target [0xA5]) 1 0x04 0x4C (power_on []) = Some (r, evs, w') /\
    sdo_reads w' = 12%nat /\ clock_reads w' = 1%nat.
Proof.
  destruct (shiftOut_ready (target [0xA5]) 1 0x04 0x4C (power_on []))
    as (r & evs & w' & E & H1 & H2 & _); [lia|lia|reflexivity|lia|].
  exists r, evs, w'. auto.
Defined.

(** ** readFuses and readLockBits *)

Ltac run_inv H :=
  repeat (apply bind_Some in H;
          let a := fresh "r" in
          let e1 := fresh "e" in
          let w1 := fresh "w" in
          let e2 := fresh "e" in
          let H1 := fresh "R" in
          destruct H as (a & e1 & w1 & e2 & H1 & H & ->)).

Ltac shifted H :=
  apply shiftOut_carries in H; [|lia..];
  let C := fresh "C" in
  let W := fresh "W" in
  let B := fresh "B" in
  destruct H as (C & W & B).

Ltac emitted H :=
  apply emit_inv in H; destruct H as (-> & ->).

Lemma hex_values_app e1 e2 : hex_values (e1 ++ e2) = hex_values e1 ++ hex_values e2.
Proof.
  induction e1 as [|e e1 IH]; [reflexivity|].
  destruct e; simpl; rewrite IH; reflexivity.
Qed.

Lemma hex_values_wire evs : forallb wire evs = true -> hex_values evs = [].
Proof.
  induction evs as [|e evs IH]; simpl; [reflexivity|].
  intros H. apply andb_prop in H. destruct H as [He H].
  destruct e; try discriminate; auto.
Qed.

(** X8. [readFuses] returns whenever its waits do; it reads the low,
    the high and the extended fuse, in this order, with three
    transactions each, and the three numbers it prints are the bytes
    answered to the third, the sixth and the ninth transaction. *)
Theorem readFuses_report hw fuel w :
  (forall n, settles hw n -> (n <= fuel)%nat ->
     exists evs w', readFuses hw fuel w = Some (tt, evs, w')) /\
  (forall u evs w',
     readFuses hw fuel w = Some (u, evs, w') ->
     commands evs =
       [(0x04, 0x4C); (0x00, 0x68); (0x00, 0x6C);
        (0x04, 0x4C); (0x00, 0x7A); (0x00, 0x7E);
        (0x04, 0x4C); (0x00, 0x6A); (0x00, 0x6E)] /\
     exists lfuse hfuse efuse,
       nth_error (responses evs) 2 = Some lfuse /\
       nth_error (responses evs) 5 = Some hfuse /\
       nth_error (responses evs) 8 = Some efuse /\
       hex_values evs = [lfuse; hfuse; efuse]).
Proof.
  split.
  - intros n Hs Hn.
    destruct (total_readFuses hw n fuel Hs Hn w) as ([] & evs & w' & E). eauto.
  - intros u evs w' H. unfold readFuses in H. run_inv H.
    emitted R. emitted R3. emitted R4. emitted R8. emitted R9.
    emitted R13. emitted R14. emitted H.
    shifted R0. shifted R1. shifted R2. shifted R5. shifted R6. shifted R7.
    shifted R10. shifted R11. shifted R12.
    match goal with
    | |- commands ?l = _ /\ _ =>
        assert (Call : carries l
          [ {| sdi_byte := 0x04; sii_byte := 0x4C; sdo_byte := r0 |};
            {| sdi_byte := 0x00; sii_byte := 0x68; sdo_byte := r1 |};
            {| sdi_byte := 0x00; sii_byte := 0x6C; sdo_byte := r2 |};
            {| sdi_byte := 0x04; sii_byte := 0x4C; sdo_byte := r5 |};
            {| sdi_byte := 0x00; sii_byte := 0x7A; sdo_byte := r6 |};
            {| sdi_byte := 0x00; sii_byte := 0x7E; sdo_byte := r7 |};
            {| sdi_byte := 0x04; sii_byte := 0x4C; sdo_byte := r10 |};
            {| sdi_byte := 0x00; sii_byte := 0x6A; sdo_byte := r11 |};
            {| sdi_byte := 0x00; sii_byte := 0x6E; sdo_byte := r12 |} ])
    end.
    { repeat first [ apply carries_cons; [assumption|]
                   | apply carries_quiet; [reflexivity|] ].
      apply carries_nil. }
    rewrite (carries_commands _ _ Call), (carries_responses _ _ Call).
    split; [reflexivity|]. exists r2, r7, r12.
    repeat split.
    rewrite !hex_values_app.
    repeat match goal with
           | H : forallb wire ?e = true |- _ =>
               rewrite (hex_values_wire e H); clear H
           end.
    reflexivity.
Qed.

Lemma readFuses_report_witness :
  exists evs w',
    readFuses (target [0; 0; 0x62; 0; 0; 0xDF; 0; 0; 0xFF]) 200 (power_on [])
    = Some (tt, evs, w') /\
    hex_values evs = [0x62; 0xDF; 0xFF].
Proof.
  destruct (readFuses_report (target [0; 0; 0x62; 0; 0; 0xDF; 0; 0; 0xFF])
              200 (power_on [])) as [Hret Hrun].
  destruct (Hret 109%nat) as (evs & w' & E); [apply settles_target|lia|].
  exists evs, w'. split; [exact E|].
  vm_compute in E. injection E as <- <-. reflexivity.
Defined.

(** X9. The number [readLockBits] prints after "Lock: " is the byte
    answered to its third transaction, and it prints no other number. *)
Theorem readLockBits_prints_lock_byte hw fuel w u evs w' :
  readLockBits hw fuel w = Some (u, evs, w') ->
  exists tValue,
    nth_error (responses evs) 2 = Some tValue /\
    hex_values evs = [tValue].
Proof.
  intros H. unfold readLockBits in H. run_inv H.
  emitted R. emitted R3. emitted R4. emitted H.
  pose proof (waitSDO_polls _ _ _ _ _ _ R7) as (Hp & _).
  shifted R0. shifted R1. shifted R2.
  match type of R5 with
  | _ = Some (_, ?e, _) => assert (E5 : exists s, e = [SerialPrintln s])
  end.
  { destruct (negb (Z.land r2 1 =? 0)); apply emit_inv in R5;
      destruct R5 as (-> & _); eauto. }
  match type of R6 with
  | _ = Some (_, ?e, _) => assert (E6 : exists s, e = [SerialPrintln s])
  end.
  { destruct (negb (Z.land r2 2 =? 0)); apply emit_inv in R6;
      destruct R6 as (-> & _); eauto. }
  destruct E5 as (s5 & ->). destruct E6 as (s6 & ->).
  match goal with
  | |- exists _, nth_error (responses ?l) _ = _ /\ _ =>
      assert (Call : carries l
        [ {| sdi_byte := 0x04; sii_byte := 0x4C; sdo_byte := r0 |};
          {| sdi_byte := 0x00; sii_byte := 0x78; sdo_byte := r1 |};
          {| sdi_byte := 0x00; sii_byte := 0x7C; sdo_byte := r2 |} ])
  end.
  { repeat first [ apply carries_cons; [assumption|]
                 | apply carries_quiet; [reflexivity|] ].
    apply carries_quiet; [apply poll_silent, Hp|].
    apply carries_silent. reflexivity. }
  exists r2. rewrite (carries_responses _ _ Call). split; [reflexivity|].
  rewrite !hex_values_app.
  rewrite (hex_values_wire _ W), (hex_values_wire _ W0), (hex_values_wire _ W1),
    (hex_values_wire _ (poll_wire _ Hp)).
  reflexivity.
Qed.

Lemma readLockBits_prints_lock_byte_witness :
  exists evs w',
    readLockBits (target [0; 0; 0x02]) 40 (power_on []) = Some (tt, evs, w') /\
    hex_values evs = [0x02].
Proof.
  destruct (readLockBits (target [0; 0; 0x02]) 40 (power_on []))
    as [[[[] evs] w']|] eqn:E; [|vm_compute in E; discriminate].
  destruct (readLockBits_prints_lock_byte _ _ _ _ _ _ E) as (v & Hn & Hh).
  exists evs, w'. split; [reflexivity|].
  rewrite Hh. f_equal.
  vm_compute in E. injection E as <- <-. vm_compute in Hn. congruence.
Defined.

(** ** Passes of loop() *)

Lemma signature_of_background evs :
  forallb background evs = true -> signature_of evs = None.
Proof.
  induction evs as [|e evs IH]; [reflexivity|]. simpl. intros H.
  apply andb_prop in H. destruct H as [He H].
  destruct e; try discriminate; auto.
Qed.

Lemma settles_pressed_board answers n :
  settles (pressed_board answers n) (S (List.length (flat_map answer answers))).
Proof.
  intros i j. set (l := flat_map answer answers).
  destruct (Nat.le_gt_cases (List.length l) i) as [Hi|Hi].
  - exists 0%nat. split; [lia|]. left. simpl. fold l.
    rewrite Nat.add_0_r. apply nth_overflow. exact Hi.
  - exists (List.length l - i)%nat. split; [lia|]. left. simpl. fold l.
    apply nth_overflow. lia.
Qed.

Lemma released_pressed_board answers n m :
  (n < m)%nat -> released (pressed_board answers n) m.
Proof.
  intros Hm i. exists n. split; [exact Hm|]. simpl.
  apply Nat.leb_le. lia.
Qed.

(** X10. When the character received is [r] or [R], a pass of [loop]
    returns on any board that settles, and then it has only read: the
    signature, the fuses and the lock bits, once each; nothing is
    erased, written or read again, and the target is switched off. *)
Theorem read_only_session hw fuel w :
  requested_mode (received w) = read_only ->
  (forall n, settles hw n -> released hw n -> (n <= fuel)%nat ->
     exists evs w', loop hw fuel w = Some (tt, evs, w')) /\
  (forall u evs w',
     loop hw fuel w = Some (u, evs, w') ->
     commands evs =
       signature_commands ++ fuse_read_commands ++ lock_read_commands /\
     exists body, evs = body ++ power_down_events).
Proof.
  intros Hmode.
  assert (Hrx : serial_in w <> []).
  { intros E. rewrite (received_empty w E) in Hmode. discriminate. }
  split.
  - intros n Hs Hr Hn. apply (loop_returns hw n fuel Hs Hr Hn). left. exact Hrx.
  - intros u evs w' H. apply loop_pass in H.
    destruct H as [(_ & E)|(sig & body & b1 & b2 & _ & Hb & Hc & _)];
      [contradiction|].
    rewrite Hmode in Hc. rewrite Hc. split; [|exists body; exact Hb].
    simpl. reflexivity.
Qed.

Lemma read_only_session_witness :
  exists evs w',
    loop (target [0; 0; 0; 0x93; 0; 0; 0; 0x0B]) 100 (power_on [114; 13; 10])
    = Some (tt, evs, w') /\
    List.length (commands evs) = 20%nat.
Proof.
  destruct (read_only_session (target [0; 0; 0; 0x93; 0; 0; 0; 0x0B]) 100
              (power_on [114; 13; 10]) eq_refl) as [Hret Hrun].
  destruct (Hret 97%nat) as (evs & w' & E);
    [apply settles_target|apply released_target; lia|lia|].
  exists evs, w'. split; [exact E|].
  rewrite (proj1 (Hrun _ _ _ E)). reflexivity.
Defined.

(** X12. The commands of a session are decided by the mode and the
    signature alone: two passes, on any boards, that ran a session in
    the same mode and printed the same signature issued the same
    commands, whatever fuse and lock bytes they read. *)
Theorem commands_follow_mode_and_signature
    hw1 hw2 fuel1 fuel2 w1 w2 u1 u2 evs1 evs2 w1' w2' tSignature :
  loop hw1 fuel1 w1 = Some (u1, evs1, w1') ->
  loop hw2 fuel2 w2 = Some (u2, evs2, w2') ->
  requested_mode (received w1) = requested_mode (received w2) ->
  signature_of evs1 = Some tSignature ->
  signature_of evs2 = Some tSignature ->
  commands evs1 = commands evs2.
Proof.
  intros H1 H2 Hm S1 S2. apply loop_pass in H1. apply loop_pass in H2.
  destruct H1 as [(B1 & _)|(sig1 & body1 & _ & _ & T1 & _ & C1 & _)].
  { rewrite (signature_of_background _ B1) in S1. discriminate. }
  destruct H2 as [(B2 & _)|(sig2 & body2 & _ & _ & T2 & _ & C2 & _)].
  { rewrite (signature_of_background _ B2) in S2. discriminate. }
  assert (sig1 = tSignature) by congruence.
  assert (sig2 = tSignature) by congruence. subst sig1 sig2.
  rewrite C1, C2, Hm. reflexivity.
Qed.

Lemma commands_follow_mode_and_signature_witness :
  exists evs1 evs2 w1 w2,
    loop (target [0; 0; 0; 0x93; 0; 0; 0; 0x0B; 0; 0; 0x62]) 200 (power_on [119])
    = Some (tt, evs1, w1) /\
    loop (pressed_board [0; 0; 0; 0x93; 0; 0; 0; 0x0B; 0; 0; 0xE2] 2) 200
      (power_on [])
    = Some (tt, evs2, w2) /\
    commands evs1 = commands evs2.
Proof.
  destruct (loop (target [0; 0; 0; 0x93; 0; 0; 0; 0x0B; 0; 0; 0x62]) 200
              (power_on [119])) as [[[[] evs1] w1]|] eqn:E1;
    [|vm_compute in E1; discriminate].
  destruct (loop (pressed_board [0; 0; 0; 0x93; 0; 0; 0; 0x0B; 0; 0; 0xE2] 2)
              200 (power_on [])) as [[[[] evs2] w2]|] eqn:E2;
    [|vm_compute in E2; discriminate].
  exists evs1, evs2, w1, w2. split; [reflexivity|]. split; [reflexivity|].
  apply (commands_follow_mode_and_signature _ _ _ _ _ _ _ _ _ _ _ _ 0x930B E1 E2).
  - reflexivity.
  - vm_compute in E1. injection E1 as <- <-. reflexivity.
  - vm_compute in E2. injection E2 as <- <-. reflexivity.
Defined.

(** *** The serial buffer *)

Lemma keeps_ret {A} (a : A) : keeps_serial (ret a).
Proof. intros w a' evs w' H. inversion H. reflexivity. Qed.

Lemma keeps_emit e : keeps_serial (emit e).
Proof. intros w a evs w' H. inversion H. reflexivity. Qed.

Lemma keeps_bind {A B} (m : M A) (k : A -> M B) :
  keeps_serial m -> (forall a, keeps_serial (k a)) -> keeps_serial (bind m k).
Proof.
  intros Hm Hk w b evs w' H.
  apply bind_Some in H. destruct H as (a & e1 & w1 & e2 & H1 & H2 & _).
  rewrite (Hk _ _ _ _ _ H2). exact (Hm _ _ _ _ H1).
Qed.

Lemma keeps_if {A} (c : bool) (m1 m2 : M A) :
  keeps_serial m1 -> keeps_serial m2 -> keeps_serial (if c then m1 else m2).
Proof. destruct c; auto. Qed.

Lemma keeps_digitalRead hw p : keeps_serial (digitalRead hw p).
Proof. intros w a evs w' H. destruct p; inversion H; reflexivity. Qed.

Lemma keeps_waitSDO hw fuel : keeps_serial (waitSDO hw fuel).
Proof. intros w a evs w' H. apply waitSDO_polls in H. tauto. Qed.

Lemma keeps_shiftBits hw n : forall tSDIOut tSIIOut tInBits,
  keeps_serial (shiftBits hw n tSDIOut tSIIOut tInBits).
Proof.
  induction n as [|n IH]; intros sdi sii acc; cbn [shiftBits].
  - apply keeps_ret.
  - repeat (apply keeps_bind; [first [apply keeps_emit|apply keeps_digitalRead]|intros]).
    apply IH.
Qed.

Lemma keeps_shiftOut hw fuel aValue aAddress :
  keeps_serial (shiftOut hw fuel aValue aAddress).
Proof.
  unfold shiftOut. apply keeps_bind; [apply keeps_waitSDO|]. intros _.
  apply keeps_bind; [apply keeps_shiftBits|]. intros. apply keeps_ret.
Qed.

Lemma keeps_waitRelease hw fuel : keeps_serial (waitRelease hw fuel).
Proof.
  induction fuel as [|fuel IH]; [intros w a evs w' H; discriminate|].
  cbn [waitRelease]. apply keeps_bind; [apply keeps_digitalRead|].
  intros v. apply keeps_if; [apply keeps_ret|exact IH].
Qed.

Ltac keeps_one :=
  lazymatch goal with
  | |- keeps_serial (ret _) => apply keeps_ret
  | |- keeps_serial (waitSDO _ _) => apply keeps_waitSDO
  | |- keeps_serial (shiftOut _ _ _ _) => apply keeps_shiftOut
  | |- keeps_serial (waitRelease _ _) => apply keeps_waitRelease
  | |- keeps_serial (if _ then _ else _) => apply keeps_if; keeps_one
  | |- keeps_serial (bind _ _) =>
      apply keeps_bind; [keeps_one | intros; keeps_one]
  | |- keeps_serial _ => apply keeps_emit
  end.

Lemma keeps_readFuses hw fuel : keeps_serial (readFuses hw fuel).
Proof. unfold readFuses. keeps_one. Qed.

Lemma keeps_readLockBits hw fuel : keeps_serial (readLockBits hw fuel).
Proof. unfold readLockBits. keeps_one. Qed.

Lemma keeps_eraseFlashAndLockBits hw fuel :
  keeps_serial (eraseFlashAndLockBits hw fuel).
Proof. unfold eraseFlashAndLockBits. keeps_one. Qed.

Lemma keeps_writeFuse hw fuel aFuseAddress aFuseValue :
  keeps_serial (writeFuse hw fuel aFuseAddress aFuseValue).
Proof. unfold writeFuse. keeps_one. Qed.

Lemma keeps_readSignature hw fuel : keeps_serial (readSignature hw fuel).
Proof. rewrite readSignature_unfold. keeps_one. Qed.

Ltac keeps_one ::=
  lazymatch goal with
  | |- keeps_serial (ret _) => apply keeps_ret
  | |- keeps_serial (waitSDO _ _) => apply keeps_waitSDO
  | |- keeps_serial (shiftOut _ _ _ _) => apply keeps_shiftOut
  | |- keeps_serial (waitRelease _ _) => apply keeps_waitRelease
  | |- keeps_serial (readFuses _ _) => apply keeps_readFuses
  | |- keeps_serial (readLockBits _ _) => apply keeps_readLockBits
  | |- keeps_serial (eraseFlashAndLockBits _ _) =>
      apply keeps_eraseFlashAndLockBits
  | |- keeps_serial (writeFuse _ _ _ _) => apply keeps_writeFuse
  | |- keeps_serial (readSignature _ _) => apply keeps_readSignature
  | |- keeps_serial (if _ then _ else _) => apply keeps_if; keeps_one
  | |- keeps_serial (bind _ _) =>
      apply keeps_bind; [keeps_one | intros; keeps_one]
  | |- keeps_serial _ => apply keeps_emit
  end.

Lemma keeps_restoreFuses hw fuel tReceivedChar tSignature :
  keeps_serial (restoreFuses hw fuel tReceivedChar tSignature).
Proof. unfold restoreFuses. keeps_one. Qed.

Ltac keeps_one ::=
  lazymatch goal with
  | |- keeps_serial (ret _) => apply keeps_ret
  | |- keeps_serial (waitSDO _ _) => apply keeps_waitSDO
  | |- keeps_serial (shiftOut _ _ _ _) => apply keeps_shiftOut
  | |- keeps_serial (waitRelease _ _) => apply keeps_waitRelease
  | |- keeps_serial (readFuses _ _) => apply keeps_readFuses
  | |- keeps_serial (readLockBits _ _) => apply keeps_readLockBits
  | |- keeps_serial (eraseFlashAndLockBits _ _) =>
      apply keeps_eraseFlashAndLockBits
  | |- keeps_serial (writeFuse _ _ _ _) => apply keeps_writeFuse
  | |- keeps_serial (readSignature _ _) => apply keeps_readSignature
  | |- keeps_serial (restoreFuses _ _ _ _) => apply keeps_restoreFuses
  | |- keeps_serial (if _ then _ else _) => apply keeps_if; keeps_one
  | |- keeps_serial (bind _ _) =>
      apply keeps_bind; [keeps_one | intros; keeps_one]
  | |- keeps_serial _ => apply keeps_emit
  end.

Lemma drainLoop_empties n : forall w u evs w',
  n = List.length (serial_in w) ->
  drainLoop n w = Some (u, evs, w') -> serial_in w' = [].
Proof.
  induction n as [|n IH]; intros w u evs w' Hn H.
  - inversion H; subst. destruct (serial_in w'); [reflexivity|discriminate].
  - cbn [drainLoop] in H.
    apply bind_Some in H. destruct H as (a & e1 & w1 & e2 & H1 & H2 & _).
    inversion H1; subst; clear H1.
    destruct (serial_in w1) as [|c rest] eqn:Es; [discriminate|].
    cbn [List.length] in H2.
    replace (0 <? Z.of_nat (S (List.length rest))) with true in H2
      by (symmetry; apply Z.ltb_lt; lia).
    apply bind_Some in H2. destruct H2 as (c' & e3 & w3 & e4 & H1 & H2 & _).
    unfold Serial_read in H1. rewrite Es in H1. inversion H1; subst; clear H1.
    apply IH in H2; [exact H2|]. simpl. simpl in Hn. lia.
Qed.

Lemma found_later (x l : list event) a b :
  forallb unlabelled x = true ->
  (exists pre post, l = pre ++ a :: b :: post /\ forallb unlabelled pre = true) ->
  exists pre post, x ++ l = pre ++ a :: b :: post /\ forallb unlabelled pre = true.
Proof.
  intros Hx (pre & post & -> & Hp). exists (x ++ pre), post.
  rewrite forallb_app, Hx, Hp, app_assoc. auto.
Qed.

(** What a session that returns went through: it printed the signature
    it read, the branch on that signature returned, and the serial
    buffer is empty at the end. *)
Lemma session_steps hw fuel w u evs w' :
  session hw fuel w = Some (u, evs, w') ->
  serial_in w' = [] /\
  exists tSignature pre post wa ea wb,
    evs = pre ++ SerialPrint (TAB ++ "Signature is: ")
              :: SerialPrintlnHex tSignature :: post /\
    forallb unlabelled pre = true /\
    restoreFuses hw fuel (received w) tSignature wa = Some (tt, ea, wb).
Proof.
  intros H. split.
  - unfold session in H.
    apply bind_Some in H. destruct H as (c & e1 & w1 & e2 & _ & H & _).
    apply bind_Some in H. destruct H as (a2 & e3 & w3 & e4 & H3 & H & _).
    apply emit_inv in H3. destruct H3 as (_ & ->).
    apply bind_Some in H. destruct H as (a5 & e5 & w5 & e6 & H5 & H & _).
    apply (drainLoop_empties _ _ _ _ _ eq_refl) in H5.
    rewrite <- H5. revert H.
    match goal with
    | |- ?m w5 = _ -> _ => assert (K : keeps_serial m)
    end.
    { unfold powerUp, powerDown. keeps_one. }
    intros H. exact (K _ _ _ _ H).
  - unfold session in H. run_inv H.
    apply Serial_read_received in R. destruct R as (Hc & ->). rewrite Hc in *.
    emitted R0. apply drainSerial_background in R1.
    inversion R2; subst; clear R2. emitted R3.
    pose proof (readSignature_carries _ _ _ _ _ _ R4)
      as (q1 & q2 & q3 & b1 & q5 & q6 & q7 & b2 & _ & _ & _ & _ & Ws).
    emitted R5. emitted R6. emitted R7.
    destruct r11.
    match goal with
    | |- exists _ _ _ _ _ _, ?l = _ /\ _ =>
        assert (F : exists pre post,
                  l = pre ++ SerialPrint (TAB ++ "Signature is: ")
                          :: SerialPrintlnHex r4 :: post /\
                  forallb unlabelled pre = true)
    end.
    { apply found_later; [reflexivity|]. apply found_later; [reflexivity|].
      apply found_later; [apply background_unlabelled, R1|].
      apply found_later; [reflexivity|]. apply found_later; [reflexivity|].
      apply found_later; [apply wire_unlabelled, Ws|].
      apply found_later; [reflexivity|].
      exists [], (e8 ++ e9 ++ e10 ++ e11 ++ e12 ++ e13 ++ e14 ++ e15 ++ e16
                  ++ e17 ++ e18 ++ e20). split; reflexivity. }
    destruct F as (pre & post & Hl & Hp).
    exists r4, pre, post, w11, e11, w12. auto.
Qed.

(** *** The trigger *)

(** A pass of [loop] that returns left its first wait, and then either
    found the button released and nothing on the serial line, and did
    nothing more, or ran a session. *)
Lemma loop_steps hw fuel w u evs w' :
  loop hw fuel w = Some (u, evs, w') ->
  exists e1 w1,
    waitStart hw fuel w = Some (tt, e1, w1) /\
    (btn_line hw (btn_reads w1) = true /\ serial_in w = [] /\
     forallb background evs = true /\
     serial_in w' = [] /\ btn_reads w' = S (btn_reads w1) /\
     sdo_reads w' = sdo_reads w1
     \/
     (btn_line hw (btn_reads w1) = false \/ serial_in w <> []) /\
     exists menu w2 sevs,
       forallb background menu = true /\
       received w2 = received w /\
       session hw fuel w2 = Some (u, sevs, w') /\
       evs = menu ++ sevs).
Proof.
  intros H. unfold loop in H. run_inv H.
  emitted R. emitted R0. emitted R1. emitted R2. emitted R3.
  destruct r4. exists e4, w5. split; [exact R4|].
  apply waitStart_background in R4. destruct R4 as (B4 & S4).
  inversion R5; subst; clear R5.
  destruct (btn_line hw (btn_reads w5)) eqn:Hbtn; cbn [negb] in R6.
  - apply bind_Some in R6. destruct R6 as (a & e1 & w1 & e2 & H1 & H2 & ->).
    inversion H1; subst; clear H1. inversion H2; subst; clear H2.
    cbn [serial_in] in H. rewrite S4 in *.
    destruct (serial_in w) as [|c rest] eqn:Es.
    + left. cbn [List.length Z.of_nat Z.ltb Z.compare] in H.
      inversion H; subst; clear H.
      repeat split; try reflexivity; try assumption.
      rewrite !forallb_app, B4. reflexivity.
    + right. split; [right; discriminate|].
      replace (0 <? Z.of_nat (List.length (c :: rest))) with true in H
        by (symmetry; apply Z.ltb_lt; simpl; lia).
      eexists _, _, e8. split; [|split; [|split; [exact H|]]].
      3: (rewrite !app_assoc; reflexivity).
      * rewrite !forallb_app, B4. reflexivity.
      * unfold received. cbn [serial_in]. rewrite Es. reflexivity.
  - inversion R6; subst; clear R6. right. split; [left; reflexivity|].
    eexists _, _, e8. split; [|split; [|split; [exact H|]]].
    3: (rewrite !app_assoc; reflexivity).
    + rewrite !forallb_app, B4. reflexivity.
    + unfold received. cbn [serial_in]. rewrite S4. reflexivity.
Qed.

Lemma waitStart_exit hw k : forall fuel w,
  (k < fuel)%nat -> serial_in w = [] ->
  (forall i, (i < k)%nat -> btn_line hw (btn_reads w + i) = true) ->
  btn_line hw (btn_reads w + k) = false ->
  exists evs,
    waitStart hw fuel w =
    Some (tt, evs,
          {| sdo_reads := sdo_reads w; btn_reads := btn_reads w + S k;
             clock_reads := clock_reads w; serial_in := [] |}).
Proof.
  induction k as [|k IH]; intros fuel w Hk Hrx Hhigh Hlow;
    (destruct fuel as [|fuel]; [lia|]); cbn [waitStart];
    rewrite (bind_run _ _ _ _ _ _ (eq_refl : Serial_available w = Some _));
    rewrite Hrx; cbn [List.length Z.of_nat Z.eqb];
    rewrite (bind_run _ _ _ _ _ _
               (eq_refl : digitalRead hw START_BUTTON_PIN w = Some _)).
  - rewrite Nat.add_0_r in Hlow. rewrite Hlow.
    eexists. unfold ret. rewrite Hrx, Nat.add_1_r. reflexivity.
  - pose proof (Hhigh 0%nat ltac:(lia)) as H0. rewrite Nat.add_0_r in H0.
    rewrite H0.
    match goal with
    | |- context [waitStart hw fuel ?w1] =>
        destruct (IH fuel w1) as (e & E)
    end.
    + lia.
    + exact Hrx.
    + intros i Hi. cbn [btn_reads].
      replace (S (btn_reads w) + i)%nat with (btn_reads w + S i)%nat by lia.
      apply Hhigh. lia.
    + cbn [btn_reads].
      replace (S (btn_reads w) + k)%nat with (btn_reads w + S k)%nat by lia.
      exact Hlow.
    + rewrite E. cbn [sdo_reads btn_reads clock_reads].
      replace (S (btn_reads w) + S k)%nat with (btn_reads w + S (S k))%nat by lia.
      eexists. reflexivity.
Qed.

(** X13. A button that reads pressed once and released at the next
    sample starts nothing: with an empty serial buffer, the pass leaves
    its wait at the pressed sample, finds the button released at line
    100 and returns without setting any pin or talking to the target. *)
Theorem button_bounce_no_session hw fuel w k :
  serial_in w = [] ->
  (forall i, (i < k)%nat -> btn_line hw (btn_reads w + i) = true) ->
  btn_line hw (btn_reads w + k) = false ->
  btn_line hw (btn_reads w + S k) = true ->
  (k < fuel)%nat ->
  exists evs w',
    loop hw fuel w = Some (tt, evs, w') /\
    forallb background evs = true /\
    commands evs = [] /\
    btn_reads w' = (btn_reads w + k + 2)%nat /\
    sdo_reads w' = sdo_reads w.
Proof.
  intros Hrx Hhigh Hlow Hnext Hk.
  destruct (waitStart_exit hw k fuel w Hk Hrx Hhigh Hlow) as (e1 & Hw).
  assert (E : exists evs w', loop hw fuel w = Some (tt, evs, w')).
  { unfold loop, Serial_println. rewrite !emit_bind.
    rewrite (bind_run _ _ _ _ _ _ Hw).
    match goal with
    | |- context [bind (digitalRead hw START_BUTTON_PIN) ?f ?w1] =>
        rewrite (bind_run _ f w1 _ _ _
                   (eq_refl : digitalRead hw START_BUTTON_PIN w1 = Some _))
    end.
    cbn [btn_reads]. rewrite Hnext. cbn [negb].
    eexists _, _. reflexivity. }
  destruct E as (evs & w' & E). exists evs, w'. split; [exact E|].
  apply loop_steps in E. destruct E as (e1' & w1 & Hw' & Hcase).
  rewrite Hw in Hw'. injection Hw' as <- <-.
  cbn [btn_reads sdo_reads] in Hcase.
  destruct Hcase as [(_ & _ & Hb & _ & Hbtn & Hsdo)|([F|F] & _)].
  - split; [exact Hb|].
    split; [exact (carries_commands _ _ (background_carries _ Hb))|].
    split; [rewrite Hbtn; lia|exact Hsdo].
  - rewrite Hnext in F. discriminate.
  - contradiction.
Qed.

Lemma button_bounce_no_session_witness :
  exists evs w',
    loop (pressed_board [] 1) 5 (power_on []) = Some (tt, evs, w') /\
    forallb background evs = true /\ btn_reads w' = 2%nat.
Proof.
  destruct (button_bounce_no_session (pressed_board [] 1) 5 (power_on []) 0)
    as (evs & w' & E & Hb & _ & Hn & _);
    [reflexivity|intros i Hi; lia|reflexivity|reflexivity|lia|].
  exists evs, w'. auto.
Defined.

Lemma tSignature_eqb_false tSignature :
  fuse_defaults tSignature = None ->
  (tSignature =? ATTINY13) = false /\
  (tSignature =? ATTINY24) || (tSignature =? ATTINY44)
  || (tSignature =? ATTINY84) || (tSignature =? ATTINY25)
  || (tSignature =? ATTINY45) || (tSignature =? ATTINY85) = false.
Proof.
  intros H.
  assert (K : forall s, In s [ATTINY13; ATTINY24; ATTINY44; ATTINY84;
                              ATTINY25; ATTINY45; ATTINY85] ->
                        (tSignature =? s) = false).
  { intros s Hin. destruct (Z.eqb_spec tSignature s) as [->|]; [|reflexivity].
    exfalso. simpl in Hin.
    repeat (destruct Hin as [<-|Hin]; [discriminate H|]). exact Hin. }
  rewrite !K by (simpl; tauto). auto.
Qed.

Lemma waitRelease_stuck hw :
  (forall n, btn_line hw n = false) ->
  forall fuel w, waitRelease hw fuel w = None.
Proof.
  intros Hlow. induction fuel as [|fuel IH]; intros w; [reflexivity|].
  cbn [waitRelease].
  rewrite (bind_run _ _ _ _ _ _
             (eq_refl : digitalRead hw START_BUTTON_PIN w = Some _)).
  rewrite Hlow, IH. reflexivity.
Qed.

(** X14. With the start button held down for good, a pass of [loop]
    returns only for a device it knows: for a signature that is in no
    profile, the sketch stays in the loop of line 173, before the
    power-down, for as long as the button is held. *)
Theorem held_button_needs_known_device hw fuel w u evs w' :
  (forall n, btn_line hw n = false) ->
  loop hw fuel w = Some (u, evs, w') ->
  exists tSignature,
    signature_of evs = Some tSignature /\ fuse_defaults tSignature <> None.
Proof.
  intros Hheld H. apply loop_steps in H.
  destruct H as (e1 & w1 & _ & [(Hb & _)|(_ & menu & w2 & sevs & Hm & _ & Hs & ->)]).
  { rewrite Hheld in Hb. discriminate. }
  apply session_steps in Hs.
  destruct Hs as (_ & sig & pre & post & wa & ea & wb & -> & Hpre & Hr).
  exists sig. split.
  - rewrite app_assoc. apply signature_of_found.
    rewrite forallb_app, (background_unlabelled _ Hm), Hpre. reflexivity.
  - intros Hnone. unfold restoreFuses in Hr.
    destruct (tSignature_eqb_false sig Hnone) as (E13 & F).
    rewrite E13, F in Hr.
    apply bind_Some in Hr. destruct Hr as (a & e & w3 & e' & Hw & _).
    rewrite (waitRelease_stuck hw Hheld) in Hw. discriminate.
Qed.

Lemma held_button_needs_known_device_witness :
  exists evs w',
    loop (held_button_board [0; 0; 0; 0x93; 0; 0; 0; 0x0B]) 400 (power_on [])
    = Some (tt, evs, w') /\
    exists tSignature,
      signature_of evs = Some tSignature /\ fuse_defaults tSignature <> None.
Proof.
  eexists _, _. split; [vm_compute; reflexivity|].
  eapply (held_button_needs_known_device
            (held_button_board [0; 0; 0; 0x93; 0; 0; 0; 0x0B]) 400 (power_on [])).
  - intros n. reflexivity.
  - vm_compute. reflexivity.
Defined.

(** X17. The value [writeFuse] announces on the console is the value it
    sends: for an 8-bit value, the one number it prints is the data
    byte of its second transaction, the one with instruction [0x2C]. *)
Theorem writeFuse_announces_value hw fuel aFuseAddress aFuseValue w u evs w' :
  0 <= aFuseValue < 256 ->
  writeFuse hw fuel aFuseAddress aFuseValue w = Some (u, evs, w') ->
  hex_values evs = [aFuseValue] /\
  nth_error (commands evs) 1 = Some (aFuseValue, 0x2C).
Proof.
  intros Hv H. unfold writeFuse in H. run_inv H.
  emitted R. emitted R0. emitted R1. emitted H.
  assert (Hhi : 0 <= uint8 (Z.shiftr aFuseAddress 8) < 256)
    by (apply Z.mod_pos_bound; lia).
  assert (Hlo : 0 <= uint8 aFuseAddress < 256)
    by (apply Z.mod_pos_bound; lia).
  shifted R2. shifted R3. shifted R4. shifted R5.
  split.
  - cbn [app hex_values]. rewrite !hex_values_app.
    rewrite (hex_values_wire _ W), (hex_values_wire _ W0),
      (hex_values_wire _ W1), (hex_values_wire _ W2).
    reflexivity.
  - match goal with
    | |- nth_error (commands ?l) _ = _ =>
        assert (Call : carries l
          [ {| sdi_byte := 0x40; sii_byte := 0x4C; sdo_byte := r2 |};
            {| sdi_byte := aFuseValue; sii_byte := 0x2C; sdo_byte := r3 |};
            {| sdi_byte := 0x00; sii_byte := uint8 (Z.shiftr aFuseAddress 8);
               sdo_byte := r4 |};
            {| sdi_byte := 0x00; sii_byte := uint8 aFuseAddress;
               sdo_byte := r5 |} ])
    end.
    { repeat first [ apply carries_cons; [assumption|]
                   | apply carries_quiet; [reflexivity|] ].
      apply carries_silent. reflexivity. }
    rewrite (carries_commands _ _ Call). reflexivity.
Qed.

Lemma writeFuse_announces_value_witness :
  exists evs w',
    writeFuse (target []) 5 0x646C 0x62 (power_on []) = Some (tt, evs, w') /\
    hex_values evs = [0x62].
Proof.
  eexists _, _. split; [vm_compute; reflexivity|].
  eapply (writeFuse_announces_value (target []) 5 0x646C 0x62 (power_on [])).
  - lia.
  - vm_compute. reflexivity.
Defined.

(** *** A pass of loop(), step by step *)

(** [loop] leaves its wait, samples the button once more, and runs the
    session when the button reads pressed or a byte is waiting. *)
Lemma loop_unfold hw fuel w :
  loop hw fuel w =
  match waitStart hw fuel w with
  | None => None
  | Some (_, e1, w1) =>
      let v := btn_line hw (btn_reads w1) in
      let n := Z.of_nat (List.length (serial_in w1)) in
      let menu :=
        menu_events ++ e1 ++ DigitalRead START_BUTTON_PIN v
        :: (if v then [SerialAvailable n] else []) in
      if negb v || (0 <? n) then
        match session hw fuel (button_sampled w1) with
        | None => None
        | Some (u, sevs, w') => Some (u, menu ++ sevs, w')
        end
      else Some (tt, menu, button_sampled w1)
  end.
Proof.
  unfold loop, Serial_println. rewrite !emit_bind.
  unfold bind at 1.
  destruct (waitStart hw fuel w) as [[[[] e1] w1]|]; [|reflexivity].
  rewrite (bind_run _ _ _ _ _ _
             (eq_refl : digitalRead hw START_BUTTON_PIN w1 = Some _)).
  fold (button_sampled w1).
  destruct (btn_line hw (btn_reads w1)); cbn [negb orb].
  - rewrite (bind_run _ _ _ _ _ _
               (eq_refl : bind Serial_available
                            (fun n => ret (0 <? n)) (button_sampled w1) = Some _)).
    cbn [serial_in button_sampled].
    destruct (0 <? Z.of_nat (List.length (serial_in w1))).
    + destruct (session hw fuel (button_sampled w1)) as [[[u sevs] w']|];
        [|reflexivity].
      cbn [menu_events app]. rewrite <- app_assoc. reflexivity.
    + cbn [ret menu_events app]. rewrite ?app_nil_r. reflexivity.
  - rewrite (bind_run _ _ _ _ _ _ (eq_refl : ret true (button_sampled w1) = Some _)).
    destruct (session hw fuel (button_sampled w1)) as [[[u sevs] w']|];
      [|reflexivity].
    cbn [menu_events app]. rewrite <- app_assoc. reflexivity.
Qed.

Lemma waitStart_cursors hw fuel : forall w u evs w',
  waitStart hw fuel w = Some (u, evs, w') ->
  command_read evs = None /\
  sdo_reads w' = sdo_reads w /\ clock_reads w' = clock_reads w /\
  serial_in w' = serial_in w.
Proof.
  induction fuel as [|fuel IH]; intros w u evs w' H; [discriminate|].
  cbn [waitStart] in H.
  rewrite (bind_run _ _ _ _ _ _ (eq_refl : Serial_available w = Some _)) in H.
  destruct (Z.of_nat (List.length (serial_in w)) =? 0).
  - rewrite (bind_run _ _ _ _ _ _
               (eq_refl : digitalRead hw START_BUTTON_PIN w = Some _)) in H.
    destruct (btn_line hw (btn_reads w)).
    + match type of H with
      | context [waitStart hw fuel ?w1] =>
          destruct (waitStart hw fuel w1) as [[[u1 e1] w1']|] eqn:E;
            [|discriminate]
      end.
      apply IH in E. destruct E as (Hc & H1 & H2 & H3).
      inversion H; subst. cbn [app command_read]. auto.
    + inversion H; subst. auto.
  - inversion H; subst. auto.
Qed.

Lemma waitStart_typed hw fuel w :
  serial_in w <> [] ->
  waitStart hw (S fuel) w =
  Some (tt, [SerialAvailable (Z.of_nat (List.length (serial_in w)))], w).
Proof.
  intros Hrx. cbn [waitStart].
  rewrite (bind_run _ _ _ _ _ _ (eq_refl : Serial_available w = Some _)).
  destruct (serial_in w) as [|c rest]; [congruence|].
  replace (Z.of_nat (List.length (c :: rest)) =? 0) with false
    by (symmetry; apply Z.eqb_neq; cbn [List.length]; lia).
  reflexivity.
Qed.

Lemma drainLoop_run : forall rx w,
  serial_in w = rx ->
  drainLoop (List.length rx) w = Some (tt, drain_events rx, drained w).
Proof.
  induction rx as [|c rest IH]; intros w Hrx.
  - cbn [List.length drainLoop].
    rewrite (bind_run _ _ _ _ _ _ (eq_refl : Serial_available w = Some _)).
    rewrite Hrx. destruct w; cbn in *; subst. reflexivity.
  - cbn [List.length drainLoop].
    rewrite (bind_run _ _ _ _ _ _ (eq_refl : Serial_available w = Some _)).
    rewrite Hrx.
    replace (0 <? Z.of_nat (List.length (c :: rest))) with true
      by (symmetry; apply Z.ltb_lt; cbn [List.length]; lia).
    assert (Hr : Serial_read w =
                 Some (c, [SerialRead c],
                       {| sdo_reads := sdo_reads w; btn_reads := btn_reads w;
                          clock_reads := clock_reads w; serial_in := rest |}))
      by (unfold Serial_read; rewrite Hrx; reflexivity).
    rewrite (bind_run _ _ _ _ _ _ Hr), IH by reflexivity.
    reflexivity.
Qed.

Lemma drainSerial_run w :
  drainSerial w = Some (tt, drain_events (serial_in w), drained w).
Proof. unfold drainSerial. apply drainLoop_run. reflexivity. Qed.

Lemma Serial_read_run w :
  Serial_read w =
  Some (hd (-1) (serial_in w), [SerialRead (hd (-1) (serial_in w))],
        {| sdo_reads := sdo_reads w; btn_reads := btn_reads w;
           clock_reads := clock_reads w; serial_in := tl (serial_in w) |}).
Proof.
  unfold Serial_read. destruct w as [a b c rx]. destruct rx; reflexivity.
Qed.

(** *** What never looks at the serial line *)

Lemma deaf_ret {A} (a : A) : deaf (ret a).
Proof. intros w a' evs w' H. inversion H. reflexivity. Qed.

Lemma deaf_emit e : serial_input e = false -> deaf (emit e).
Proof. intros He w a evs w' H. inversion H. simpl. rewrite He. reflexivity. Qed.

Lemma deaf_bind {A B} (m : M A) (k : A -> M B) :
  deaf m -> (forall a, deaf (k a)) -> deaf (bind m k).
Proof.
  intros Hm Hk w b evs w' H.
  apply bind_Some in H. destruct H as (a & e1 & w1 & e2 & H1 & H2 & ->).
  rewrite forallb_app, (Hm _ _ _ _ H1), (Hk _ _ _ _ _ H2). reflexivity.
Qed.

Lemma deaf_if {A} (c : bool) (m1 m2 : M A) :
  deaf m1 -> deaf m2 -> deaf (if c then m1 else m2).
Proof. destruct c; auto. Qed.

Lemma deaf_wire evs :
  forallb wire evs = true ->
  forallb (fun e => negb (serial_input e)) evs = true.
Proof.
  induction evs as [|e evs IH]; [reflexivity|]. simpl. intros H.
  apply andb_prop in H. destruct H as [He H]. rewrite (IH H).
  destruct e; try discriminate; reflexivity.
Qed.

Lemma deaf_digitalRead hw p : deaf (digitalRead hw p).
Proof. intros w a evs w' H. destruct p; inversion H; reflexivity. Qed.

Lemma deaf_waitSDO hw fuel : deaf (waitSDO hw fuel).
Proof.
  intros w a evs w' H. apply waitSDO_polls in H.
  apply deaf_wire, poll_wire. tauto.
Qed.

Lemma deaf_shiftOut hw fuel aValue aAddress :
  0 <= aValue < 256 -> 0 <= aAddress < 256 ->
  deaf (shiftOut hw fuel aValue aAddress).
Proof.
  intros Hv Ha w a evs w' H. apply shiftOut_carries in H; [|assumption..].
  apply deaf_wire. tauto.
Qed.

Lemma deaf_waitRelease hw fuel : deaf (waitRelease hw fuel).
Proof.
  induction fuel as [|fuel IH]; [intros w a evs w' H; discriminate|].
  cbn [waitRelease]. apply deaf_bind; [apply deaf_digitalRead|].
  intros v. apply deaf_if; [apply deaf_ret|exact IH].
Qed.

Lemma deaf_readSignature hw fuel : deaf (readSignature hw fuel).
Proof.
  intros w a evs w' H. apply readSignature_carries in H.
  destruct H as (r1 & r2 & r3 & b1 & r5 & r6 & r7 & b2 & _ & _ & _ & _ & Hw).
  apply deaf_wire, Hw.
Qed.

Ltac deaf_one :=
  lazymatch goal with
  | |- deaf (ret _) => apply deaf_ret
  | |- deaf (waitSDO _ _) => apply deaf_waitSDO
  | |- deaf (shiftOut _ _ _ _) =>
      apply deaf_shiftOut;
      try (unfold uint8; match goal with
                         | |- 0 <= ?x mod 256 < 256 =>
                             apply Z.mod_pos_bound
                         end); lia
  | |- deaf (waitRelease _ _) => apply deaf_waitRelease
  | |- deaf (readSignature _ _) => apply deaf_readSignature
  | |- deaf (if _ then _ else _) => apply deaf_if; deaf_one
  | |- deaf (bind _ _) => apply deaf_bind; [deaf_one | intros; deaf_one]
  | |- deaf _ => apply deaf_emit; reflexivity
  end.

Lemma deaf_writeFuse hw fuel aFuseAddress aFuseValue :
  0 <= aFuseValue < 256 ->
  deaf (writeFuse hw fuel aFuseAddress aFuseValue).
Proof. intros Hv. unfold writeFuse. deaf_one. Qed.

Lemma deaf_reading hw fuel :
  deaf (readFuses hw fuel) /\ deaf (readLockBits hw fuel) /\
  deaf (eraseFlashAndLockBits hw fuel).
Proof.
  unfold readFuses, readLockBits, eraseFlashAndLockBits.
  repeat split; deaf_one.
Qed.

Lemma deaf_restoreFuses hw fuel tReceivedChar tSignature :
  deaf (restoreFuses hw fuel tReceivedChar tSignature).
Proof.
  unfold restoreFuses.
  repeat first
    [ apply deaf_writeFuse; lia
    | apply deaf_waitRelease
    | apply deaf_ret
    | apply deaf_if
    | apply deaf_bind; [|intros]
    | apply deaf_emit; reflexivity ].
Qed.

(** *** A session, step by step *)

(** A session that returns read the command, waited, emptied the
    buffer and switched the target on; from there on it never looked at
    the serial line again.  It read the signature in the world it found
    after the drain, then the fuses, and went through the branch on the
    signature. *)
Lemma session_trace hw fuel w u evs w' :
  session hw fuel w = Some (u, evs, w') ->
  exists tSignature es ws after,
    readSignature hw fuel (drained w) = Some (tSignature, es, ws) /\
    (exists ef wf, readFuses hw fuel ws = Some (tt, ef, wf)) /\
    (exists wr er wr',
       restoreFuses hw fuel (received w) tSignature wr = Some (tt, er, wr')) /\
    evs = SerialRead (hd (-1) (serial_in w)) :: Delay 100
          :: drain_events (tl (serial_in w))
          ++ DigitalWrite LED_BUILTIN HIGH :: after /\
    forallb (fun e => negb (serial_input e)) after = true.
Proof.
  intros H. unfold session in H.
  rewrite (bind_run _ _ _ _ _ _ (Serial_read_run w)) in H.
  unfold delay in H. rewrite emit_bind in H.
  match type of H with
  | context [bind drainSerial ?k ?w1] =>
      rewrite (bind_run _ k w1 _ _ _ (drainSerial_run w1)) in H;
      change (drained w1) with (drained w) in H
  end.
  cbn [serial_in] in H.
  fold (received w) in H.
  match type of H with
  | context [bind (powerUp) ?K (drained w)] =>
      assert (D : deaf (bind powerUp K));
      [|destruct (bind powerUp K (drained w)) as [[[u0 e0] w0]|] eqn:E;
        [|discriminate H]]
  end.
  { pose proof (deaf_reading hw fuel) as (D1 & D2 & D3).
    unfold powerUp, powerDown.
    repeat first
      [ apply deaf_readSignature
      | exact D1 | exact D2 | exact D3
      | apply deaf_restoreFuses
      | apply deaf_ret
      | apply deaf_if
      | apply deaf_bind; [|intros]
      | apply deaf_emit; reflexivity ]. }
  pose proof (D _ _ _ _ E) as De.
  inversion H; subst; clear H.
  run_inv E.
  inversion R; subst; clear R.
  emitted R0. emitted R2. emitted R3. emitted R4.
  repeat match goal with u : unit |- _ => destruct u end.
  match goal with
  | Rs : readSignature _ _ _ = Some (?s, ?e, ?w1) |- _ =>
      exists s, e, w1; eexists; split; [exact Rs|]
  end.
  split; [eauto|]. split; [eauto|].
  split; [reflexivity|].
  cbn [app forallb] in De. exact De.
Qed.

(** *** The command and the rest of the line

    The receive buffer of a world holds the bytes that have arrived
    when the pass starts; none arrives while the pass runs.  What
    follows is about these bytes and about what the pass reads. *)

Lemma command_read_app a b :
  command_read a = None -> command_read (a ++ b) = command_read b.
Proof.
  induction a as [|e a IH]; [reflexivity|].
  destruct e; cbn [app command_read]; auto. discriminate.
Qed.

Lemma drain_events_background rx :
  forallb background (drain_events rx) = true.
Proof. induction rx as [|c rx IH]; [reflexivity|exact IH]. Qed.

Lemma acts_drain_events rx : acts (drain_events rx) = [].
Proof. induction rx as [|c rx IH]; [reflexivity|exact IH]. Qed.

Lemma acts_app a b : acts (a ++ b) = acts a ++ acts b.
Proof. apply filter_app. Qed.

Lemma acts_cons e evs :
  acts (e :: evs) = if negb (serial_input e) then e :: acts evs else acts evs.
Proof. reflexivity. Qed.

(** A pass of [loop] that returns has either done nothing but show the
    menu and look at the button and the serial line, or it has run a
    session, whose first read of the serial line gave the command. *)
Lemma loop_command hw fuel w u evs w' :
  loop hw fuel w = Some (u, evs, w') ->
  exists e1 w1,
    waitStart hw fuel w = Some (tt, e1, w1) /\
    (negb (btn_line hw (btn_reads w1))
     || (0 <? Z.of_nat (List.length (serial_in w))) = false /\
     command_read evs = None /\ forallb background evs = true
     \/
     negb (btn_line hw (btn_reads w1))
     || (0 <? Z.of_nat (List.length (serial_in w))) = true /\
     command_read evs = Some (hd (-1) (serial_in w)) /\
     exists menu after,
       forallb background menu = true /\
       forallb (fun e => negb (serial_input e)) after = true /\
       evs = menu ++ DigitalWrite LED_BUILTIN HIGH :: after).
Proof.
  intros H. rewrite loop_unfold in H.
  destruct (waitStart hw fuel w) as [[[[] e1] w1]|] eqn:Ew; [|discriminate].
  exists e1, w1. split; [reflexivity|].
  destruct (waitStart_cursors _ _ _ _ _ _ Ew) as (Hc & _ & _ & Hs).
  pose proof (proj1 (waitStart_background _ _ _ _ _ _ Ew)) as Hb.
  cbv zeta in H. rewrite Hs in H.
  set (v := btn_line hw (btn_reads w1)) in *.
  set (n := Z.of_nat (List.length (serial_in w))) in *.
  assert (Hmenu : command_read
                    (menu_events ++ e1 ++ DigitalRead START_BUTTON_PIN v
                     :: (if v then [SerialAvailable n] else [])) = None /\
                  forallb background
                    (menu_events ++ e1 ++ DigitalRead START_BUTTON_PIN v
                     :: (if v then [SerialAvailable n] else [])) = true).
  { split.
    - rewrite command_read_app by reflexivity.
      rewrite command_read_app by exact Hc. destruct v; reflexivity.
    - rewrite !forallb_app, Hb. destruct v; reflexivity. }
  destruct Hmenu as (Hmc & Hmb).
  remember (menu_events ++ e1 ++ DigitalRead START_BUTTON_PIN v
            :: (if v then [SerialAvailable n] else [])) as menu eqn:Em.
  clear Em.
  destruct (negb v || (0 <? n)).
  - right. split; [reflexivity|].
    destruct (session hw fuel (button_sampled w1)) as [[[u0 sevs] w0]|] eqn:Es;
      [|discriminate].
    injection H as <- <- <-.
    apply session_trace in Es.
    destruct Es as (sig & es & ws & after & _ & _ & _ & -> & Hd).
    cbn [button_sampled serial_in]. rewrite Hs. split.
    + rewrite command_read_app by exact Hmc. reflexivity.
    + eexists (_ ++ SerialRead _ :: Delay 100 :: drain_events _), after.
      split; [|split; [exact Hd|]].
      * rewrite forallb_app, Hmb. cbn [forallb background andb].
        apply drain_events_background.
      * rewrite <- app_assoc. reflexivity.
  - left. split; [reflexivity|]. injection H as <- <- <-. auto.
Qed.

(** X11. A pass whose read of line 102 found the receive buffer empty,
    so that [Serial.read()] gave -1, is a pass started by the button;
    it runs in write-defaults mode: after the reads it writes the
    default fuses of the signature it found, none for an unknown one,
    and reads the fuses and the lock bits again.  On a board whose
    waits end and whose button gets released, when no byte is received,
    such a pass takes place, and returns, as soon as the button reads
    pressed at two samples in a row, those of lines 98 and 100. *)
Theorem button_start_writes_defaults hw fuel w :
  (forall n k,
     settles hw n -> released hw n -> (n <= fuel)%nat -> (k < fuel)%nat ->
     serial_in w = [] ->
     (forall i, (i < k)%nat -> btn_line hw (btn_reads w + i) = true) ->
     btn_line hw (btn_reads w + k) = false ->
     btn_line hw (btn_reads w + S k) = false ->
     exists evs w',
       loop hw fuel w = Some (tt, evs, w') /\ command_read evs = Some (-1)) /\
  (forall u evs w',
     loop hw fuel w = Some (u, evs, w') ->
     command_read evs = Some (-1) ->
     exists tSignature,
       signature_of evs = Some tSignature /\
       commands evs =
         signature_commands ++ fuse_read_commands ++ lock_read_commands ++
         default_write_commands tSignature ++
         fuse_read_commands ++ lock_read_commands).
Proof.
  split.
  - intros n k Hs Hr Hn Hk Hrx Hhigh Hlow Hnext.
    destruct (loop_returns hw n fuel Hs Hr Hn w) as (evs & w' & E).
    { right. exists k. split; assumption. }
    exists evs, w'. split; [exact E|].
    destruct (waitStart_exit hw k fuel w Hk Hrx Hhigh Hlow) as (e1 & Ew).
    apply loop_command in E. destruct E as (e1' & w1 & Ew' & Hcase).
    rewrite Ew in Ew'. injection Ew' as <- <-. cbn [btn_reads] in Hcase.
    rewrite Hnext in Hcase.
    destruct Hcase as [(F & _)|(_ & Hc & _)]; [discriminate F|].
    rewrite Hc, Hrx. reflexivity.
  - intros u evs w' H Hc.
    pose proof (loop_pass _ _ _ _ _ _ H) as P.
    apply loop_command in H. destruct H as (e1 & w1 & _ & Hcase).
    destruct Hcase as [(_ & F & _)|(_ & Hc' & menu & after & _ & _ & ->)];
      [congruence|].
    assert (Hmode : requested_mode (received w) = write_defaults).
    { unfold received. replace (hd (-1) (serial_in w)) with (-1) by congruence.
      reflexivity. }
    destruct P as [(Hb & _)|(sig & body & b1 & b2 & Hsig & _ & Hcmd & _)].
    + exfalso. apply (background_no_write _ LED_BUILTIN HIGH Hb).
      apply in_or_app. right. left. reflexivity.
    + exists sig. split; [exact Hsig|]. rewrite Hmode in Hcmd. exact Hcmd.
Qed.

Lemma button_start_writes_defaults_witness :
  exists evs w',
    loop (pressed_board [0; 0; 0; 0x93; 0; 0; 0; 0x0B] 2) 100 (power_on [])
    = Some (tt, evs, w') /\
    command_read evs = Some (-1) /\
    signature_of evs = Some 0x930B /\
    In (0x62, 0x2C) (commands evs).
Proof.
  destruct (button_start_writes_defaults
              (pressed_board [0; 0; 0; 0x93; 0; 0; 0; 0x0B] 2) 100 (power_on []))
    as [Hret Hrun].
  destruct (Hret 97%nat 0%nat) as (evs & w' & E & Hc).
  - apply (settles_pressed_board [_; _; _; _; _; _; _; _]).
  - apply released_pressed_board. lia.
  - lia.
  - lia.
  - reflexivity.
  - intros i Hi. lia.
  - reflexivity.
  - reflexivity.
  - exists evs, w'. split; [exact E|]. split; [exact Hc|].
    destruct (Hrun _ _ _ E Hc) as (sig & Hsig & Hcmd).
    assert (Es : sig = 0x930B).
    { vm_compute in E. injection E as <- <-. vm_compute in Hsig. congruence. }
    subst sig. split; [exact Hsig|]. rewrite Hcmd. vm_compute. tauto.
Defined.

(** X15. The bytes that wait behind the command when a pass starts,
    such as the end of the line typed with it, have no effect: two
    passes that start at the same point with the same first byte
    waiting, whatever follows it in the buffer, do the same things, and
    the second returns when the first does; they differ only in the
    bytes that the drain of lines 106-108 asks for and reads. *)
Theorem trailing_bytes_ignored hw fuel w1 w2 c rest1 rest2 u evs1 w1' :
  serial_in w1 = c :: rest1 -> serial_in w2 = c :: rest2 ->
  sdo_reads w2 = sdo_reads w1 -> btn_reads w2 = btn_reads w1 ->
  clock_reads w2 = clock_reads w1 ->
  loop hw fuel w1 = Some (u, evs1, w1') ->
  exists evs2 w2',
    loop hw fuel w2 = Some (u, evs2, w2') /\ acts evs2 = acts evs1.
Proof.
  intros Hrx1 Hrx2 Hsdo Hbtn Hclk H.
  rewrite loop_unfold in H |- *.
  destruct fuel as [|fuel]; [discriminate H|].
  rewrite waitStart_typed in H |- * by congruence.
  cbv zeta in H |- *. rewrite Hbtn.
  set (v := btn_line hw (btn_reads w1)) in *.
  assert (Hgo : forall rx : list Z, rx <> [] ->
                  negb v || (0 <? Z.of_nat (List.length rx)) = true).
  { intros rx Hne. destruct rx; [congruence|].
    replace (0 <? Z.of_nat (List.length (z :: rx))) with true
      by (symmetry; apply Z.ltb_lt; cbn [List.length]; lia).
    apply orb_true_r. }
  rewrite Hgo in H |- * by congruence.
  unfold session in H |- *.
  rewrite (bind_run _ _ _ _ _ _ (Serial_read_run _)) in H.
  rewrite (bind_run _ _ _ _ _ _ (Serial_read_run _)).
  unfold delay in H |- *. rewrite emit_bind in H. rewrite emit_bind.
  match type of H with
  | context [bind drainSerial ?k ?wa] =>
      rewrite (bind_run _ k wa _ _ _ (drainSerial_run wa)) in H
  end.
  match goal with
  | |- context [bind drainSerial ?k ?wa] =>
      rewrite (bind_run _ k wa _ _ _ (drainSerial_run wa))
  end.
  unfold drained, button_sampled in H |- *.
  cbn [serial_in sdo_reads btn_reads clock_reads] in H |- *.
  rewrite Hrx1 in H. rewrite Hrx2, Hsdo, Hbtn, Hclk. cbn [hd tl] in H |- *.
  match type of H with
  | context [bind powerUp ?K ?wa] =>
      assert (D : deaf (bind powerUp K));
      [|destruct (bind powerUp K wa) as [[[u0 e0] w0]|] eqn:E;
        [|discriminate H]]
  end.
  { pose proof (deaf_reading hw (S fuel)) as (D1 & D2 & D3).
    unfold powerUp, powerDown.
    repeat first
      [ apply deaf_readSignature
      | exact D1 | exact D2 | exact D3
      | apply deaf_restoreFuses
      | apply deaf_ret
      | apply deaf_if
      | apply deaf_bind; [|intros]
      | apply deaf_emit; reflexivity ]. }
  injection H as <- <- <-.
  eexists _, _. split; [reflexivity|].
  destruct v;
    repeat (rewrite ?acts_app, ?acts_cons, ?acts_drain_events;
            cbn [serial_input negb]);
    reflexivity.
Qed.

Lemma trailing_bytes_ignored_witness :
  exists evs1 w1' evs2 w2',
    loop (target [0; 0; 0; 0x93; 0; 0; 0; 0x0B]) 100
         (power_on [101; 13; 10]) = Some (tt, evs1, w1') /\
    loop (target [0; 0; 0; 0x93; 0; 0; 0; 0x0B]) 100
         (power_on [101]) = Some (tt, evs2, w2') /\
    acts evs2 = acts evs1.
Proof.
  destruct (loop (target [0; 0; 0; 0x93; 0; 0; 0; 0x0B]) 100
              (power_on [101; 13; 10])) as [[[[] evs1] w1']|] eqn:E;
    [|vm_compute in E; discriminate].
  destruct (trailing_bytes_ignored
              (target [0; 0; 0; 0x93; 0; 0; 0; 0x0B]) 100
              (power_on [101; 13; 10]) (power_on [101]) 101 [13; 10] []
              tt evs1 w1' eq_refl eq_refl eq_refl eq_refl eq_refl E)
    as (evs2 & w2' & E2 & Ha).
  exists evs1, w1', evs2, w2'. auto.
Defined.

(** *** After the first pin is set *)

Lemma suffix_after (a b pre post : list event) x :
  a ++ b = pre ++ x :: post ->
  ~ In x a ->
  exists b1, b = b1 ++ x :: post.
Proof.
  revert pre. induction a as [|e a IH]; intros pre H Hx.
  - exists pre. exact H.
  - destruct pre as [|p pre]; cbn [app] in H; injection H as He H.
    + exfalso. apply Hx. left. exact He.
    + apply (IH pre H). intros F. apply Hx. right. exact F.
Qed.

(** X16. Once a pass of [loop] has set a pin, it does not look at the
    serial line again: in a pass that returns, no [Serial.available()]
    and no [Serial.read()] comes after a [digitalWrite].  What is typed
    while the target is being programmed is neither read nor discarded
    by that pass. *)
Theorem no_serial_poll_after_pin_write hw fuel w u evs w' pre p v post :
  loop hw fuel w = Some (u, evs, w') ->
  evs = pre ++ DigitalWrite p v :: post ->
  forallb (fun e => negb (serial_input e)) post = true.
Proof.
  intros H Hsplit. apply loop_command in H.
  destruct H as (e1 & w1 & _ & [(_ & _ & Hb)|(_ & _ & menu & after & Hm & Hd & ->)]).
  - exfalso. apply (background_no_write _ p v Hb).
    rewrite Hsplit. apply in_or_app. right. left. reflexivity.
  - destruct (suffix_after menu _ pre post _ Hsplit) as (b1 & Hb1).
    { intros F. exact (background_no_write _ _ _ Hm F). }
    assert (Hall : forallb (fun e => negb (serial_input e))
                     (DigitalWrite LED_BUILTIN HIGH :: after) = true)
      by exact Hd.
    rewrite Hb1, forallb_app in Hall.
    apply andb_prop in Hall. destruct Hall as (_ & Hall).
    cbn [forallb] in Hall. apply andb_prop in Hall. tauto.
Qed.

Lemma no_serial_poll_after_pin_write_witness :
  exists evs w',
    loop (target [0; 0; 0; 0x93; 0; 0; 0; 0x0B]) 100 (power_on [119; 13; 10])
    = Some (tt, evs, w') /\
    nth_error evs 15 = Some (DigitalWrite LED_BUILTIN HIGH) /\
    forallb (fun e => negb (serial_input e)) (skipn 16 evs) = true.
Proof.
  destruct (loop (target [0; 0; 0; 0x93; 0; 0; 0; 0x0B]) 100
              (power_on [119; 13; 10])) as [[[[] evs] w']|] eqn:E;
    [|vm_compute in E; discriminate].
  assert (Hsplit : evs = firstn 15 evs ++ DigitalWrite LED_BUILTIN HIGH
                         :: skipn 16 evs).
  { vm_compute in E. injection E as <- <-. reflexivity. }
  exists evs, w'. split; [reflexivity|]. split.
  - vm_compute in E. injection E as <- <-. reflexivity.
  - exact (no_serial_poll_after_pin_write _ _ _ _ _ _ _ _ _ _ E Hsplit).
Defined.

(** * Passes that do not return *)

(** ** Fuel *)



(** ** A response line that stays low *)



(** ** Where a pass can stay *)







(** ** A target that never answers *)

Lemma times_ret {A} t0 (a : A) : times_out t0 (ret a) 0.
Proof. intros w _. exists a, [], w. split; [reflexivity|lia]. Qed.

Lemma times_emit t0 e : times_out t0 (emit e) 0.
Proof. intros w _. exists tt, [e], w. split; [reflexivity|lia]. Qed.

Lemma times_bind {A B} t0 (m : M A) (k : A -> M B) b1 b2 :
  times_out t0 m b1 -> (forall a, times_out t0 (k a) b2) ->
  times_out t0 (bind m k) (b1 + b2).
Proof.
  intros Hm Hk w Hw.
  destruct (Hm w) as (a & e1 & w1 & E1 & H1); [lia|].
  destruct (Hk a w1) as (b & e2 & w2 & E2 & H2); [lia|].
  rewrite (bind_run _ _ _ _ _ _ E1), E2.
  eexists _, _, _. split; [reflexivity|lia].
Qed.

Lemma times_weaken {A} t0 (m : M A) b b' :
  times_out t0 m b -> (b <= b')%nat -> times_out t0 m b'.
Proof.
  intros Hm Hle w Hw. destruct (Hm w) as (a & e & w' & E & H); [lia|].
  exists a, e, w'. split; [exact E|lia].
Qed.

Lemma times_if {A} t0 (c : bool) (m1 m2 : M A) b1 b2 :
  times_out t0 m1 b1 -> times_out t0 m2 b2 ->
  times_out t0 (if c then m1 else m2) (Nat.max b1 b2).
Proof.
  intros H1 H2. destruct c;
    [apply (times_weaken _ _ _ _ H1)|apply (times_weaken _ _ _ _ H2)]; lia.
Qed.

Lemma times_Serial_read t0 : times_out t0 Serial_read 0.
Proof.
  intros w _. rewrite Serial_read_run.
  eexists _, _, _. split; [reflexivity|]. cbn [clock_reads]. lia.
Qed.

Lemma times_drainSerial t0 : times_out t0 drainSerial 0.
Proof.
  intros w _. rewrite drainSerial_run.
  eexists _, _, _. split; [reflexivity|]. cbn [drained clock_reads]. lia.
Qed.

Section Silent.

Variable hw : board.
Variable t0 : Z.
Variable fuel : nat.
Hypothesis Hlow : forall n, sdo_line hw n = false.
Hypothesis Hclock : forall k, clock hw k = t0 + Z.of_nat k.
Hypothesis Ht0 : 0 <= t0.
Hypothesis Hfuel : (300 < fuel)%nat.

Lemma times_waitSDO : times_out t0 (waitSDO hw fuel) 1.
Proof using Hlow Hclock Ht0 Hfuel.
  intros w Hw.
  assert (Hsum : uint32 (uint32 (clock hw (clock_reads w))
                         + READING_TIMEOUT_MILLIS)
                 = t0 + Z.of_nat (clock_reads w) + 300).
  { rewrite Hclock. unfold uint32, READING_TIMEOUT_MILLIS.
    rewrite (Z.mod_small (t0 + Z.of_nat (clock_reads w))) by lia.
    rewrite Z.mod_small by lia. reflexivity. }
  assert (Hck : forall i, (i <= 300)%nat ->
                  uint32 (clock hw (clock_reads w + 1 + i))
                  = t0 + Z.of_nat (clock_reads w) + 1 + Z.of_nat i).
  { intros i Hi. rewrite Hclock. unfold uint32. rewrite Z.mod_small; lia. }
  destruct (waitSDO_exit hw 300 fuel w) as (e1 & w1 & Hw1 & _ & H2 & _).
  - exact Hfuel.
  - intros i Hi. split; [apply Hlow|]. rewrite Hsum, Hck by lia. lia.
  - right. rewrite Hsum, Hck by lia. lia.
  - exists tt, e1, w1. split; [exact Hw1|]. rewrite H2, Hlow. lia.
Qed.

Lemma times_shiftOut aValue aAddress :
  0 <= aValue < 256 -> 0 <= aAddress < 256 ->
  times_out t0 (shiftOut hw fuel aValue aAddress) 1.
Proof using Hlow Hclock Ht0 Hfuel.
  intros Hv Ha w Hw.
  destruct (times_waitSDO w Hw) as ([] & e0 & w0 & E & H).
  rewrite (shiftOut_run _ _ _ _ _ _ _ Hv Ha E).
  eexists _, _, _. split; [reflexivity|]. exact H.
Qed.

Lemma times_digitalRead p : times_out t0 (digitalRead hw p) 0.
Proof.
  intros w _. destruct p;
    try (eexists _, _, _; split; [reflexivity|cbn [clock_reads]; lia]).
Qed.

Hypothesis Hreleased : forall n, btn_line hw n = true.

Lemma times_waitRelease : times_out t0 (waitRelease hw fuel) 0.
Proof using Hfuel Hreleased.
  intros w _. destruct fuel as [|f] eqn:Ef; [lia|]. cbn [waitRelease].
  rewrite (bind_run _ _ _ _ _ _
             (eq_refl : digitalRead hw START_BUTTON_PIN w = Some _)).
  rewrite Hreleased.
  eexists _, _, _. split; [reflexivity|]. cbn [clock_reads]. lia.
Qed.

Ltac times_one :=
  lazymatch goal with
  | |- times_out _ (ret _) _ => apply times_ret
  | |- times_out _ (waitSDO _ _) _ => apply times_waitSDO
  | |- times_out _ (shiftOut _ _ _ _) _ =>
      apply times_shiftOut;
      try (unfold uint8; match goal with
                         | |- 0 <= ?x mod 256 < 256 =>
                             apply Z.mod_pos_bound
                         end); lia
  | |- times_out _ (waitRelease _ _) _ => apply times_waitRelease
  | |- times_out _ Serial_read _ => apply times_Serial_read
  | |- times_out _ drainSerial _ => apply times_drainSerial
  | |- times_out _ (if _ then _ else _) _ =>
      eapply times_if; [times_one|times_one]
  | |- times_out _ (bind _ _) _ =>
      eapply times_bind; [times_one | intros; times_one]
  | |- times_out _ _ _ => apply times_emit
  end.

Lemma times_readSignature : times_out t0 (readSignature hw fuel) 8.
Proof using Hlow Hclock Ht0 Hfuel.
  rewrite readSignature_unfold.
  eapply times_weaken; [times_one|]. vm_compute. lia.
Qed.

Lemma times_readFuses : times_out t0 (readFuses hw fuel) 9.
Proof using Hlow Hclock Ht0 Hfuel.
  unfold readFuses. eapply times_weaken; [times_one|]. vm_compute. lia.
Qed.

Lemma times_readLockBits : times_out t0 (readLockBits hw fuel) 4.
Proof using Hlow Hclock Ht0 Hfuel.
  unfold readLockBits. eapply times_weaken; [times_one|]. vm_compute. lia.
Qed.

Lemma times_eraseFlashAndLockBits :
  times_out t0 (eraseFlashAndLockBits hw fuel) 4.
Proof using Hlow Hclock Ht0 Hfuel.
  unfold eraseFlashAndLockBits.
  eapply times_weaken; [times_one|]. vm_compute. lia.
Qed.

Lemma times_writeFuse aFuseAddress aFuseValue :
  0 <= aFuseValue < 256 ->
  times_out t0 (writeFuse hw fuel aFuseAddress aFuseValue) 4.
Proof using Hlow Hclock Ht0 Hfuel.
  intros Hv. unfold writeFuse.
  eapply times_weaken; [times_one|]. vm_compute. lia.
Qed.

Ltac times_one ::=
  lazymatch goal with
  | |- times_out _ (ret _) _ => apply times_ret
  | |- times_out _ (waitSDO _ _) _ => apply times_waitSDO
  | |- times_out _ (shiftOut _ _ _ _) _ =>
      apply times_shiftOut; lia
  | |- times_out _ (waitRelease _ _) _ => apply times_waitRelease
  | |- times_out _ (readSignature _ _) _ => apply times_readSignature
  | |- times_out _ (readFuses _ _) _ => apply times_readFuses
  | |- times_out _ (readLockBits _ _) _ => apply times_readLockBits
  | |- times_out _ (eraseFlashAndLockBits _ _) _ =>
      apply times_eraseFlashAndLockBits
  | |- times_out _ (writeFuse _ _ _ _) _ => apply times_writeFuse; lia
  | |- times_out _ Serial_read _ => apply times_Serial_read
  | |- times_out _ drainSerial _ => apply times_drainSerial
  | |- times_out _ (if _ then _ else _) _ =>
      eapply times_if; [times_one|times_one]
  | |- times_out _ (bind _ _) _ =>
      eapply times_bind; [times_one | intros; times_one]
  | |- times_out _ _ _ => apply times_emit
  end.




End Silent.

(** * The unknown device and the power-down *)









(** The paths through the waits that time out end in the same way: with
    the response line held low every wait of the session runs into its
    timeout, and the pass still switches the target off. *)
Example power_down_after_timeouts :
  match loop (silent_board 0) 400 (power_on [114]) with
  | Some (_, evs, _) =>
      last_n 7 evs = power_down_events /\
      level_of VCC evs HIGH = LOW /\ level_of RST evs LOW = HIGH
  | None => False
  end.
Proof. vm_compute. repeat split. Qed.
